(** * JustStreamIt front end: a shallow embedding and its verified properties

    The development follows the layout of [front/scripts]:
    - [Api]          : api.js (page fetcher, genre aggregator, movie pages)
    - [FecthFunctions] : fecth_functions.js (the older fetch module)
    - [UiComponents] : ui-components.js (image fallback, cards, banner)
    - [Categories]   : categories.js (page aggregation, category rendering)
    - [HtmlInject]   : html_inject.js (the older category renderer)
    - [Modal]        : modal.js (details modal, box-office formatting)

    Conventions of the embedding.
    - JavaScript strings are [string] (sequences of bytes, UTF-8).
    - Numbers that the code uses as counters, page numbers, identifiers and
      amounts are integers ([Z] or [nat]); where the code divides
      ([formatBoxOffice]) the IEEE-754 binary64 rounding is written out on [Z].
    - [null] and [undefined] are [None].
    - An exception is a value of [Js]: [Throw e] or [Return a].
    - The DOM is explicit state ([Document]), threaded by the [Dom] monad.
    - The console is not part of the state: no property below reads it. *)

From Stdlib Require Import ZArith List String Ascii Bool Lia DecimalString.
From stdpp Require Import base option list strings gmap.
Import ListNotations.

Local Open Scope string_scope.
Local Open Scope list_scope.
Local Open Scope Z_scope.

(** ** JavaScript preliminaries *)

Module JS.

(** Error objects, by constructor. *)
Inductive JsError : Type :=
| Error (message : string)
| TypeError (message : string)
| RangeError (message : string)
| SyntaxError (message : string)
| NetworkError (message : string).

(** A computation that returns or throws. *)
Inductive Js (A : Type) : Type :=
| Throw (e : JsError)
| Return (a : A).
Arguments Throw {A} e.
Arguments Return {A} a.

Definition js_bind {A B} (c : Js A) (k : A -> Js B) : Js B :=
  match c with
  | Throw e => Throw e
  | Return a => k a
  end.

(** [try { body } catch (error) { handler }] *)
Definition try_catch {A} (body : Js A) (handler : JsError -> Js A) : Js A :=
  match body with
  | Throw e => handler e
  | Return a => Return a
  end.

Definition returns {A} (c : Js A) : Prop := exists a, c = Return a.

(** [await Promise.all(promises)]: the values in the order of the array;
    rejects with the first rejection. *)
Fixpoint promise_all {A} (promises : list (Js A)) : Js (list A) :=
  match promises with
  | [] => Return []
  | p :: ps =>
      js_bind p (fun a => js_bind (promise_all ps) (fun rest => Return (a :: rest)))
  end.

(** [`${n}`] for an integer. *)
Definition string_of_Z (n : Z) : string := NilZero.string_of_int (Z.to_int n).
Definition string_of_nat (n : nat) : string := string_of_Z (Z.of_nat n).

(** Truthiness of a string, and of a value that may be null or undefined. *)
Definition truthy_string (s : string) : bool :=
  match s with
  | EmptyString => false
  | String _ _ => true
  end.

Definition truthy_opt_string (o : option string) : bool :=
  match o with
  | None => false
  | Some s => truthy_string s
  end.

(** [a || b] on strings that may be null. *)
Definition or_string (o : option string) (dflt : string) : string :=
  if truthy_opt_string o then default dflt o else dflt.

(** [Math.ceil(n / d)] for integers [n] and a positive [d]. *)
Definition ceil_div (n d : Z) : Z := - ((- n) / d).

(** [array.slice(0, end)] for an integer [end]: a negative [end] counts from
    the end of the array. *)
Definition slice0 {A} (l : list A) (end_ : Z) : list A :=
  let len := Z.of_nat (length l) in
  let final := if end_ <? 0 then Z.max (len + end_) 0 else Z.min end_ len in
  take (Z.to_nat final) l.

(** [encodeURIComponent]: every byte is escaped as [%XX] but the unreserved
    characters [A-Z a-z 0-9 - _ . ! ~ * ' ( )]. *)
Definition is_digit (c : ascii) : bool :=
  let n := nat_of_ascii c in (48 <=? n)%nat && (n <=? 57)%nat.

Definition is_alpha (c : ascii) : bool :=
  let n := nat_of_ascii c in
  ((65 <=? n)%nat && (n <=? 90)%nat) || ((97 <=? n)%nat && (n <=? 122)%nat).

Definition is_uri_mark (c : ascii) : bool :=
  existsb (Ascii.eqb c)
    ["-"; "_"; "."; "!"; "~"; "*"; "'"; "("; ")"]%char.

Definition is_unreserved (c : ascii) : bool :=
  is_alpha c || is_digit c || is_uri_mark c.

Definition hex_digit (n : nat) : ascii :=
  if (n <? 10)%nat then ascii_of_nat (48 + n) else ascii_of_nat (55 + n).

Definition percent_escape (c : ascii) : string :=
  let n := nat_of_ascii c in
  String "%" (String (hex_digit (n / 16)) (String (hex_digit (n mod 16)) EmptyString)).

Fixpoint encodeURIComponent (s : string) : string :=
  match s with
  | EmptyString => EmptyString
  | String c rest =>
      (if is_unreserved c then String c EmptyString else percent_escape c)
        +:+ encodeURIComponent rest
  end.

End JS.
Export JS.

Declare Scope js_scope.
Delimit Scope js_scope with js.
Notation "'do' x <- c ; k" := (js_bind c (fun x => k))
  (at level 10, x name, c at level 100, k at level 200) : js_scope.

(** ** The backend, as the page sees it *)

(** A page envelope [{ results, next }]; either field may be missing. *)
Record Envelope (T : Type) : Type := mkEnvelope {
  results : option (list T);
  next : option string
}.
Arguments mkEnvelope {T} results next.
Arguments results {T} e.
Arguments next {T} e.

(** A resolved [fetch]: the [Response] object. [json] is the outcome of
    [response.json()], which throws a SyntaxError on a body that is not JSON;
    a body that is the JSON literal [null] parses to [None]. *)
Record Response (T : Type) : Type := mkResponse {
  ok : bool;
  status : Z;
  json : Js (option (Envelope T))
}.
Arguments mkResponse {T} ok status json.
Arguments ok {T} r.
Arguments status {T} r.
Arguments json {T} r.

(** [response && response.results]: the list to append, if any. *)
Definition truthy_results {T} (response : option (Envelope T)) : option (list T) :=
  match response with
  | None => None
  | Some env => results env
  end.

(** [allMovies.concat(response.results)] under the guard above. *)
Definition results_of {T} (response : option (Envelope T)) : list T :=
  default [] (truthy_results response).

(** [if (response && response.results) all = all.concat(response.results)]:
    one step of the loops that combine pages. *)
Definition combine {T} (all : list T) (response : option (Envelope T))
  : list T :=
  match truthy_results response with
  | Some rs => all ++ rs
  | None => all
  end.

(** [!data || !data.next] *)
Definition no_next_page {T} (data : option (Envelope T)) : bool :=
  match data with
  | None => true
  | Some env => negb (truthy_opt_string (next env))
  end.

(** ** api.js *)

Module Api.

Definition baseUrl : string := "http://127.0.0.1:8000/api/v1".
Definition genresEndpoint : string := "/genres/".
Definition titlesEndpoint : string := "/titles/".

Section Network.
Context {T : Type}.
(** [fetch(url)]: [Throw] is a rejected promise (network error). *)
Variable fetch : string -> Js (Response T).

Definition fetchPage (url : string) (page : nat) (queryParams : string)
  : Js (option (Envelope T)) :=
  try_catch
    (let fullUrl := url +:+ "?page=" +:+ string_of_nat page in
     let fullUrl :=
       if truthy_string queryParams then fullUrl +:+ "&" +:+ queryParams
       else fullUrl in
     (do response <- fetch fullUrl;
      if negb (ok response)
      then Throw (Error ("Erreur HTTP: " +:+ string_of_Z (status response)))
      else
        do data <- json response;
        Return data)%js)
    (fun error => Return None).

(** The body of the [for] loop of [fetchGenres], with the pages left to
    visit as fuel: [page <= maxPages] holds for exactly [fuel] more pages. *)
Fixpoint fetchGenres_loop (fuel : nat) (page : nat) (allGenres : list T)
  : Js (list T) :=
  match fuel with
  | O => Return allGenres
  | S fuel' =>
      (do data <- fetchPage (baseUrl +:+ genresEndpoint) page "";
       let allGenres := combine allGenres data in
       if no_next_page data then Return allGenres
       else fetchGenres_loop fuel' (S page) allGenres)%js
  end.

Definition fetchGenres (maxPages : nat) : Js (list T) :=
  try_catch (fetchGenres_loop maxPages 1 []) (fun error => Return []).

Definition fetchMovies (page : nat) (queryParams : string)
  : Js (option (Envelope T)) :=
  try_catch
    (do data <- fetchPage (baseUrl +:+ titlesEndpoint) page queryParams;
     Return data)%js
    (fun error => Return None).
End Network.

End Api.

(** ** fecth_functions.js *)

Module FecthFunctions.

Definition API_BASE_URL : string := "http://127.0.0.1:8000/api/v1".
Definition GENRES_URL : string := API_BASE_URL +:+ "/genres/".
Definition TITLES_URL : string := API_BASE_URL +:+ "/titles/".

Section Network.
Context {T : Type}.
Variable fetch : string -> Js (Response T).

Definition fetchPage (url : string) (page : nat) (args : string)
  : Js (option (Envelope T)) :=
  try_catch
    (let urlWithPage := url +:+ "?page=" +:+ string_of_nat page in
     let urlWithPage :=
       if truthy_string args then urlWithPage +:+ "&" +:+ args
       else urlWithPage in
     (do response <- fetch urlWithPage;
      if negb (ok response)
      then Throw (Error ("Erreur HTTP: " +:+ string_of_Z (status response)))
      else
        do data <- json response;
        Return data)%js)
    (fun error => Return None).

(** The loop runs for pages 1..5. *)
Fixpoint fetchGenres_loop (fuel : nat) (page : nat) (genresData : list T)
  : Js (list T) :=
  match fuel with
  | O => Return genresData
  | S fuel' =>
      (do data <- fetchPage GENRES_URL page "";
       let genresData := combine genresData data in
       if no_next_page data then Return genresData
       else fetchGenres_loop fuel' (S page) genresData)%js
  end.

(** The [catch] block has no [return]: it yields [undefined] ([None]). *)
Definition fetchGenres : Js (option (list T)) :=
  try_catch
    (do genresData <- fetchGenres_loop 5 1 []; Return (Some genresData))%js
    (fun error => Return None).

(** The module variable [titlesData] is assigned and never read again;
    it is left out of the state. *)
Definition fetchTitles (page : nat) (args : string)
  : Js (option (Envelope T)) :=
  try_catch
    (do titlesData <- fetchPage TITLES_URL page args; Return titlesData)%js
    (fun error => Return None).
End Network.

End FecthFunctions.

(** ** Data model *)

(** A movie as the titles endpoint lists it; the detail record adds the two
    descriptions that the banner reads. *)
Record Movie : Type := mkMovie {
  movie_id : Z;
  title : string;
  image_url : option string;
  long_description : option string;
  description : option string
}.

Record Genre : Type := mkGenre { name : string }.

(** [{ label, value }], as the dropdowns use genres. *)
Record GenreOption : Type := mkGenreOption { label : string; value : string }.

(** ** The DOM *)

Module DOM.

(** The [onerror] closures that the scripts install, with the variables they
    capture. *)
Inductive ErrorHandler : Type :=
| SetupImageOnError (errorHandled : bool) (altText : string) (width height : Z)
| CardOnError (errorHandled : bool) (movieTitle : string)
| PosterOnError.

(** An [<img>]. [src_log] records every value assigned to [src], oldest first:
    each assignment starts a load of that source. *)
Record Img : Type := mkImg {
  src : string;
  alt : string;
  width_attr : option Z;
  onerror : option ErrorHandler;
  src_log : list string
}.

Definition set_src (v : string) (i : Img) : Img :=
  mkImg v (alt i) (width_attr i) (onerror i) (src_log i ++ [v]).
Definition set_alt (v : string) (i : Img) : Img :=
  mkImg (src i) v (width_attr i) (onerror i) (src_log i).
Definition set_width (v : Z) (i : Img) : Img :=
  mkImg (src i) (alt i) (Some v) (onerror i) (src_log i).
Definition set_onerror (h : option ErrorHandler) (i : Img) : Img :=
  mkImg (src i) (alt i) (width_attr i) h (src_log i).

(** Any other element: its text and its [data-*] attributes. *)
Record Element : Type := mkElement {
  textContent : string;
  dataset : gmap string string
}.

Definition set_textContent (v : string) (e : Element) : Element :=
  mkElement v (dataset e).
Definition set_data (k v : string) (e : Element) : Element :=
  mkElement (textContent e) (<[k := v]> (dataset e)).

(** The content of the card template, seen through the three selectors that
    the scripts query; [None] is a selector that matches nothing. *)
Record CardFragment : Type := mkCard {
  movie_image : option Img;      (* .movie-image *)
  movie_title : option Element;  (* .movie-title *)
  details_btn : option Element   (* .details-btn *)
}.

(** The page: the card template, the containers that [querySelector] finds
    (keyed by selector, with their children), and the banner slots. *)
Record Document : Type := mkDocument {
  movie_card_template : option CardFragment;
  containers : gmap string (list CardFragment);
  best_movie_image : option Img;
  best_movie_title : option Element;
  best_movie_description : option Element;
  best_movie_details_button : option Element
}.

Definition set_containers (c : gmap string (list CardFragment)) (d : Document)
  : Document :=
  mkDocument (movie_card_template d) c (best_movie_image d) (best_movie_title d)
    (best_movie_description d) (best_movie_details_button d).

(** Computations on the page: they read and update the document, and return
    or throw. What was done before a throw stays done. *)
Definition Dom (A : Type) : Type := Document -> Js A * Document.

Definition dom_ret {A} (a : A) : Dom A := fun d => (Return a, d).
Definition dom_throw {A} (e : JsError) : Dom A := fun d => (Throw e, d).
Definition dom_bind {A B} (c : Dom A) (k : A -> Dom B) : Dom B :=
  fun d =>
    match c d with
    | (Throw e, d') => (Throw e, d')
    | (Return a, d') => k a d'
    end.
Definition dom_lift {A} (c : Js A) : Dom A := fun d => (c, d).

(** [document.querySelector(selector)] for a container: is there one. *)
Definition querySelector (selector : string) : Dom bool :=
  fun d => (Return (bool_decide (is_Some (containers d !! selector))), d).

(** [container.innerHTML = ''] *)
Definition clear_innerHTML (selector : string) : Dom unit :=
  fun d => (Return tt, set_containers (<[selector := []]> (containers d)) d).

(** [container.appendChild(node)]; appending [null] is a TypeError. *)
Definition appendChild (selector : string) (node : option CardFragment)
  : Dom unit :=
  match node with
  | None => dom_throw (TypeError "parameter 1 is not of type 'Node'")
  | Some card =>
      fun d =>
        (Return tt,
         set_containers (alter (fun l => l ++ [card]) selector (containers d)) d)
  end.

(** [array.forEach(f)] *)
Fixpoint dom_forEach {A} (f : A -> Dom unit) (l : list A) : Dom unit :=
  match l with
  | [] => dom_ret tt
  | x :: rest => dom_bind (f x) (fun _ => dom_forEach f rest)
  end.

End DOM.
Export DOM.

Declare Scope dom_scope.
Delimit Scope dom_scope with dom.
Notation "'do' x <- c ; k" := (dom_bind c (fun x => k))
  (at level 10, x name, c at level 100, k at level 200) : dom_scope.
Notation "c ;; k" := (dom_bind c (fun _ => k))
  (at level 100, k at level 200, right associativity) : dom_scope.

(** Assignments through a reference that may be [null]: a TypeError then. *)
Definition assign_textContent (e : option Element) (v : string) : Js Element :=
  match e with
  | None => Throw (TypeError "Cannot set properties of null (setting 'textContent')")
  | Some el => Return (set_textContent v el)
  end.

Definition assign_data (e : option Element) (k v : string) : Js Element :=
  match e with
  | None => Throw (TypeError "Cannot read properties of null (reading 'dataset')")
  | Some el => Return (set_data k v el)
  end.

(** ** ui-components.js *)

Module UiComponents.

Definition createFallbackImageUrl (text : string) (width height : Z) : string :=
  let encodedText := encodeURIComponent text in
  "data:image/svg+xml,%3Csvg xmlns='http://www.w3.org/2000/svg' width='"
  +:+ string_of_Z width +:+ "' height='" +:+ string_of_Z height
  +:+ "'%3E%3Crect width='" +:+ string_of_Z width
  +:+ "' height='" +:+ string_of_Z height
  +:+ "' fill='%23666666'/%3E%3Ctext x='50%25' y='50%25' dominant-baseline='middle' text-anchor='middle' font-family='Arial' font-size='20' fill='white'%3E"
  +:+ encodedText +:+ "%3C/text%3E%3C/svg%3E".

(** The handler that [setupImage] installs, run on the image [this]. The
    assignment [errorHandled = true] is to a variable that only this handler
    reads, and the handler uninstalls itself. *)
Definition setupImage_onerror (errorHandled : bool) (altText : string)
    (width height : Z) (this : Img) : Img :=
  if negb errorHandled
  then set_src (createFallbackImageUrl altText width height)
         (set_onerror None this)
  else this.

Definition setupImage (imgElement : option Img) (imageUrl : option string)
    (altText : string) (width height : Z) : Js Img :=
  match imgElement with
  | None => Throw (TypeError "Cannot set properties of null (setting 'alt')")
  | Some img =>
      let img := set_alt altText img in
      let img :=
        set_onerror (Some (SetupImageOnError false altText width height)) img in
      Return
        (if truthy_opt_string imageUrl
         then set_src (default "" imageUrl) img
         else set_src (createFallbackImageUrl altText width height) img)
  end.

(** [createMovieCard] after the template was found and cloned. *)
Definition fill_card (movieCard : CardFragment) (movie : Movie)
  : Js CardFragment :=
  (do titleEl <- assign_textContent (movie_title movieCard) (title movie);
   do button <- assign_data (details_btn movieCard) "movieId"
                  (string_of_Z (movie_id movie));
   do img <- setupImage (movie_image movieCard) (image_url movie)
               ("Affiche " +:+ title movie) 300 300;
   Return (mkCard (Some img) (Some titleEl) (Some button)))%js.

Definition createMovieCard (movie : Movie) : Dom (option CardFragment) :=
  fun d =>
    match movie_card_template d with
    | None => (Return None, d)
    | Some template =>
        ((do card <- fill_card template movie; Return (Some card))%js, d)
    end.

Record OptionElement : Type := mkOption {
  option_value : string;
  option_text : string;
  option_selected : bool
}.

(** The [<option>] elements that [createGenreDropdown] puts in the [<select>].
    [defaultGenre.value] is read once per genre: with an undefined default and
    at least one genre, that is a TypeError. *)
Fixpoint createGenreDropdown_options (genres : list GenreOption)
    (defaultGenre : option GenreOption) : Js (list OptionElement) :=
  match genres with
  | [] => Return []
  | genre :: rest =>
      match defaultGenre with
      | None =>
          Throw (TypeError "Cannot read properties of undefined (reading 'value')")
      | Some dflt =>
          (do opts <- createGenreDropdown_options rest defaultGenre;
           Return (mkOption (value genre) (label genre)
                     (bool_decide (value genre = value dflt)) :: opts))%js
      end
  end.

Definition set_banner (img : Img) (t d b : Element) (doc : Document) : Document :=
  mkDocument (movie_card_template doc) (containers doc)
    (Some img) (Some t) (Some d) (Some b).

Definition updateBestMovieDisplay (movie : Movie) : Dom unit :=
  fun doc =>
    match best_movie_image doc, best_movie_title doc,
          best_movie_description doc, best_movie_details_button doc with
    | Some imageElement, Some titleElement, Some descriptionElement,
      Some buttonElement =>
        let imageElement := set_width 225 imageElement in
        match setupImage (Some imageElement) (image_url movie)
                ("Affiche " +:+ title movie) 225 338 with
        | Throw e => (Throw e, doc)
        | Return imageElement =>
            let titleElement :=
              set_textContent (or_string (Some (title movie)) "Titre inconnu")
                titleElement in
            let descriptionElement :=
              set_textContent
                (or_string (long_description movie)
                   (or_string (description movie)
                      "Aucune description disponible."))
                descriptionElement in
            let buttonElement :=
              set_data "movieId" (string_of_Z (movie_id movie)) buttonElement in
            (Return tt,
             set_banner imageElement titleElement descriptionElement
               buttonElement doc)
        end
    | _, _, _, _ => (Return tt, doc)
    end.

End UiComponents.

(** ** categories.js *)

Module Categories.

Inductive Category : Type :=
| Fixed (name id query : string)
| Dropdown (id : string) (defaultGenre : option GenreOption).

(** [a || b] on array reads: an element that exists is an object, thus truthy;
    a read past the end is [undefined]. *)
Definition or_else {A} (a b : option A) : option A :=
  match a with
  | Some x => Some x
  | None => b
  end.

(** The [categories] array of [initializeCategories]. *)
Definition categories (availableGenres : list GenreOption) : list Category :=
  [ Fixed "Films les mieux notés" "top-rated" "sort_by=-imdb_score";
    Fixed "Mystery" "mystery" "genre=Mystery&sort_by=-imdb_score";
    Fixed "Action" "action" "genre=Action&sort_by=-imdb_score";
    Dropdown "dropdown-1"
      (or_else (availableGenres !! 2%nat) (availableGenres !! 0%nat));
    Dropdown "dropdown-2"
      (or_else (availableGenres !! 3%nat) (availableGenres !! 1%nat)) ].

(** [initializeCategories] up to the loop that creates the categories:
    [None] when it returns early on an empty genre list. *)
Definition initializeCategories_categories (genresFromAPI : list Genre)
  : option (list Category) :=
  if (length genresFromAPI =? 0)%nat then None
  else
    let availableGenres :=
      map (fun genre => mkGenreOption (name genre) (name genre)) genresFromAPI in
    Some (categories availableGenres).

Section Network.
Variable fetch : string -> Js (Response Movie).

Definition fetchMultiplePages (movieCount : Z) (queryParams : string)
  : Js (list Movie) :=
  let pagesNeeded := ceil_div movieCount 5 in
  let promises :=
    map (fun page => Api.fetchMovies fetch page queryParams)
      (seq 1 (Z.to_nat pagesNeeded)) in
  (do responses <- promise_all promises;
   let allMovies := fold_left combine responses [] in
   Return (slice0 allMovies movieCount))%js.

Definition displayCategoryMovies (containerSelector : string)
    (movieCount : Z) (queryParams : string) (categoryName : string)
  : Dom unit :=
  (do movies <- dom_lift (fetchMultiplePages movieCount queryParams);
   if (length movies =? 0)%nat then dom_ret tt
   else
     do container <- querySelector containerSelector;
     if negb container then dom_ret tt
     else
       clear_innerHTML containerSelector ;;
       dom_forEach
         (fun movie =>
            do movieCard <- UiComponents.createMovieCard movie;
            match movieCard with
            | Some card => appendChild containerSelector (Some card)
            | None => dom_ret tt
            end)
         movies)%dom.
End Network.

End Categories.

(** ** html_inject.js *)

Module HtmlInject.

Definition card_placeholder (movieTitle : string) : string :=
  "data:image/svg+xml,%3Csvg xmlns='http://www.w3.org/2000/svg' width='300' height='300'%3E%3Crect width='300' height='300' fill='%23666666'/%3E%3Ctext x='50%25' y='50%25' dominant-baseline='middle' text-anchor='middle' font-family='Arial' font-size='20' fill='white'%3E"
  +:+ encodeURIComponent movieTitle +:+ "%3C/text%3E%3C/svg%3E".

(** The handler that [createMovieCard] installs, run on the image [this]. *)
Definition createMovieCard_onerror (errorHandled : bool) (movieTitle : string)
    (this : Img) : Img :=
  if negb errorHandled
  then set_src (card_placeholder movieTitle) (set_onerror None this)
  else this.

Definition assign_alt (i : option Img) (v : string) : Js Img :=
  match i with
  | None => Throw (TypeError "Cannot set properties of null (setting 'alt')")
  | Some img => Return (set_alt v img)
  end.

Definition fill_card (movieCard : CardFragment) (movie : Movie)
  : Js CardFragment :=
  (do titleEl <- assign_textContent (movie_title movieCard) (title movie);
   do button <- assign_data (details_btn movieCard) "movieId"
                  (string_of_Z (movie_id movie));
   do img <- assign_alt (movie_image movieCard) ("Affiche " +:+ title movie);
   let img := set_onerror (Some (CardOnError false (title movie))) img in
   let img :=
     if truthy_opt_string (image_url movie)
     then set_src (default "" (image_url movie)) img
     else set_src (card_placeholder (title movie)) img in
   Return (mkCard (Some img) (Some titleEl) (Some button)))%js.

Definition createMovieCard (movie : Movie) : Dom (option CardFragment) :=
  fun d =>
    match movie_card_template d with
    | None => (Return None, d)
    | Some template =>
        ((do card <- fill_card template movie; Return (Some card))%js, d)
    end.

(** The [<option>] elements of [createGenreDropdown], as in ui-components.js:
    [defaultGenre.value] is read for every genre. *)
Fixpoint createGenreDropdown_options (genres : list GenreOption)
    (defaultGenre : option GenreOption)
  : Js (list UiComponents.OptionElement) :=
  match genres with
  | [] => Return []
  | genre :: rest =>
      match defaultGenre with
      | None =>
          Throw (TypeError "Cannot read properties of undefined (reading 'value')")
      | Some dflt =>
          (do opts <- createGenreDropdown_options rest defaultGenre;
           Return (UiComponents.mkOption (value genre) (label genre)
                     (bool_decide (value genre = value dflt)) :: opts))%js
      end
  end.

(** An entry of the [categories] array of [injectCategories]; a field that
    the literal leaves out is [None]. *)
Record Category : Type := mkCategory {
  category_name : string;
  category_query : option string;
  hasDropdown : bool;
  category_id : option string;
  defaultGenre : option GenreOption
}.

Definition categories (availableGenres : list GenreOption) : list Category :=
  [ mkCategory "Films les mieux notés" (Some "sort_by=-imdb_score") false None None;
    mkCategory "Mystery" (Some "genre=Mystery") false None None;
    mkCategory "Action" (Some "genre=Action") false None None;
    mkCategory "Autres" None true (Some "dropdown-1") (availableGenres !! 2%nat);
    mkCategory "Autres" None true (Some "dropdown-2") (availableGenres !! 3%nat) ].

(** [injectCategories] up to its loop; [genresFromAPI] may be [undefined]. *)
Definition injectCategories_categories (genresFromAPI : option (list Genre))
  : option (list Category) :=
  match genresFromAPI with
  | None => None
  | Some genres =>
      if (length genres =? 0)%nat then None
      else
        Some (categories
                (map (fun genre => mkGenreOption (name genre) (name genre))
                   genres))
  end.

Section Network.
Variable fetch : string -> Js (Response Movie).

(** [!responses[0] || !responses[0].results] *)
Definition first_page_failed (responses : list (option (Envelope Movie)))
  : bool :=
  match responses with
  | [] => true
  | r :: _ => negb (bool_decide (is_Some (truthy_results r)))
  end.

Definition displayCategory (containerSelector : string) (movieCount : Z)
    (queryParams : string) (categoryName : string) : Dom unit :=
  let pagesNeeded := ceil_div movieCount 5 in
  let promises :=
    map (fun page => FecthFunctions.fetchTitles fetch page queryParams)
      (seq 1 (Z.to_nat pagesNeeded)) in
  (do responses <- dom_lift (promise_all promises);
   if first_page_failed responses then dom_ret tt
   else
     let allMovies := fold_left combine responses [] in
     let movies := slice0 allMovies movieCount in
     do container <- querySelector containerSelector;
     if negb container then dom_ret tt
     else
       clear_innerHTML containerSelector ;;
       dom_forEach
         (fun movie =>
            do movieCard <- createMovieCard movie;
            appendChild containerSelector movieCard)
         movies)%dom.
End Network.

End HtmlInject.

(** ** modal.js *)

Module Modal.

(** *** Numbers of [formatBoxOffice] *)

(** A finite positive binary64 value, [mantissa * 2 ^ exponent]. *)
Record Double : Type := mkDouble { mantissa : Z; exponent : Z }.

(** The integer nearest to [a / b] for [b > 0], ties to even. *)
Definition round_half_even (a b : Z) : Z :=
  let q := a / b in
  let r := a mod b in
  if 2 * r <? b then q
  else if b <? 2 * r then q + 1
  else if Z.even q then q else q + 1.

(** [a / b < 2 ^ e] for positive [a] and [b]. *)
Definition below_pow2 (a b e : Z) : bool :=
  if 0 <=? e then a <? b * 2 ^ e else a * 2 ^ (- e) <? b.

(** [a / b] on binary64 for positive integers [a] and [b] that are themselves
    binary64 values: the quotient rounded to a 53-bit significand, ties to
    even (quotients in the normal range; no amount gets out of it). *)
Definition binary64_div (a b : Z) : Double :=
  let e := Z.log2 a - Z.log2 b in
  let e := if below_pow2 a b e then e - 1 else e in
  let shift := 52 - e in
  let m :=
    if 0 <=? shift then round_half_even (a * 2 ^ shift) b
    else round_half_even a (b * 2 ^ (- shift)) in
  mkDouble m (- shift).

(** The integer [n] for which [n / 10^f - x] is closest to zero, the larger
    one of two. *)
Definition nearest_scaled (x : Double) (f : Z) : Z :=
  let num := 2 * mantissa x * 10 ^ f in
  if 0 <=? exponent x then (num * 2 ^ exponent x + 1) / 2
  else (num + 2 ^ (- exponent x)) / (2 * 2 ^ (- exponent x)).

Fixpoint zeros (k : nat) : string :=
  match k with
  | O => ""
  | S k' => String "0" (zeros k')
  end.

(** [s.padStart(width, '0')] *)
Definition pad_zeros (width : nat) (s : string) : string :=
  zeros (width - String.length s) +:+ s.

(** [x.toFixed(fractionDigits)] for a value below 10^21. *)
Definition toFixed (x : Double) (fractionDigits : Z) : Js string :=
  if (fractionDigits <? 0) || (100 <? fractionDigits)
  then Throw (RangeError "toFixed() digits argument must be between 0 and 100")
  else
    let n := nearest_scaled x fractionDigits in
    if fractionDigits =? 0 then Return (string_of_Z n)
    else
      Return (string_of_Z (n / 10 ^ fractionDigits) +:+ "."
              +:+ pad_zeros (Z.to_nat fractionDigits)
                    (string_of_Z (n mod 10 ^ fractionDigits))).

(** Thousands separators, on the digits from the least significant one. *)
Fixpoint insert_commas (rev_digits : list ascii) : list ascii :=
  match rev_digits with
  | a :: b :: c :: ((_ :: _) as rest) =>
      a :: b :: c :: ","%char :: insert_commas rest
  | _ => rev_digits
  end.

(** [n.toLocaleString('en-US')] for an integer [n]. *)
Definition toLocaleString_enUS (n : Z) : string :=
  let digits := list_ascii_of_string (string_of_Z (Z.abs n)) in
  let grouped := string_of_list_ascii (rev (insert_commas (rev digits))) in
  if n <? 0 then "-" +:+ grouped else grouped.

(** *** Strings of [formatBoxOffice] *)

Fixpoint take_while (p : ascii -> bool) (s : string) : string :=
  match s with
  | EmptyString => EmptyString
  | String c rest => if p c then String c (take_while p rest) else EmptyString
  end.

Fixpoint drop_while (p : ascii -> bool) (s : string) : string :=
  match s with
  | EmptyString => EmptyString
  | String c rest => if p c then drop_while p rest else s
  end.

(** The class [[\d,.]]. *)
Definition in_number_class (c : ascii) : bool :=
  is_digit c || Ascii.eqb c "," || Ascii.eqb c ".".

(** [amount.match(/[\d,.]+/)]: the first longest run, [None] for [null]. *)
Definition match_number_run (s : string) : option string :=
  match drop_while (fun c => negb (in_number_class c)) s with
  | EmptyString => None
  | rest => Some (take_while in_number_class rest)
  end.

(** [s.replace(/,/g, '')] *)
Fixpoint remove_commas (s : string) : string :=
  match s with
  | EmptyString => EmptyString
  | String c rest =>
      if Ascii.eqb c "," then remove_commas rest
      else String c (remove_commas rest)
  end.

(** [parseFloat(s)] on a string of digits and dots: the decimal literal that
    it reads, [None] when the result is [NaN]. *)
Definition parseFloat_literal (s : string) : option string :=
  let int_part := take_while is_digit s in
  let integer := if truthy_string int_part then Some int_part else None in
  match drop_while is_digit s with
  | String c rest =>
      if Ascii.eqb c "."
      then
        let frac := take_while is_digit rest in
        if negb (truthy_string int_part) && negb (truthy_string frac) then None
        else Some (int_part +:+ "." +:+ frac)
      else integer
  | EmptyString => integer
  end.

(** [/^\$/.test(amount)] *)
Definition starts_with_dollar (s : string) : bool :=
  match s with
  | String c _ => Ascii.eqb c "$"
  | EmptyString => false
  end.

(** *** The argument of [formatBoxOffice]

    [@param {string|number} amount], or a missing field. A number is an
    integer amount of at most 2^53 in magnitude, thus an exact binary64. *)
Inductive Amount : Type :=
| AUndefined
| ANull
| ANumber (n : Z)
| AString (s : string).

Definition truthy_amount (amount : Amount) : bool :=
  match amount with
  | AUndefined | ANull => false
  | ANumber n => negb (n =? 0)
  | AString s => truthy_string s
  end.

Section Intl.
(** The host's [toLocaleString('en-US', { minimumFractionDigits: 0,
    maximumFractionDigits: 1 })] of the number that [parseFloat] reads from
    a decimal literal. *)
Variable toLocaleString_max1 : string -> string.

(** After [if (!amount)] the argument is a non-empty string or a non-zero
    number: [Number(amount)] is the number itself, never [NaN]. *)
Definition formatBoxOffice (amount : Amount) : Js string :=
  if negb (truthy_amount amount) then Return "Non renseigné"
  else
    match amount with
    | AString s =>
        if starts_with_dollar s then Return s
        else
          match match_number_run s with
          | Some m =>
              match parseFloat_literal (remove_commas m) with
              | Some literal =>
                  Return ("$" +:+ toLocaleString_max1 literal +:+ "m")
              | None => Return s
              end
          | None => Return s
          end
    | ANumber numAmount =>
        if 1000000 <=? numAmount
        then
          (do fixed <- toFixed (binary64_div numAmount 1000000) 1;
           Return ("$" +:+ fixed +:+ "m"))%js
        else Return ("$" +:+ toLocaleString_enUS numAmount)
    | AUndefined | ANull => Return "Non renseigné"
    end.
End Intl.

(** *** The poster of [createModal] *)

Definition poster_placeholder : string :=
  "data:image/svg+xml,%3Csvg xmlns='http://www.w3.org/2000/svg' width='210' height='315'%3E%3Crect width='210' height='315' fill='%23666666'/%3E%3Ctext x='50%25' y='50%25' dominant-baseline='middle' text-anchor='middle' font-family='Arial' font-size='16' fill='white'%3EImage non disponible%3C/text%3E%3C/svg%3E".

(** The handler that [createModal] installs, run on the image [this]. *)
Definition poster_onerror (this : Img) : Img := set_src poster_placeholder this.

(** The statements of [createModal] on [elements.poster]; the text slots of
    the modal are not part of the embedding. *)
Definition createModal_poster (poster : option Img) (movie : Movie) : Js Img :=
  match poster with
  | None => Throw (TypeError "Cannot set properties of null (setting 'src')")
  | Some img =>
      let img := set_src (or_string (image_url movie) "") img in
      let img := set_alt ("Affiche " +:+ title movie) img in
      Return (set_onerror (Some PosterOnError) img)
  end.

(** *** Closing the modal *)

(** Nodes are named by numbers. The page keeps, for every node that has one,
    its parent element, and the [overflow] style of the body. *)
Definition Node : Type := nat.

Record Page : Type := mkPage {
  parentElement : gmap nat nat;
  body_overflow : string
}.

(** The [MovieModal] object: [this.modal]. *)
Record MovieModal : Type := mkMovieModal { modal : option Node }.

Definition closeModal (this : MovieModal) (page : Page) : MovieModal * Page :=
  match modal this with
  | Some node =>
      match parentElement page !! node with
      | Some _ =>
          (mkMovieModal None, mkPage (delete node (parentElement page)) "")
      | None => (this, page)
      end
  | None => (this, page)
  end.

End Modal.

(** ** Load failures *)

(** The browser reports that the current source of an image failed to load:
    the [error] event runs the handler that is installed, if any. *)
Definition fire_error (this : Img) : Img :=
  match onerror this with
  | None => this
  | Some (SetupImageOnError errorHandled altText width height) =>
      UiComponents.setupImage_onerror errorHandled altText width height this
  | Some (CardOnError errorHandled movieTitle) =>
      HtmlInject.createMovieCard_onerror errorHandled movieTitle this
  | Some PosterOnError => Modal.poster_onerror this
  end.

(** [n] load failures in a row. *)
Fixpoint fire_errors (n : nat) (this : Img) : Img :=
  match n with
  | O => this
  | S n' => fire_errors n' (fire_error this)
  end.

(** ** Vocabulary of the statements *)

(** The URL that the page fetchers request. *)
Definition page_url (url : string) (page : nat) (queryParams : string) : string :=
  let fullUrl := url +:+ "?page=" +:+ string_of_nat page in
  if truthy_string queryParams then fullUrl +:+ "&" +:+ queryParams else fullUrl.

(** What a settled [fetch] is worth to the caller of the page fetcher: the
    parsed body of a successful response, and nothing in every other case. *)
Definition fetch_outcome {T} (settled : Js (Response T)) : option (Envelope T) :=
  match settled with
  | Throw _ => None
  | Return response =>
      if ok response
      then match json response with
           | Throw _ => None
           | Return data => data
           end
      else None
  end.

Definition genres_url : string := "http://127.0.0.1:8000/api/v1/genres/".
Definition titles_url : string := "http://127.0.0.1:8000/api/v1/titles/".

(** The envelope, or [None], that page [p] of an endpoint yields. *)
Definition genres_page {T} (fetch : string -> Js (Response T)) (p : nat)
  : option (Envelope T) :=
  fetch_outcome (fetch (page_url genres_url p "")).

Definition titles_page {T} (fetch : string -> Js (Response T))
    (queryParams : string) (p : nat) : option (Envelope T) :=
  fetch_outcome (fetch (page_url titles_url p queryParams)).

(** The results of pages [1..k], concatenated in page order. *)
Definition pages_concat {T} (page_at : nat -> option (Envelope T)) (k : nat)
  : list T :=
  concat (map (fun p => results_of (page_at p)) (seq 1 k)).

(** Page [p] (from 1) of a listing served five items at a time. *)
Definition page_slice {T} (listing : list T) (p : nat) : list T :=
  take 5 (drop (5 * (p - 1)) listing).

(** Pages needed for [count] items. *)
Definition pages_needed (count : Z) : nat := Z.to_nat (ceil_div count 5).

(** The movies that the aggregation of [movieCount] items retains: the
    results of the pages needed, in page order, cut at [movieCount]. *)
Definition aggregated (fetch : string -> Js (Response Movie))
    (queryParams : string) (movieCount : Z) : list Movie :=
  slice0 (pages_concat (titles_page fetch queryParams) (pages_needed movieCount))
    movieCount.

(** The fail-soft contract of a page fetcher, given what [fetch] settled to:
    the parsed body on success, [null] on each kind of failure, and no
    exception in any case. *)
Definition fail_soft {T} (requested : Js (Response T))
    (result : Js (option (Envelope T))) : Prop :=
  (forall response data,
      requested = Return response -> ok response = true ->
      json response = Return data -> result = Return data)
  /\ (forall e, requested = Throw e -> result = Return None)
  /\ (forall response,
         requested = Return response -> ok response = false ->
         result = Return None)
  /\ (forall response e,
         requested = Return response -> json response = Throw e ->
         result = Return None)
  /\ returns result.

(** [k] is where the genre loop stops: every page before [k] announced a next
    page, and either [k] is the page cap, or page [k] was fetched and is null
    or announces none. *)
Definition stops_at {T} (page_at : nat -> option (Envelope T))
    (maxPages k : nat) : Prop :=
  (k <= maxPages)%nat
  /\ (forall p, (1 <= p < k)%nat -> no_next_page (page_at p) = false)
  /\ ((k < maxPages)%nat ->
      (1 <= k)%nat /\ no_next_page (page_at k) = true).

(** The loop from [page] on, with [fuel] pages left: it visits [k] pages. *)
Definition loop_stops {T} (page_at : nat -> option (Envelope T))
    (fuel page k : nat) : Prop :=
  (k <= fuel)%nat
  /\ (forall p, (page <= p < page + k - 1)%nat ->
                no_next_page (page_at p) = false)
  /\ ((k < fuel)%nat ->
      (1 <= k)%nat /\ no_next_page (page_at (page + k - 1)%nat) = true).

(** A card template with its three slots. *)
Definition complete (template : CardFragment) : Prop :=
  is_Some (movie_image template)
  /\ is_Some (movie_title template)
  /\ is_Some (details_btn template).

(** The value of a computation that returns; [dflt] stands for a throw. *)
Definition returned {A} (dflt : A) (c : Js A) : A :=
  match c with
  | Return a => a
  | Throw _ => dflt
  end.

(** The page after a grid was filled: container [selector] holds [cards],
    nothing else changed. *)
Definition filled (selector : string) (cards : list CardFragment)
    (d : Document) : Document :=
  set_containers (<[selector := cards]> (containers d)) d.

(** Sample backends. [serve table] answers the URLs of [table] with their
    envelope and every other URL with a 404; [offline] rejects every request. *)
Definition not_found {T} : Response T :=
  mkResponse false 404 (Throw (SyntaxError "Unexpected token '<'")).

Fixpoint serve {T} (table : list (string * Envelope T)) (url : string)
  : Js (Response T) :=
  match table with
  | [] => Return not_found
  | (u, env) :: rest =>
      if String.eqb u url
      then Return (mkResponse true 200 (Return (Some env)))
      else serve rest url
  end.

Definition offline {T} (url : string) : Js (Response T) :=
  Throw (NetworkError "Failed to fetch").

(** Sample data: movies numbered from 1, a blank card template and a page
    with one empty grid. *)
Definition sample_movie (n : nat) : Movie :=
  mkMovie (Z.of_nat n) ("Film " +:+ string_of_nat n)
    (Some ("http://img/" +:+ string_of_nat n +:+ ".jpg")) None None.

Definition sample_listing (n : nat) : list Movie := map sample_movie (seq 1 n).

Definition blank_img : Img := mkImg "" "" None None [].
Definition blank_element : Element := mkElement "" ∅.
Definition blank_template : CardFragment :=
  mkCard (Some blank_img) (Some blank_element) (Some blank_element).

Definition sample_page (grid : list CardFragment) : Document :=
  mkDocument (Some blank_template) {[ ".movies-grid" := grid ]}
    None None None None.

(** Twelve movies on three pages of the top-rated listing. *)
Definition twelve_movies : string -> Js (Response Movie) :=
  serve
    [ (page_url titles_url 1 "sort_by=-imdb_score",
       mkEnvelope (Some (page_slice (sample_listing 12) 1)) (Some "page=2"));
      (page_url titles_url 2 "sort_by=-imdb_score",
       mkEnvelope (Some (page_slice (sample_listing 12) 2)) (Some "page=3"));
      (page_url titles_url 3 "sort_by=-imdb_score",
       mkEnvelope (Some (page_slice (sample_listing 12) 3)) None) ].

(** The first page of the top-rated listing is down, the second one is up. *)
Definition first_page_down : string -> Js (Response Movie) :=
  serve
    [ (page_url titles_url 2 "sort_by=-imdb_score",
       mkEnvelope (Some (page_slice (sample_listing 12) 2)) (Some "page=3")) ].

(** The first-page policy of a category renderer: when page 1 of the listing
    yields null, the render returns and leaves the page as it was. *)
Definition aborts_when_first_page_null
    (display : (string -> Js (Response Movie)) -> string -> Z -> string ->
               string -> Dom unit) : Prop :=
  forall fetch selector movieCount queryParams categoryName d,
    titles_page fetch queryParams 1 = None ->
    display fetch selector movieCount queryParams categoryName d
    = (Return tt, d).

(** [needle] occurs in [hay]. *)
Fixpoint is_substring (needle hay : string) : bool :=
  String.prefix needle hay
  || match hay with
     | EmptyString => false
     | String _ rest => is_substring needle rest
     end.

(** [s] is the generated placeholder, of some size, whose text ends with the
    title of [movie]. *)
Definition placeholder_for (movie : Movie) (s : string) : Prop :=
  exists (lead : string) (width height : Z),
    s = UiComponents.createFallbackImageUrl (lead +:+ title movie) width height.

(** [s] is an SVG data URI in which the encoded title of [movie] occurs. *)
Definition shows_title (movie : Movie) (s : string) : bool :=
  String.prefix "data:image/svg+xml," s
  && is_substring (encodeURIComponent (title movie)) s.

(** The image of a card, as [fill] configures it from the template image. *)
Definition card_image (fill : CardFragment -> Movie -> Js CardFragment)
    (img : option Img) (movie : Movie) : Js Img :=
  (do card <- fill (mkCard img (Some blank_element) (Some blank_element)) movie;
   match movie_image card with
   | Some i => Return i
   | None => Throw (TypeError "no image")
   end)%js.

(** The banner image, as [updateBestMovieDisplay] configures it. *)
Definition banner_image (img : option Img) (movie : Movie) : Js Img :=
  match
    UiComponents.updateBestMovieDisplay movie
      (mkDocument None ∅ img (Some blank_element) (Some blank_element)
         (Some blank_element))
  with
  | (Throw e, _) => Throw e
  | (Return _, d) =>
      match best_movie_image d with
      | Some i => Return i
      | None => Throw (TypeError "no image")
      end
  end.

(** The image fallback policy of an image slot. Rendering [movie] into the
    element [img0] returns an image such that:
    - without an image URL, the source is the placeholder that shows the
      title, and it is the only source that was assigned (a data URI: nothing
      is requested from the network);
    - with an image URL, the source is that URL, and after any number [n >= 1]
      of load failures the source is the placeholder that shows the title,
      assigned once: the sources assigned are the URL, then the placeholder. *)
Definition ImageFallbackPolicy (render : option Img -> Movie -> Js Img) : Prop :=
  forall (img0 : Img) (movie : Movie),
  exists img,
    render (Some img0) movie = Return img
    /\ (truthy_opt_string (image_url movie) = false ->
        placeholder_for movie (src img)
        /\ src_log img = src_log img0 ++ [src img])
    /\ (forall url,
           image_url movie = Some url -> truthy_string url = true ->
           src img = url
           /\ src_log img = src_log img0 ++ [url]
           /\ forall n, (1 <= n)%nat ->
                placeholder_for movie (src (fire_errors n img))
                /\ src_log (fire_errors n img)
                   = src_log img0 ++ [url; src (fire_errors n img)]).

(** A movie without a poster. *)
Definition alien : Movie := mkMovie 78748 "Alien" None None None.



(** [s] contains a decimal digit. *)
Fixpoint has_digit (s : string) : bool :=
  match s with
  | EmptyString => false
  | String c rest => is_digit c || has_digit rest
  end.

(** Three genres on two pages; a third page exists and is never asked for. *)
Definition genre_pages : string -> Js (Response Genre) :=
  serve
    [ (page_url genres_url 1 "",
       mkEnvelope (Some [mkGenre "Action"; mkGenre "Adventure"]) (Some "page=2"));
      (page_url genres_url 2 "",
       mkEnvelope (Some [mkGenre "Animation"]) None);
      (page_url genres_url 3 "",
       mkEnvelope (Some [mkGenre "Biography"]) None) ].

(** ** api.js: the detail record of one movie *)

Module Details.

(** The detail record of [/titles/{id}]: the fields of the preview, and the
    fields that the modal shows. [imdb_score] is the text that the backend
    sends for it. *)
Record MovieDetail : Type := mkMovieDetail {
  preview : Movie;
  year : option Z;
  date_published : option string;
  genres : option (list string);
  rated : option string;
  duration : option Z;
  countries : option (list string);
  imdb_score : option string;
  worldwide_gross_income : Modal.Amount;
  directors : option (list string);
  actors : option (list string)
}.

(** The [Response] of a detail request; a body that is the JSON literal
    [null] parses to [None]. *)
Record DetailResponse : Type := mkDetailResponse {
  detail_ok : bool;
  detail_status : Z;
  detail_json : Js (option MovieDetail)
}.

(** [data.title], read for the log: a TypeError on [null]. *)
Definition read_title (data : option MovieDetail) : Js string :=
  match data with
  | None => Throw (TypeError "Cannot read properties of null (reading 'title')")
  | Some movie => Return (title (preview movie))
  end.

Section Network.
Variable fetch : string -> Js DetailResponse.

(** [movieId] is the text that the template literal makes of the id. *)
Definition fetchMovieDetails (movieId : string) : Js (option MovieDetail) :=
  try_catch
    (let url := Api.baseUrl +:+ Api.titlesEndpoint +:+ movieId in
     (do response <- fetch url;
      if negb (detail_ok response)
      then Throw (Error ("Erreur HTTP: "
                         +:+ string_of_Z (detail_status response)))
      else
        do data <- detail_json response;
        do logged <- read_title data;
        Return data)%js)
    (fun error => Return None).
End Network.

End Details.

(** [try { body } catch (error) { handler }] around page computations: what
    the body did to the page before it threw stays done. *)
Definition dom_try_catch {A} (body : Dom A) (handler : JsError -> Dom A)
  : Dom A :=
  fun d =>
    match body d with
    | (Throw e, d') => handler e d'
    | (Return a, d') => (Return a, d')
    end.

(** ** main.js *)

Module Main.

Section Network.
Variable fetch : string -> Js (Response Movie).
Variable fetchDetail : string -> Js Details.DetailResponse.

Definition loadBestMovie : Dom unit :=
  dom_try_catch
    (do response <-
       dom_lift
         (fetch "http://127.0.0.1:8000/api/v1/titles/?page=1&sort_by=-imdb_score");
     if negb (ok response)
     then dom_throw (Error ("Erreur HTTP: " +:+ string_of_Z (status response)))
     else
       do data <- dom_lift (json response);
       match truthy_results data with
       | None => dom_ret tt
       | Some [] => dom_ret tt
       | Some (bestMoviePreview :: _) =>
           do bestMovie <-
             dom_lift
               (Details.fetchMovieDetails fetchDetail
                  (string_of_Z (movie_id bestMoviePreview)));
           match bestMovie with
           | None => dom_ret tt
           | Some movie =>
               UiComponents.updateBestMovieDisplay (Details.preview movie)
           end
       end)%dom
    (fun error => dom_ret tt).
End Network.

End Main.

(** ** categories.js: the "Voir plus" button *)

Module ShowMore.

(** [createShowMoreButton]: the button, with its text and its data. *)
Definition createShowMoreButton (categoryId : string) : Element :=
  set_data "categoryId" categoryId (mkElement "Voir plus" ∅).

(** [button.dataset.expanded === 'true'] *)
Definition isExpanded (button : Element) : bool :=
  bool_decide (dataset button !! "expanded" = Some "true").

(** The click handler of the button. [grid] is what
    [document.querySelector(`.category-${categoryId} .movies-grid`)] finds,
    as the class lists of its [.movie-card] elements; with no grid, reading
    [grid.querySelectorAll] is a TypeError and nothing was changed yet. *)
Definition onClick (grid : option (list (gset string))) (button : Element)
  : Js (list (gset string) * Element) :=
  match grid with
  | None =>
      Throw (TypeError "Cannot read properties of null (reading 'querySelectorAll')")
  | Some movieCards =>
      if isExpanded button
      then
        Return (map (fun classList => classList ∖ {[ "show-all" ]}) movieCards,
                set_data "expanded" "false"
                  (set_textContent "Voir plus" button))
      else
        Return (map (fun classList => classList ∪ {[ "show-all" ]}) movieCards,
                set_data "expanded" "true"
                  (set_textContent "Voir moins" button))
  end.

(** The end of the genre callback of [createDropdownCategory], after the
    render: [showMoreBtn] is what [container.querySelector('.show-more-btn')]
    finds, [grid] what [container.querySelector('.movies-grid')] finds. The
    button is reset before the grid is read. *)
Definition resetAfterGenreChange (showMoreBtn : option Element)
    (grid : option (list (gset string)))
  : Js unit * (option Element * option (list (gset string))) :=
  match showMoreBtn with
  | None => (Return tt, (None, grid))
  | Some button =>
      let button :=
        set_data "expanded" "false" (set_textContent "Voir plus" button) in
      match grid with
      | None =>
          (Throw (TypeError "Cannot read properties of null (reading 'querySelectorAll')"),
           (Some button, None))
      | Some movieCards =>
          (Return tt,
           (Some button,
            Some (map (fun classList => classList ∖ {[ "show-all" ]})
                    movieCards)))
      end
  end.

End ShowMore.

(** ** modal.js: building and showing the modal *)

Module ModalView.
Import Details.

(** The element that takes the meta block. *)
Record HtmlElement : Type := mkHtmlElement { innerHTML : string }.

(** A copy of the modal template, seen through the selectors that
    [createModal] queries; [None] is a selector that matches nothing.
    [overlay] is the node of [.modal-overlay]. *)
Record ModalFragment : Type := mkModalFragment {
  poster : option Img;              (* .movie-poster-img *)
  title_slot : option Element;      (* .movie-title *)
  meta_slot : option HtmlElement;   (* .movie-meta *)
  directors_slot : option Element;  (* .movie-directors *)
  synopsis_slot : option Element;   (* .movie-synopsis *)
  cast_slot : option Element;       (* .movie-cast *)
  overlay : option Modal.Node       (* .modal-overlay *)
}.

(** The value of [year] in [createModal]: a number, [NaN] or ['']. *)
Inductive YearValue : Type :=
| YearNumber (y : Z)
| YearNaN
| YearEmpty.

Definition truthy_year (y : YearValue) : bool :=
  match y with
  | YearNumber n => negb (n =? 0)
  | YearNaN | YearEmpty => false
  end.

(** [`${year}`] *)
Definition year_text (y : YearValue) : string :=
  match y with
  | YearNumber n => string_of_Z n
  | YearNaN => "NaN"
  | YearEmpty => ""
  end.

(** [list && list.length > 0 ? list.join(separator) : ''] *)
Definition join_or_empty (separator : string) (l : option (list string))
  : string :=
  match l with
  | Some (x :: rest) => String.concat separator (x :: rest)
  | _ => ""
  end.

(** [list && list.length > 0 ? list.join(', ') : 'Non renseigné'] *)
Definition names_or_unknown (l : option (list string)) : string :=
  match l with
  | Some (x :: rest) => String.concat ", " (x :: rest)
  | _ => "Non renseigné"
  end.

Definition truthy_number (n : option Z) : bool :=
  match n with
  | Some v => negb (v =? 0)
  | None => false
  end.

Definition assign_innerHTML (e : option HtmlElement) (v : string)
  : Js HtmlElement :=
  match e with
  | None => Throw (TypeError "Cannot set properties of null (setting 'innerHTML')")
  | Some _ => Return (mkHtmlElement v)
  end.

Section Host.
(** [new Date(text).getFullYear()], [None] for [NaN] (an invalid date). *)
Variable getFullYear : string -> option Z.
Variable toLocaleString_max1 : string -> string.

(** [movie.year || (movie.date_published
       ? new Date(movie.date_published).getFullYear() : '')] *)
Definition year_of (movie : MovieDetail) : YearValue :=
  if truthy_number (year movie) then YearNumber (default 0 (year movie))
  else if truthy_opt_string (date_published movie)
       then match getFullYear (default "" (date_published movie)) with
            | Some y => YearNumber y
            | None => YearNaN
            end
       else YearEmpty.

(** Line 1 of the meta block, if it is pushed. *)
Definition meta_line1 (movie : MovieDetail) : list string :=
  let y := year_of movie in
  let genres := join_or_empty ", " (genres movie) in
  if truthy_year y || truthy_string genres
  then [year_text y
        +:+ (if truthy_year y && truthy_string genres then " - " else "")
        +:+ genres]
  else [].

(** Line 2 of the meta block, if it is pushed. *)
Definition meta_line2 (movie : MovieDetail) : list string :=
  let rated := or_string (rated movie) "" in
  let duration :=
    if truthy_number (duration movie)
    then string_of_Z (default 0 (duration movie)) +:+ " minutes"
    else "" in
  let countries := join_or_empty " / " (countries movie) in
  let line2Parts :=
    (if truthy_string rated then [rated] else [])
    ++ (if truthy_string duration then [duration] else []) in
  match line2Parts with
  | [] => []
  | _ :: _ =>
      let line2 := String.concat " - " line2Parts in
      [if truthy_string countries then line2 +:+ " (" +:+ countries +:+ ")"
       else line2]
  end.

Definition meta_line3 (movie : MovieDetail) : list string :=
  if truthy_opt_string (imdb_score movie)
  then ["IMDB score: " +:+ default "" (imdb_score movie) +:+ "/10"]
  else [].

Definition meta_line4 (movie : MovieDetail) : Js (list string) :=
  if Modal.truthy_amount (worldwide_gross_income movie)
  then
    (do formatted <-
       Modal.formatBoxOffice toLocaleString_max1 (worldwide_gross_income movie);
     Return ["Recettes au box-office: " +:+ formatted])%js
  else Return [].

(** [createModal]: the copy of the template, filled, and [this] afterwards.
    [clone] is what [this.template.content.cloneNode(true)] gives on this
    call, [None] when [this.template] is [null]. Only the last statement
    assigns to [this.modal]. *)
Definition createModal (clone : option ModalFragment) (movie : MovieDetail)
    (this : Modal.MovieModal) : Js ModalFragment * Modal.MovieModal :=
  let filled :=
    match clone with
    | None =>
        Throw (TypeError "Cannot read properties of null (reading 'content')")
    | Some modalContent =>
        (do posterEl <- Modal.createModal_poster (poster modalContent)
                          (preview movie);
         do titleEl <- assign_textContent (title_slot modalContent)
                         (or_string (Some (title (preview movie)))
                            "Titre inconnu");
         do line4 <- meta_line4 movie;
         let metaLines :=
           meta_line1 movie ++ meta_line2 movie ++ meta_line3 movie ++ line4 in
         do metaEl <- assign_innerHTML (meta_slot modalContent)
                        (String.concat "<br>" metaLines);
         do directorsEl <- assign_textContent (directors_slot modalContent)
                             (names_or_unknown (directors movie));
         do synopsisEl <- assign_textContent (synopsis_slot modalContent)
                            (or_string (long_description (preview movie))
                               (or_string (description (preview movie))
                                  "Aucun résumé disponible."));
         do castEl <- assign_textContent (cast_slot modalContent)
                        (names_or_unknown (actors movie));
         Return (mkModalFragment (Some posterEl) (Some titleEl) (Some metaEl)
                   (Some directorsEl) (Some synopsisEl) (Some castEl)
                   (overlay modalContent)))%js
    end in
  match filled with
  | Throw e => (Throw e, this)
  | Return fragment => (Return fragment, Modal.mkMovieModal (overlay fragment))
  end.

(** The node of [document.body]. *)
Definition body : Modal.Node := 0%nat.

(** The state of the modal system: the [MovieModal] object, the page, and for
    each overlay node that was built, the fragment it belongs to. *)
Record ModalState : Type := mkModalState {
  self : Modal.MovieModal;
  page : Modal.Page;
  content : gmap nat ModalFragment
}.

Variable fetchDetail : string -> Js DetailResponse.

(** [showModal]. Its [try/catch] swallows every exception: what was assigned
    before the throw stays assigned. *)
Definition showModal (movieId : string) (clone : option ModalFragment)
    (st : ModalState) : ModalState :=
  match fetchMovieDetails fetchDetail movieId with
  | Throw _ => st
  | Return None => st
  | Return (Some movieData) =>
      match createModal clone movieData (self st) with
      | (Throw _, this) => mkModalState this (page st) (content st)
      | (Return fragment, this) =>
          match Modal.modal this with
          | None =>
              (* document.body.appendChild(null): a TypeError, caught *)
              mkModalState this (page st) (content st)
          | Some node =>
              mkModalState this
                (Modal.mkPage
                   (<[node := body]> (Modal.parentElement (page st)))
                   "hidden")
                (<[node := fragment]> (content st))
          end
      end
  end.

(** [closeModal] on the state. *)
Definition closeModal (st : ModalState) : ModalState :=
  let '(this, page') := Modal.closeModal (self st) (page st) in
  mkModalState this page' (content st).

(** The [keydown] listener. *)
Definition onKeydown (key : string) (st : ModalState) : ModalState :=
  if String.eqb key "Escape" && bool_decide (is_Some (Modal.modal (self st)))
  then closeModal st
  else st.

(** The target of a click: its classes and its data. *)
Record Target : Type := mkTarget {
  classList : gset string;
  target_data : gmap string string
}.

(** The [click] listener. [showModal] is called and not awaited: it suspends
    at its first [await], so that the rest of the listener, the close test,
    runs first and the modal is built afterwards. *)
Definition onClick (target : Target) (clone : option ModalFragment)
    (st : ModalState) : ModalState :=
  let opens :=
    bool_decide ("details-btn" ∈ classList target)
    || bool_decide ("details-button" ∈ classList target) in
  let closes :=
    bool_decide ("movie-modal__close-btn" ∈ classList target)
    || bool_decide ("modal-overlay" ∈ classList target) in
  let st := if closes then closeModal st else st in
  if opens
  then
    match target_data target !! "movieId" with
    | Some movieId =>
        if truthy_string movieId then showModal movieId clone st else st
    | None => st
    end
  else st.
End Host.

End ModalView.

(** ** Vocabulary of the further statements *)

(** What a settled detail request is worth to the caller. *)
Definition detail_outcome (settled : Js Details.DetailResponse)
  : option Details.MovieDetail :=
  match settled with
  | Throw _ => None
  | Return response =>
      if Details.detail_ok response
      then match Details.detail_json response with
           | Throw _ => None
           | Return data => data
           end
      else None
  end.

(** The detail record that the backend has for the movie [movieId]. *)
Definition detail_of (fetchDetail : string -> Js Details.DetailResponse)
    (movieId : string) : option Details.MovieDetail :=
  detail_outcome (fetchDetail (titles_url +:+ movieId)).

(** A detail record with nothing but its preview. *)
Definition bare_detail (movie : Movie) : Details.MovieDetail :=
  Details.mkMovieDetail movie None None None None None None None
    Modal.AUndefined None None.

(** A backend of detail records, by table; every other URL is a 404. *)
Fixpoint serve_details (table : list (string * Details.MovieDetail))
    (url : string) : Js Details.DetailResponse :=
  match table with
  | [] =>
      Return (Details.mkDetailResponse false 404
                (Throw (SyntaxError "Unexpected token '<'")))
  | (u, movie) :: rest =>
      if String.eqb u url
      then Return (Details.mkDetailResponse true 200 (Return (Some movie)))
      else serve_details rest url
  end.

(** [d'] differs from [d] at most in the container [selector]. *)
Definition only_grid (selector : string) (d d' : Document) : Prop :=
  movie_card_template d' = movie_card_template d
  /\ best_movie_image d' = best_movie_image d
  /\ best_movie_title d' = best_movie_title d
  /\ best_movie_description d' = best_movie_description d
  /\ best_movie_details_button d' = best_movie_details_button d
  /\ forall other, other <> selector ->
       containers d' !! other = containers d !! other.

(** The cards of the container [selector], none when there is no such
    container. *)
Definition grid_cards (selector : string) (d : Document) : list CardFragment :=
  default [] (containers d !! selector).

(** A render of at most [movieCount] cards into the grid [selector] of the
    page [d], with outcome [r], kept to its grid: nothing else changed;
    without the grid nothing changed at all; the grid is as it was or holds
    at most max(0, movieCount) cards. *)
Definition kept_to_grid (selector : string) (movieCount : Z) (d : Document)
    (r : Js unit * Document) : Prop :=
  only_grid selector d (snd r)
  /\ (containers d !! selector = None -> r = (Return tt, d))
  /\ (snd r = d
      \/ Z.of_nat (length (grid_cards selector (snd r))) <= Z.max 0 movieCount).

(** The sample page without its card template. *)
Definition page_without_template (grid : list CardFragment) : Document :=
  mkDocument None {[ ".movies-grid" := grid ]} None None None None.

(** The four banner slots are on the page. *)
Definition banner_present (d : Document) : Prop :=
  is_Some (best_movie_image d) /\ is_Some (best_movie_title d)
  /\ is_Some (best_movie_description d)
  /\ is_Some (best_movie_details_button d).

(** The first truthy one of two optional texts, else [dflt]. *)
Definition first_text (a b : option string) (dflt : string) : string :=
  match a with
  | Some (String c s) => String c s
  | _ =>
      match b with
      | Some (String c s) => String c s
      | _ => dflt
      end
  end.

(** A page with a banner and nothing else. *)
Definition banner_page : Document :=
  mkDocument None ∅ (Some blank_img) (Some blank_element)
    (Some blank_element) (Some blank_element).

(** A backend with the detail record of the first sample movie. *)
Definition first_movie_details : string -> Js Details.DetailResponse :=
  serve_details [(titles_url +:+ "1", bare_detail (sample_movie 1))].

(** [n] clicks in a row on the "Voir plus" button of a grid that is found. *)
Fixpoint clicks (n : nat) (movieCards : list (gset string)) (button : Element)
  : Js (list (gset string) * Element) :=
  match n with
  | O => Return (movieCards, button)
  | S n' =>
      (do after <- ShowMore.onClick (Some movieCards) button;
       clicks n' (fst after) (snd after))%js
  end.

(** The label that goes with the state of the button. *)
Definition label_for (expanded : bool) : string :=
  if expanded then "Voir moins" else "Voir plus".

(** Every card of [movieCards] is shown in full, or none is. *)
Definition all_shown (expanded : bool) (movieCards : list (gset string)) : Prop :=
  forall classList, In classList movieCards ->
                    ("show-all" ∈ classList <-> expanded = true).

(** A copy of the modal template with the six slots that [createModal]
    fills. *)
Definition complete_modal (clone : option ModalView.ModalFragment) : Prop :=
  exists m,
    clone = Some m
    /\ is_Some (ModalView.poster m) /\ is_Some (ModalView.title_slot m)
    /\ is_Some (ModalView.meta_slot m) /\ is_Some (ModalView.directors_slot m)
    /\ is_Some (ModalView.synopsis_slot m) /\ is_Some (ModalView.cast_slot m).

(** A blank copy of the modal template whose overlay is [node]. *)
Definition blank_modal (node : option nat) : ModalView.ModalFragment :=
  ModalView.mkModalFragment (Some blank_img) (Some blank_element)
    (Some (ModalView.mkHtmlElement "")) (Some blank_element)
    (Some blank_element) (Some blank_element) node.

(** [movie] without its [countries]. *)
Definition without_countries (movie : Details.MovieDetail)
  : Details.MovieDetail :=
  Details.mkMovieDetail (Details.preview movie) (Details.year movie)
    (Details.date_published movie) (Details.genres movie)
    (Details.rated movie) (Details.duration movie) None
    (Details.imdb_score movie) (Details.worldwide_gross_income movie)
    (Details.directors movie) (Details.actors movie).

(** The meta block of a filled modal. *)
Definition meta_html (fragment : ModalView.ModalFragment) : string :=
  default "" (ModalView.innerHTML <$> ModalView.meta_slot fragment).

(** A record with countries and genres only, and one with a date that does
    not parse. *)
Definition countries_only : Details.MovieDetail :=
  Details.mkMovieDetail alien None None (Some ["Horror"; "Sci-Fi"]) None None
    (Some ["UK"; "USA"]) None Modal.ANull None None.

Definition bad_date : Details.MovieDetail :=
  Details.mkMovieDetail alien None (Some "soon") (Some ["Horror"; "Sci-Fi"])
    None None None None Modal.ANull None None.

(** A host on which no date parses. *)
Definition no_date (text : string) : option Z := None.

(** The modal system at rest: no modal, an empty page. *)
Definition at_rest : ModalView.ModalState :=
  ModalView.mkModalState (Modal.mkMovieModal None) (Modal.mkPage ∅ "") ∅.



(** Every character of [s] satisfies [p]. *)
Fixpoint string_forall (p : ascii -> bool) (s : string) : bool :=
  match s with
  | EmptyString => true
  | String c rest => p c && string_forall p rest
  end.

(** The characters that end an attribute, a text node or the URL itself:
    the double quote, [#], [&], [<] and [>]. *)
Definition breaks_markup (c : ascii) : bool :=
  existsb (Nat.eqb (nat_of_ascii c)) [34; 35; 38; 60; 62]%nat.

(** [s] has none of them. *)
Definition markup_safe (s : string) : bool :=
  string_forall (fun c => negb (breaks_markup c)) s.

(** The [change] listener that [createGenreDropdown] puts on the [<select>]
    (ui-components.js and html_inject.js alike): the genre handed to
    [onSelect], [None] when [genres.find] comes back undefined and [onSelect]
    is not called. *)
Module Dropdown.

Definition onChange (genres : list GenreOption) (target_value : string)
  : option GenreOption :=
  List.find (fun g => bool_decide (value g = target_value)) genres.

End Dropdown.

(** Two genres of the dropdown. *)
Definition sample_genres : list GenreOption :=
  [ mkGenreOption "Action" "Action"; mkGenreOption "Horreur" "Horror" ].

(** ** Basic facts *)

Section JsFacts.
Context {A B : Type}.

Lemma js_bind_return (a : A) (k : A -> Js B) : js_bind (Return a) k = k a.
Proof. reflexivity. Qed.

Lemma try_catch_returns (body : Js A) (handler : JsError -> Js A) :
  (forall e, returns (handler e)) -> returns (try_catch body handler).
Proof.
  intros Hh. destruct body as [e|a]; simpl.
  - apply Hh.
  - exists a. reflexivity.
Qed.
End JsFacts.

Lemma promise_all_returns {A} (l : list (Js A)) (vs : list A) :
  l = map Return vs -> promise_all l = Return vs.
Proof.
  intros ->. induction vs as [|v vs IH]; simpl; [reflexivity|].
  rewrite IH. reflexivity.
Qed.

(** ** Runs on sample data *)

Example pages_needed_6 : pages_needed 6 = 2%nat.
Proof. reflexivity. Qed.

Example pages_needed_10 : pages_needed 10 = 2%nat.
Proof. reflexivity. Qed.

Example pages_needed_11 : pages_needed 11 = 3%nat.
Proof. reflexivity. Qed.

Example slice0_negative_end : slice0 [1; 2; 3] (-1) = [1; 2].
Proof. reflexivity. Qed.

Example page_url_with_query :
  page_url titles_url 2 "genre=Action&sort_by=-imdb_score"
  = "http://127.0.0.1:8000/api/v1/titles/?page=2&genre=Action&sort_by=-imdb_score".
Proof. reflexivity. Qed.

Example encodeURIComponent_sample :
  encodeURIComponent "Affiche L'avventura (1960) & co" 
  = "Affiche%20L'avventura%20(1960)%20%26%20co".
Proof. reflexivity. Qed.

Example fetchGenres_two_pages :
  Api.fetchGenres genre_pages 5
  = Return [mkGenre "Action"; mkGenre "Adventure"; mkGenre "Animation"].
Proof. reflexivity. Qed.

Example fetchGenres_cap_1 :
  Api.fetchGenres genre_pages 1 = Return [mkGenre "Action"; mkGenre "Adventure"].
Proof. reflexivity. Qed.

Example fetchGenres_offline : Api.fetchGenres (@offline Genre) 5 = Return [].
Proof. reflexivity. Qed.

Example fetchGenres_older_module :
  FecthFunctions.fetchGenres genre_pages
  = Return (Some [mkGenre "Action"; mkGenre "Adventure"; mkGenre "Animation"]).
Proof. reflexivity. Qed.

Example toLocaleString_grouping : Modal.toLocaleString_enUS 1234567 = "1,234,567".
Proof. reflexivity. Qed.

Example formatBoxOffice_tie_1_05 :
  Modal.formatBoxOffice (fun literal => literal) (Modal.ANumber 1050000)
  = Return "$1.1m".
Proof. vm_compute. reflexivity. Qed.

Example formatBoxOffice_tie_1_15 :
  Modal.formatBoxOffice (fun literal => literal) (Modal.ANumber 1150000)
  = Return "$1.1m".
Proof. vm_compute. reflexivity. Qed.

Example formatBoxOffice_reads_number :
  Modal.formatBoxOffice (fun literal => literal) (Modal.AString "USD 1,234.5")
  = Return "$1234.5m".
Proof. reflexivity. Qed.

(** ** The page fetcher *)

Section PageFetcher.
Context {T : Type}.
Variable fetch : string -> Js (Response T).

Lemma Api_fetchPage_outcome url page q :
  Api.fetchPage fetch url page q
  = Return (fetch_outcome (fetch (page_url url page q))).
Proof.
  unfold Api.fetchPage, page_url.
  destruct (truthy_string q);
    (match goal with |- context [fetch ?u] => destruct (fetch u) as [e|r] end;
     simpl; [reflexivity|];
     destruct (ok r); simpl; [|reflexivity];
     destruct (json r); reflexivity).
Qed.

Lemma Fecth_fetchPage_outcome url page q :
  FecthFunctions.fetchPage fetch url page q
  = Return (fetch_outcome (fetch (page_url url page q))).
Proof.
  unfold FecthFunctions.fetchPage, page_url.
  destruct (truthy_string q);
    (match goal with |- context [fetch ?u] => destruct (fetch u) as [e|r] end;
     simpl; [reflexivity|];
     destruct (ok r); simpl; [|reflexivity];
     destruct (json r); reflexivity).
Qed.

Lemma Api_fetchMovies_outcome page q :
  Api.fetchMovies fetch page q = Return (titles_page fetch q page).
Proof.
  unfold Api.fetchMovies. rewrite Api_fetchPage_outcome. reflexivity.
Qed.

Lemma Fecth_fetchTitles_outcome page q :
  FecthFunctions.fetchTitles fetch page q = Return (titles_page fetch q page).
Proof.
  unfold FecthFunctions.fetchTitles. rewrite Fecth_fetchPage_outcome.
  reflexivity.
Qed.
End PageFetcher.

Lemma fail_soft_outcome {T} (requested : Js (Response T)) :
  fail_soft requested (Return (fetch_outcome requested)).
Proof.
  unfold fail_soft. repeat split.
  - intros r data -> Hok Hjson. simpl. rewrite Hok, Hjson. reflexivity.
  - intros e ->. reflexivity.
  - intros r -> Hok. simpl. rewrite Hok. reflexivity.
  - intros r e -> Hjson. simpl. rewrite Hjson. destruct (ok r); reflexivity.
  - eexists. reflexivity.
Qed.

(** C4. For every URL, page number and query string, [fetchPage] (api.js and
    fecth_functions.js) returns the parsed JSON envelope of a successful
    response, and returns [null] on a network error, on a non-success HTTP
    status and on a body that does not parse; it never throws. *)
Theorem fetchPage_fail_soft :
  forall (T : Type) (fetch : string -> Js (Response T))
         (url : string) (page : nat) (queryParams : string),
    fail_soft (fetch (page_url url page queryParams))
      (Api.fetchPage fetch url page queryParams)
    /\ fail_soft (fetch (page_url url page queryParams))
         (FecthFunctions.fetchPage fetch url page queryParams).
Proof.
  intros T fetch url page q.
  rewrite Api_fetchPage_outcome, Fecth_fetchPage_outcome.
  split; apply fail_soft_outcome.
Qed.

(** A backend that answers every request with one page of two genres. *)
Lemma fetchPage_fail_soft_witness :
  let env := mkEnvelope (Some [mkGenre "Action"; mkGenre "Drama"]) None in
  let fetch := fun _ : string => Return (mkResponse true 200 (Return (Some env))) in
  Api.fetchPage fetch genres_url 1 "" = Return (Some env).
Proof.
  intros env fetch.
  destruct (fetchPage_fail_soft Genre fetch genres_url 1 "") as [[Hok _] _].
  apply (Hok (mkResponse true 200 (Return (Some env)))); reflexivity.
Defined.

(** ** The genre aggregator *)

Lemma combine_results_of {T} (all : list T) (response : option (Envelope T)) :
  combine all response = all ++ results_of response.
Proof.
  unfold combine, results_of.
  destruct (truthy_results response); simpl; [reflexivity|].
  rewrite app_nil_r. reflexivity.
Qed.

Lemma fold_combine {T} (responses : list (option (Envelope T))) (all : list T) :
  fold_left combine responses all = all ++ concat (map results_of responses).
Proof.
  revert all. induction responses as [|r rs IH]; intros all; simpl.
  - rewrite app_nil_r. reflexivity.
  - rewrite IH, combine_results_of, <- app_assoc. reflexivity.
Qed.

Ltac genre_loop_step IH page acc :=
  match goal with
  | |- context [no_next_page ?data] =>
      destruct (no_next_page data) eqn:Hstop;
      [ exists 1%nat; split;
        [ split; [lia|]; split;
          [ intros p Hp; lia
          | intros _; split; [lia|];
            replace (page + 1 - 1)%nat with page by lia; exact Hstop ]
        | simpl; rewrite app_nil_r; reflexivity ]
      | destruct (IH (S page) (acc ++ results_of data)) as (k & (Hle & Hbefore & Hat) & Heq);
        exists (S k); split;
        [ split; [lia|]; split;
          [ intros p Hp; destruct (Nat.eq_dec p page) as [->|Hne];
            [ exact Hstop | apply Hbefore; lia ]
          | intros Hlt; split; [lia|];
            replace (page + S k - 1)%nat with (S page + k - 1)%nat by lia;
            apply Hat; lia ]
        | rewrite Heq; simpl; rewrite <- app_assoc; reflexivity ] ]
  end.

Section GenreLoop.
Context {T : Type}.
Variable fetch : string -> Js (Response T).

Lemma Api_fetchGenres_loop_spec (fuel : nat) :
  forall (page : nat) (acc : list T),
  exists k,
    loop_stops (genres_page fetch) fuel page k
    /\ Api.fetchGenres_loop fetch fuel page acc
       = Return (acc ++ concat (map (fun p => results_of (genres_page fetch p))
                                  (seq page k))).
Proof.
  induction fuel as [|fuel IH]; intros page acc.
  - exists 0%nat. split.
    + split; [lia|]. split; intros; lia.
    + simpl. rewrite app_nil_r. reflexivity.
  - cbn [Api.fetchGenres_loop].
    rewrite Api_fetchPage_outcome.
    change (Api.baseUrl +:+ Api.genresEndpoint) with genres_url.
    fold (genres_page fetch page).
    rewrite js_bind_return, combine_results_of.
    genre_loop_step IH page acc.
Qed.

Lemma Fecth_fetchGenres_loop_spec (fuel : nat) :
  forall (page : nat) (acc : list T),
  exists k,
    loop_stops (genres_page fetch) fuel page k
    /\ FecthFunctions.fetchGenres_loop fetch fuel page acc
       = Return (acc ++ concat (map (fun p => results_of (genres_page fetch p))
                                  (seq page k))).
Proof.
  induction fuel as [|fuel IH]; intros page acc.
  - exists 0%nat. split.
    + split; [lia|]. split; intros; lia.
    + simpl. rewrite app_nil_r. reflexivity.
  - cbn [FecthFunctions.fetchGenres_loop].
    rewrite Fecth_fetchPage_outcome.
    change FecthFunctions.GENRES_URL with genres_url.
    fold (genres_page fetch page).
    rewrite js_bind_return, combine_results_of.
    genre_loop_step IH page acc.
Qed.

Lemma loop_stops_from_1 (maxPages k : nat) :
  loop_stops (genres_page fetch) maxPages 1 k ->
  stops_at (genres_page fetch) maxPages k.
Proof.
  intros (Hle & Hbefore & Hat). split; [exact Hle|]. split.
  - intros p Hp. apply Hbefore. lia.
  - intros Hlt. destruct (Hat Hlt) as [H1 H2]. split; [exact H1|].
    replace (1 + k - 1)%nat with k in H2 by lia. exact H2.
Qed.
End GenreLoop.

(** C3. For every sequence of genre page envelopes, [fetchGenres] (api.js with
    its [maxPages], fecth_functions.js with the cap 5) visits pages 1, 2, ...
    in order, stops at the first page that is null or has a falsy [next], or
    after the cap, and returns, without throwing, the results of the pages
    1..k it visited, concatenated in page order. *)
Theorem fetchGenres_concatenates_until_stop :
  forall (T : Type) (fetch : string -> Js (Response T)) (maxPages : nat),
    (exists k,
        stops_at (genres_page fetch) maxPages k
        /\ Api.fetchGenres fetch maxPages
           = Return (pages_concat (genres_page fetch) k))
    /\ (exists k,
           stops_at (genres_page fetch) 5 k
           /\ FecthFunctions.fetchGenres fetch
              = Return (Some (pages_concat (genres_page fetch) k))).
Proof.
  intros T fetch maxPages. split.
  - destruct (Api_fetchGenres_loop_spec fetch maxPages 1 []) as (k & Hk & Heq).
    exists k. split; [apply loop_stops_from_1; exact Hk|].
    unfold Api.fetchGenres. rewrite Heq. reflexivity.
  - destruct (Fecth_fetchGenres_loop_spec fetch 5 1 []) as (k & Hk & Heq).
    exists k. split; [apply loop_stops_from_1; exact Hk|].
    unfold FecthFunctions.fetchGenres. rewrite Heq. reflexivity.
Qed.

(** ** The movie page aggregator *)

Lemma ceil_div_5_bounds (n : Z) : 0 <= n -> n <= 5 * ceil_div n 5 < n + 5.
Proof.
  intros Hn. unfold ceil_div.
  pose proof (Z.div_mod (- n) 5 ltac:(lia)) as Hdm.
  pose proof (Z.mod_pos_bound (- n) 5 ltac:(lia)) as Hmod.
  lia.
Qed.

Lemma pages_needed_covers (count : nat) :
  (count <= 5 * pages_needed (Z.of_nat count))%nat.
Proof.
  unfold pages_needed.
  pose proof (ceil_div_5_bounds (Z.of_nat count) ltac:(lia)) as H.
  lia.
Qed.

Lemma pages_needed_negative (count : Z) : count <= 0 -> pages_needed count = 0%nat.
Proof.
  intros H. unfold pages_needed, ceil_div.
  assert (0 <= (- count) / 5) by (apply Z.div_pos; lia).
  lia.
Qed.

Lemma slice0_of_nat {A} (l : list A) (n : nat) : slice0 l (Z.of_nat n) = take n l.
Proof.
  unfold slice0.
  destruct (Z.ltb_spec (Z.of_nat n) 0) as [Hneg|_]; [lia|].
  destruct (Z.min_spec (Z.of_nat n) (Z.of_nat (length l))) as [[Hlt ->]|[Hge ->]].
  - rewrite Nat2Z.id. reflexivity.
  - rewrite Nat2Z.id. rewrite firstn_all.
    symmetry. apply firstn_all2. lia.
Qed.

Section MoviePages.
Variable fetch : string -> Js (Response Movie).

Lemma Api_fetchMovies_all (q : string) (pages : list nat) :
  promise_all (map (fun page => Api.fetchMovies fetch page q) pages)
  = Return (map (titles_page fetch q) pages).
Proof.
  apply promise_all_returns. rewrite map_map.
  apply map_ext. intros p. apply Api_fetchMovies_outcome.
Qed.

Lemma Fecth_fetchTitles_all (q : string) (pages : list nat) :
  promise_all (map (fun page => FecthFunctions.fetchTitles fetch page q) pages)
  = Return (map (titles_page fetch q) pages).
Proof.
  apply promise_all_returns. rewrite map_map.
  apply map_ext. intros p. apply Fecth_fetchTitles_outcome.
Qed.

Lemma fetchMultiplePages_eq (movieCount : Z) (q : string) :
  Categories.fetchMultiplePages fetch movieCount q
  = Return (aggregated fetch q movieCount).
Proof.
  unfold Categories.fetchMultiplePages.
  rewrite Api_fetchMovies_all, js_bind_return, fold_combine.
  unfold aggregated, pages_concat, pages_needed. rewrite map_map. reflexivity.
Qed.
End MoviePages.

(** Pages of five items, put back together. *)
Lemma page_slices_concat {T} (listing : list T) (k : nat) :
  concat (map (page_slice listing) (seq 1 k)) = take (5 * k) listing.
Proof.
  induction k as [|k IH].
  - reflexivity.
  - rewrite seq_S, map_app, concat_app, IH. simpl concat.
    rewrite app_nil_r. unfold page_slice.
    replace (5 * (S k - 1))%nat with (5 * k)%nat by lia.
    replace (5 * S k)%nat with (5 * k + 5)%nat by lia.
    apply take_take_drop.
Qed.

(** ** Rendering a grid *)

Lemma set_containers_twice c c' d :
  set_containers c (set_containers c' d) = set_containers c d.
Proof. reflexivity. Qed.

Lemma Ui_fill_card_complete (template : CardFragment) (movie : Movie) :
  complete template ->
  UiComponents.fill_card template movie
  = Return (returned template (UiComponents.fill_card template movie)).
Proof.
  intros ([img Himg] & [t Ht] & [b Hb]).
  unfold UiComponents.fill_card. rewrite Himg, Ht, Hb. reflexivity.
Qed.

Lemma Legacy_fill_card_complete (template : CardFragment) (movie : Movie) :
  complete template ->
  HtmlInject.fill_card template movie
  = Return (returned template (HtmlInject.fill_card template movie)).
Proof.
  intros ([img Himg] & [t Ht] & [b Hb]).
  unfold HtmlInject.fill_card. rewrite Himg, Ht, Hb. reflexivity.
Qed.

Section Grid.
Variable template : CardFragment.
Hypothesis template_complete : complete template.
Variable selector : string.

Lemma Ui_forEach_cards (movies : list Movie) :
  forall (d : Document) (acc : list CardFragment) c0,
    movie_card_template d = Some template ->
    containers d = <[selector := acc]> c0 ->
    dom_forEach
      (fun movie =>
         dom_bind (UiComponents.createMovieCard movie)
           (fun movieCard =>
              match movieCard with
              | Some card => appendChild selector (Some card)
              | None => dom_ret tt
              end))
      movies d
    = (Return tt,
       set_containers
         (<[selector :=
              acc ++ map (fun m => returned template
                                     (UiComponents.fill_card template m))
                       movies]> c0) d).
Proof.
  induction movies as [|m movies IH]; intros d acc c0 Htpl Hc.
  - simpl. unfold dom_ret. rewrite app_nil_r, <- Hc. destruct d; reflexivity.
  - cbn [dom_forEach]. unfold dom_bind at 1.
    unfold dom_bind at 1. unfold UiComponents.createMovieCard at 1.
    rewrite Htpl, (Ui_fill_card_complete template m template_complete).
    cbn [js_bind appendChild].
    rewrite Hc, alter_insert_eq.
    erewrite IH; [|simpl; exact Htpl|simpl; reflexivity].
    rewrite set_containers_twice. cbn [map]. rewrite <- app_assoc.
    reflexivity.
Qed.

Lemma Legacy_forEach_cards (movies : list Movie) :
  forall (d : Document) (acc : list CardFragment) c0,
    movie_card_template d = Some template ->
    containers d = <[selector := acc]> c0 ->
    dom_forEach
      (fun movie =>
         dom_bind (HtmlInject.createMovieCard movie)
           (fun movieCard => appendChild selector movieCard))
      movies d
    = (Return tt,
       set_containers
         (<[selector :=
              acc ++ map (fun m => returned template
                                     (HtmlInject.fill_card template m))
                       movies]> c0) d).
Proof.
  induction movies as [|m movies IH]; intros d acc c0 Htpl Hc.
  - simpl. unfold dom_ret. rewrite app_nil_r, <- Hc. destruct d; reflexivity.
  - cbn [dom_forEach]. unfold dom_bind at 1.
    unfold dom_bind at 1. unfold HtmlInject.createMovieCard at 1.
    rewrite Htpl, (Legacy_fill_card_complete template m template_complete).
    cbn [js_bind appendChild].
    rewrite Hc, alter_insert_eq.
    erewrite IH; [|simpl; exact Htpl|simpl; reflexivity].
    rewrite set_containers_twice. cbn [map]. rewrite <- app_assoc.
    reflexivity.
Qed.
End Grid.

Section Display.
Variable fetch : string -> Js (Response Movie).
Variables (selector : string) (movieCount : Z) (q categoryName : string).

Lemma displayCategoryMovies_nothing (d : Document) :
  aggregated fetch q movieCount = [] ->
  Categories.displayCategoryMovies fetch selector movieCount q categoryName d
  = (Return tt, d).
Proof.
  intros Hm. unfold Categories.displayCategoryMovies, dom_bind, dom_lift.
  rewrite fetchMultiplePages_eq. fold (aggregated fetch q movieCount).
  rewrite Hm. reflexivity.
Qed.

Lemma displayCategoryMovies_renders (d : Document) (template : CardFragment) :
  aggregated fetch q movieCount <> [] ->
  is_Some (containers d !! selector) ->
  movie_card_template d = Some template ->
  complete template ->
  Categories.displayCategoryMovies fetch selector movieCount q categoryName d
  = (Return tt,
     filled selector
       (map (fun m => returned template (UiComponents.fill_card template m))
          (aggregated fetch q movieCount)) d).
Proof.
  intros Hm Hc Htpl Hcomplete.
  unfold Categories.displayCategoryMovies.
  unfold dom_bind at 1. unfold dom_lift.
  rewrite fetchMultiplePages_eq. fold (aggregated fetch q movieCount).
  destruct (aggregated fetch q movieCount) as [|m ms] eqn:Hmovies;
    [congruence|].
  cbn [length Nat.eqb].
  unfold dom_bind at 1. unfold querySelector.
  rewrite bool_decide_eq_true_2 by exact Hc. cbn [negb].
  unfold dom_bind at 1. unfold clear_innerHTML.
  erewrite (Ui_forEach_cards template Hcomplete selector (m :: ms));
    [|simpl; exact Htpl|simpl; reflexivity].
  reflexivity.
Qed.

Lemma displayCategory_first_page_failed (d : Document) :
  truthy_results (titles_page fetch q 1) = None ->
  HtmlInject.displayCategory fetch selector movieCount q categoryName d
  = (Return tt, d).
Proof.
  intros H1. unfold HtmlInject.displayCategory, dom_bind, dom_lift.
  rewrite Fecth_fetchTitles_all.
  destruct (Z.to_nat (ceil_div movieCount 5)) as [|k]; [reflexivity|].
  cbn [seq map HtmlInject.first_page_failed].
  rewrite H1. reflexivity.
Qed.

Lemma displayCategory_renders (d : Document) (template : CardFragment) :
  truthy_results (titles_page fetch q 1) <> None ->
  (1 <= pages_needed movieCount)%nat ->
  is_Some (containers d !! selector) ->
  movie_card_template d = Some template ->
  complete template ->
  HtmlInject.displayCategory fetch selector movieCount q categoryName d
  = (Return tt,
     filled selector
       (map (fun m => returned template (HtmlInject.fill_card template m))
          (aggregated fetch q movieCount)) d).
Proof.
  intros H1 Hk Hc Htpl Hcomplete.
  unfold HtmlInject.displayCategory.
  unfold dom_bind at 1. unfold dom_lift.
  rewrite Fecth_fetchTitles_all.
  fold (pages_needed movieCount).
  assert (Hfirst :
    HtmlInject.first_page_failed
      (map (titles_page fetch q) (seq 1 (pages_needed movieCount))) = false).
  { destruct (pages_needed movieCount) as [|k]; [lia|].
    cbn [seq map HtmlInject.first_page_failed].
    destruct (truthy_results (titles_page fetch q 1)); [reflexivity|congruence]. }
  rewrite Hfirst, fold_combine. cbn [app].
  unfold dom_bind at 1. unfold querySelector.
  rewrite bool_decide_eq_true_2 by exact Hc. cbn [negb].
  unfold dom_bind at 1. unfold clear_innerHTML.
  erewrite (Legacy_forEach_cards template Hcomplete selector);
    [|simpl; exact Htpl|simpl; reflexivity].
  unfold aggregated, pages_concat. rewrite map_map. reflexivity.
Qed.
End Display.

(** C1. For every requested count and every sequence of page envelopes, the
    movie aggregation of [fetchMultiplePages] is the concatenation, in page
    order, of the results of the non-null pages 1..k, k = ceil(count/5), truncated to
    [count] items, and [displayCategory] renders the cards of that same list;
    its length is min(count, items fetched), never exceeds [count], and is
    min(count, total available) when every fetched page succeeds, that is,
    yields its (at most five) items of the listing. *)
Theorem movie_aggregation_truncates :
  forall (fetch : string -> Js (Response Movie)) (count : nat) (q : string),
    let k := pages_needed (Z.of_nat count) in
    let fetched := pages_concat (titles_page fetch q) k in
    let movies := take count fetched in
    (count <= 5 * k < count + 5)%nat
    /\ Categories.fetchMultiplePages fetch (Z.of_nat count) q = Return movies
    /\ (forall selector categoryName d template,
           truthy_results (titles_page fetch q 1) <> None ->
           (1 <= count)%nat ->
           is_Some (containers d !! selector) ->
           movie_card_template d = Some template ->
           complete template ->
           HtmlInject.displayCategory fetch selector (Z.of_nat count) q
             categoryName d
           = (Return tt,
              filled selector
                (map (fun m => returned template
                                 (HtmlInject.fill_card template m)) movies) d))
    /\ length movies = Nat.min count (length fetched)
    /\ (length movies <= count)%nat
    /\ (forall listing : list Movie,
           (forall p, (1 <= p <= k)%nat ->
                      results_of (titles_page fetch q p) = page_slice listing p) ->
           length movies = Nat.min count (length listing)).
Proof.
  intros fetch count q k fetched movies.
  assert (Hk : (count <= 5 * k < count + 5)%nat).
  { subst k. unfold pages_needed.
    pose proof (ceil_div_5_bounds (Z.of_nat count) ltac:(lia)). lia. }
  split; [exact Hk|]. repeat split.
  - rewrite fetchMultiplePages_eq. unfold aggregated.
    rewrite slice0_of_nat. reflexivity.
  - intros selector categoryName d template H1 Hcount Hc Htpl Hcomplete.
    rewrite (displayCategory_renders fetch selector (Z.of_nat count) q
               categoryName d template H1); try assumption.
    + unfold aggregated. rewrite slice0_of_nat. reflexivity.
    + pose proof (pages_needed_covers count). lia.
  - apply length_firstn.
  - apply firstn_le_length.
  - intros listing Hpages. subst movies fetched.
    assert (Heq : pages_concat (titles_page fetch q) k = take (5 * k) listing).
    { rewrite <- page_slices_concat. unfold pages_concat. f_equal.
      apply map_ext_in. intros p Hp. apply in_seq in Hp.
      apply Hpages. lia. }
    rewrite Heq, !length_firstn.
    pose proof (pages_needed_covers count). fold k in H. lia.
Qed.

(** Twelve movies on three pages, ten requested: exactly ten come back. *)
Lemma movie_aggregation_truncates_witness :
  exists movies,
    Categories.fetchMultiplePages twelve_movies 10 "sort_by=-imdb_score"
    = Return movies
    /\ length movies = 10%nat.
Proof.
  destruct (movie_aggregation_truncates twelve_movies 10 "sort_by=-imdb_score")
    as (_ & Heq & _ & _ & _ & Hlen).
  eexists. split; [exact Heq|].
  rewrite (Hlen (sample_listing 12)); [reflexivity|].
  intros p Hp.
  assert (Hcases : p = 1%nat \/ p = 2%nat) by (vm_compute in Hp; lia).
  destruct Hcases as [-> | ->]; reflexivity.
Defined.

(** A negative count fetches no page and yields no movie. *)
Lemma fetchMultiplePages_negative fetch (movieCount : Z) (q : string) :
  movieCount <= 0 ->
  Categories.fetchMultiplePages fetch movieCount q = Return [].
Proof.
  intros H. rewrite fetchMultiplePages_eq. unfold aggregated.
  rewrite pages_needed_negative by exact H.
  unfold pages_concat, slice0. simpl.
  destruct (movieCount <? 0); rewrite firstn_nil; reflexivity.
Qed.

(** ** The first-page policy *)

Lemma pages_concat_all_null {T} (page_at : nat -> option (Envelope T)) (k : nat) :
  (forall p, (1 <= p <= k)%nat -> page_at p = None) ->
  pages_concat page_at k = [].
Proof.
  intros H. unfold pages_concat.
  induction k as [|k IH]; [reflexivity|].
  rewrite seq_S, map_app, concat_app, IH by (intros; apply H; lia).
  simpl. rewrite (H (S k)) by lia. reflexivity.
Qed.

(** C2, as the code has it. [displayCategory] (html_inject.js) aborts, leaving
    the page as it was, when page 1 yields null. [displayCategoryMovies]
    (categories.js) aborts, leaving the page as it was, when no movie at all
    was retrieved, in particular when every fetched page is null. In both, a
    page that is null contributes nothing to the list and rendering goes on:
    the grid receives the cards of the results of the non-null pages,
    truncated to the count. *)
Theorem first_page_policy :
  aborts_when_first_page_null HtmlInject.displayCategory
  /\ (forall fetch selector movieCount q categoryName d,
         (forall p, (1 <= p <= pages_needed movieCount)%nat ->
                    titles_page fetch q p = None) ->
         Categories.displayCategoryMovies fetch selector movieCount q
           categoryName d = (Return tt, d))
  /\ (forall fetch selector movieCount q categoryName d template,
         let movies := aggregated fetch q movieCount in
         is_Some (containers d !! selector) ->
         movie_card_template d = Some template ->
         complete template ->
         (movies = [] ->
          Categories.displayCategoryMovies fetch selector movieCount q
            categoryName d = (Return tt, d))
         /\ (movies <> [] ->
             Categories.displayCategoryMovies fetch selector movieCount q
               categoryName d
             = (Return tt,
                filled selector
                  (map (fun m => returned template
                                   (UiComponents.fill_card template m)) movies)
                  d))
         /\ (truthy_results (titles_page fetch q 1) <> None ->
             (1 <= pages_needed movieCount)%nat ->
             HtmlInject.displayCategory fetch selector movieCount q
               categoryName d
             = (Return tt,
                filled selector
                  (map (fun m => returned template
                                   (HtmlInject.fill_card template m)) movies)
                  d))).
Proof.
  split; [|split].
  - intros fetch selector movieCount q categoryName d H1.
    apply displayCategory_first_page_failed. rewrite H1. reflexivity.
  - intros fetch selector movieCount q categoryName d Hnull.
    apply displayCategoryMovies_nothing. unfold aggregated.
    rewrite pages_concat_all_null by exact Hnull.
    unfold slice0. simpl. destruct (movieCount <? 0); rewrite firstn_nil; reflexivity.
  - intros fetch selector movieCount q categoryName d template movies
      Hc Htpl Hcomplete.
    split; [|split].
    + apply displayCategoryMovies_nothing.
    + intros Hm. apply displayCategoryMovies_renders; assumption.
    + intros H1 Hk. apply displayCategory_renders; assumption.
Qed.

(** Page 1 down, page 2 up, six movies requested: [displayCategoryMovies]
    renders the five movies of page 2. *)
Lemma first_page_policy_counterexample :
  titles_page first_page_down "sort_by=-imdb_score" 1 = None
  /\ containers
       (snd (Categories.displayCategoryMovies first_page_down ".movies-grid" 6
               "sort_by=-imdb_score" "Films" (sample_page [])))
     !! ".movies-grid"
     = Some (map (fun m => returned blank_template
                             (UiComponents.fill_card blank_template m))
               (page_slice (sample_listing 12) 2))
  /\ ~ aborts_when_first_page_null Categories.displayCategoryMovies.
Proof.
  split; [reflexivity|]. split; [vm_compute; reflexivity|].
  intros Habort.
  specialize (Habort first_page_down ".movies-grid" 6 "sort_by=-imdb_score"
                "Films" (sample_page []) eq_refl).
  apply (f_equal (fun r => containers (snd r) !! ".movies-grid")) in Habort.
  vm_compute in Habort. discriminate Habort.
Qed.

(** Page 1 down: [displayCategory] leaves the page alone. *)
Lemma first_page_policy_witness :
  HtmlInject.displayCategory first_page_down ".movies-grid" 6
    "sort_by=-imdb_score" "Films" (sample_page [])
  = (Return tt, sample_page []).
Proof.
  apply (proj1 first_page_policy). reflexivity.
Defined.

(** ** Image fallback *)

Lemma prefix_append (n post : string) : String.prefix n (n +:+ post) = true.
Proof.
  induction n as [|c n IH]; simpl.
  - destruct post; reflexivity.
  - destruct (ascii_dec c c) as [_|Hne]; [exact IH|congruence].
Qed.

Lemma is_substring_here (n h : string) :
  String.prefix n h = true -> is_substring n h = true.
Proof. intros H. destruct h; simpl in *; rewrite H; reflexivity. Qed.

Lemma is_substring_skip (n pre h : string) :
  is_substring n h = true -> is_substring n (pre +:+ h) = true.
Proof.
  intros H. induction pre as [|c pre IH]; simpl; [exact H|].
  rewrite IH. apply orb_true_r.
Qed.

Lemma is_substring_middle (n pre post : string) :
  is_substring n (pre +:+ n +:+ post) = true.
Proof. apply is_substring_skip, is_substring_here, prefix_append. Qed.

Lemma string_app_assoc (a b c : string) : (a +:+ b) +:+ c = a +:+ (b +:+ c).
Proof.
  induction a as [|x a IH]; [reflexivity|].
  change (String x ((a +:+ b) +:+ c) = String x (a +:+ (b +:+ c))).
  f_equal. exact IH.
Qed.

Lemma encodeURIComponent_app (a b : string) :
  encodeURIComponent (a +:+ b) = encodeURIComponent a +:+ encodeURIComponent b.
Proof.
  induction a as [|c a IH]; [reflexivity|].
  change (String c a +:+ b) with (String c (a +:+ b)).
  cbn [encodeURIComponent].
  rewrite IH, string_app_assoc. reflexivity.
Qed.

(** A placeholder for a movie is a data URI that shows its title. *)
Lemma placeholder_shows_title (movie : Movie) (s : string) :
  placeholder_for movie s -> shows_title movie s = true.
Proof.
  intros (lead & w & h & ->).
  unfold shows_title, UiComponents.createFallbackImageUrl.
  apply andb_true_intro. split; [reflexivity|].
  rewrite encodeURIComponent_app, string_app_assoc.
  do 9 apply is_substring_skip.
  apply is_substring_middle.
Qed.

Lemma fallback_is_placeholder (movie : Movie) (w h : Z) :
  placeholder_for movie
    (UiComponents.createFallbackImageUrl ("Affiche " +:+ title movie) w h).
Proof. exists "Affiche ", w, h. reflexivity. Qed.

(** The placeholder of html_inject.js is the one of ui-components.js, with
    the title alone as its text. *)
Lemma card_placeholder_is_placeholder (movie : Movie) :
  placeholder_for movie (HtmlInject.card_placeholder (title movie)).
Proof. exists "", 300, 300. reflexivity. Qed.

Lemma fire_errors_no_handler (n : nat) (img : Img) :
  onerror img = None -> fire_errors n img = img.
Proof.
  intros H. induction n as [|n IH]; [reflexivity|].
  simpl. unfold fire_error at 1. rewrite H. exact IH.
Qed.

(** After [setupImage], load failures substitute the placeholder once. *)
Lemma setupImage_policy (img0 : Img) (movie : Movie) (w h : Z) :
  exists img,
    UiComponents.setupImage (Some img0) (image_url movie)
      ("Affiche " +:+ title movie) w h = Return img
    /\ (truthy_opt_string (image_url movie) = false ->
        placeholder_for movie (src img)
        /\ src_log img = src_log img0 ++ [src img])
    /\ (forall url,
           image_url movie = Some url -> truthy_string url = true ->
           src img = url
           /\ src_log img = src_log img0 ++ [url]
           /\ forall n, (1 <= n)%nat ->
                placeholder_for movie (src (fire_errors n img))
                /\ src_log (fire_errors n img)
                   = src_log img0 ++ [url; src (fire_errors n img)]).
Proof.
  eexists. split; [reflexivity|]. split.
  - intros Hnone. rewrite Hnone. simpl. split; [|reflexivity].
    apply fallback_is_placeholder.
  - intros url Hurl Htruthy. rewrite Hurl. simpl. rewrite Htruthy. simpl.
    split; [reflexivity|]. split; [reflexivity|].
    intros [|n] Hn; [lia|].
    cbn [fire_errors].
    match goal with
    | |- context [fire_error ?i] =>
        change (fire_error i)
          with (set_src
                  (UiComponents.createFallbackImageUrl
                     ("Affiche " +:+ title movie) w h)
                  (set_onerror None i))
    end.
    rewrite fire_errors_no_handler by reflexivity.
    split; [apply fallback_is_placeholder|].
    simpl. rewrite <- app_assoc. reflexivity.
Qed.

Lemma grid_card_policy : ImageFallbackPolicy (card_image UiComponents.fill_card).
Proof.
  intros img0 movie.
  destruct (setupImage_policy img0 movie 300 300) as (img & Heq & Hnone & Hurl).
  exists img. split; [|split; assumption].
  unfold card_image, UiComponents.fill_card.
  cbn [assign_textContent assign_data movie_title details_btn movie_image js_bind].
  rewrite Heq. reflexivity.
Qed.

Lemma banner_policy : ImageFallbackPolicy banner_image.
Proof.
  intros img0 movie.
  destruct (setupImage_policy (set_width 225 img0) movie 225 338)
    as (img & Heq & Hnone & Hurl).
  exists img. split; [|split; assumption].
  unfold banner_image, UiComponents.updateBestMovieDisplay.
  cbn [best_movie_image best_movie_title best_movie_description
       best_movie_details_button].
  rewrite Heq. reflexivity.
Qed.

Lemma legacy_card_policy : ImageFallbackPolicy (card_image HtmlInject.fill_card).
Proof.
  intros img0 movie. eexists. split; [reflexivity|]. split.
  - intros Hnone. rewrite Hnone. simpl. split; [|reflexivity].
    apply card_placeholder_is_placeholder.
  - intros url Hurl Htruthy. rewrite Hurl. simpl. rewrite Htruthy. simpl.
    split; [reflexivity|]. split; [reflexivity|].
    intros [|n] Hn; [lia|].
    cbn [fire_errors].
    match goal with
    | |- context [fire_error ?i] =>
        change (fire_error i)
          with (set_src (HtmlInject.card_placeholder (title movie))
                  (set_onerror None i))
    end.
    rewrite fire_errors_no_handler by reflexivity.
    split; [apply card_placeholder_is_placeholder|].
    simpl. rewrite <- app_assoc. reflexivity.
Qed.

(** C5, as the code has it. In a grid card (ui-components.js and
    html_inject.js) and in the banner: without an image URL the source is at
    once the generated placeholder that shows the movie's title, and no other
    source is assigned; with an image URL that fails to load, the source is
    replaced by that placeholder once, and later failures replace nothing.
    The modal poster is set to the image URL, or to the empty string without
    one, and a load failure replaces it by a generic 210x315 placeholder that
    reads "Image non disponible". *)
Theorem image_fallback :
  ImageFallbackPolicy (card_image UiComponents.fill_card)
  /\ ImageFallbackPolicy (card_image HtmlInject.fill_card)
  /\ ImageFallbackPolicy banner_image
  /\ (forall movie s, placeholder_for movie s -> shows_title movie s = true)
  /\ (forall (img0 : Img) (movie : Movie),
         exists img,
           Modal.createModal_poster (Some img0) movie = Return img
           /\ src img = or_string (image_url movie) ""
           /\ src (fire_error img) = Modal.poster_placeholder).
Proof.
  split; [exact grid_card_policy|].
  split; [exact legacy_card_policy|].
  split; [exact banner_policy|].
  split; [exact placeholder_shows_title|].
  intros img0 movie. eexists. split; [reflexivity|].
  split; reflexivity.
Qed.

(** The poster of "Alien", which has no image URL: its source is the empty
    string, not a placeholder; the placeholder that a load failure brings
    does not show the title. *)
Lemma image_fallback_counterexample :
  Modal.createModal_poster (Some blank_img) alien
  = Return (mkImg "" "Affiche Alien" None (Some PosterOnError) [""])
  /\ shows_title alien
       (src (fire_error (mkImg "" "Affiche Alien" None (Some PosterOnError)
                           [""])))
     = false
  /\ ~ ImageFallbackPolicy Modal.createModal_poster.
Proof.
  split; [reflexivity|]. split; [vm_compute; reflexivity|].
  intros Hpolicy.
  destruct (Hpolicy blank_img alien) as (img & Heq & Hnone & _).
  assert (Himg : img = mkImg "" "Affiche Alien" None (Some PosterOnError) [""]).
  { vm_compute in Heq. congruence. }
  destruct (Hnone eq_refl) as [(lead & w & h & Hplaceholder) _].
  rewrite Himg in Hplaceholder.
  unfold UiComponents.createFallbackImageUrl in Hplaceholder.
  simpl in Hplaceholder. discriminate Hplaceholder.
Qed.

(** A card whose poster fails to load twice: the sources assigned are the
    URL, then the placeholder, and nothing else. *)
Lemma image_fallback_witness :
  exists img,
    card_image UiComponents.fill_card (Some blank_img) (sample_movie 1)
    = Return img
    /\ src_log (fire_errors 2 img)
       = ["http://img/1.jpg";
          UiComponents.createFallbackImageUrl "Affiche Film 1" 300 300].
Proof.
  destruct (proj1 image_fallback blank_img (sample_movie 1))
    as (img & Heq & _ & Hurl).
  exists img. split; [exact Heq|].
  destruct (Hurl "http://img/1.jpg" eq_refl eq_refl) as (_ & _ & Hfail).
  destruct (Hfail 2%nat ltac:(lia)) as [_ Hlog].
  rewrite Hlog.
  assert (Himg : img = returned blank_img
                         (card_image UiComponents.fill_card (Some blank_img)
                            (sample_movie 1))).
  { rewrite Heq. reflexivity. }
  rewrite Himg. reflexivity.
Defined.

(** The poster handler stays installed: a second failure assigns the generic
    placeholder again. *)
Example poster_substitutes_again :
  src_log
    (fire_errors 2
       (returned blank_img
          (Modal.createModal_poster (Some blank_img) (sample_movie 1))))
  = ["http://img/1.jpg"; Modal.poster_placeholder; Modal.poster_placeholder].
Proof. reflexivity. Qed.

(** ** Cards *)





(** ** Default genres of the dropdown categories *)

(** In [initializeCategories] the defaults are the 3rd and the 4th genre, and
    the 1st and the 2nd one when the list has no 3rd or 4th element. *)
Lemma initializeCategories_defaults (genres : list Genre) :
  genres <> [] ->
  let available := map (fun g => mkGenreOption (name g) (name g)) genres in
  exists d1 d2,
    Categories.initializeCategories_categories genres
    = Some [ Categories.Fixed "Films les mieux notés" "top-rated"
               "sort_by=-imdb_score";
             Categories.Fixed "Mystery" "mystery"
               "genre=Mystery&sort_by=-imdb_score";
             Categories.Fixed "Action" "action"
               "genre=Action&sort_by=-imdb_score";
             Categories.Dropdown "dropdown-1" d1;
             Categories.Dropdown "dropdown-2" d2 ]
    /\ (forall g, available !! 2%nat = Some g -> d1 = Some g)
    /\ (available !! 2%nat = None -> d1 = available !! 0%nat)
    /\ (forall g, available !! 3%nat = Some g -> d2 = Some g)
    /\ (available !! 3%nat = None -> d2 = available !! 1%nat)
    /\ is_Some d1.
Proof.
  intros Hne available.
  unfold Categories.initializeCategories_categories.
  destruct genres as [|g0 genres]; [congruence|].
  cbn [length Nat.eqb]. fold available.
  eexists _, _. split; [reflexivity|].
  repeat split.
  - intros g Hg. rewrite Hg. reflexivity.
  - intros Hg. rewrite Hg. reflexivity.
  - intros g Hg. rewrite Hg. reflexivity.
  - intros Hg. rewrite Hg. reflexivity.
  - destruct (available !! 2%nat) eqn:H2; simpl; [eauto|].
    subst available. simpl. eauto.
Qed.

(** C8, on a list of three genres. [initializeCategories] (categories.js)
    falls back to the 2nd genre for the second dropdown; [injectCategories]
    (html_inject.js) gives it no genre at all, and building its dropdown
    throws a TypeError. *)
Theorem injectCategories_no_fallback :
  let genres := [mkGenre "Action"; mkGenre "Adventure"; mkGenre "Animation"] in
  let available := map (fun g => mkGenreOption (name g) (name g)) genres in
  Categories.initializeCategories_categories genres
  = Some [ Categories.Fixed "Films les mieux notés" "top-rated"
             "sort_by=-imdb_score";
           Categories.Fixed "Mystery" "mystery"
             "genre=Mystery&sort_by=-imdb_score";
           Categories.Fixed "Action" "action"
             "genre=Action&sort_by=-imdb_score";
           Categories.Dropdown "dropdown-1"
             (Some (mkGenreOption "Animation" "Animation"));
           Categories.Dropdown "dropdown-2"
             (Some (mkGenreOption "Adventure" "Adventure")) ]
  /\ HtmlInject.injectCategories_categories (Some genres)
     = Some [ HtmlInject.mkCategory "Films les mieux notés"
                (Some "sort_by=-imdb_score") false None None;
              HtmlInject.mkCategory "Mystery" (Some "genre=Mystery") false
                None None;
              HtmlInject.mkCategory "Action" (Some "genre=Action") false
                None None;
              HtmlInject.mkCategory "Autres" None true (Some "dropdown-1")
                (Some (mkGenreOption "Animation" "Animation"));
              HtmlInject.mkCategory "Autres" None true (Some "dropdown-2")
                None ]
  /\ HtmlInject.createGenreDropdown_options available None
     = Throw (TypeError "Cannot read properties of undefined (reading 'value')").
Proof. repeat split. Qed.

(** ** Closing the modal *)

(** C9. [closeModal] without a modal reference, or with a reference to a node
    that has no parent, changes neither the page nor the reference. When it
    removes a displayed modal it also clears the reference and resets the
    body's overflow to the empty string. A second call changes nothing. *)
Theorem closeModal_idempotent :
  forall (this : Modal.MovieModal) (page : Modal.Page),
    ((Modal.modal this = None
      \/ exists node,
           Modal.modal this = Some node
           /\ Modal.parentElement page !! node = None) ->
     Modal.closeModal this page = (this, page))
    /\ (forall node parent,
           Modal.modal this = Some node ->
           Modal.parentElement page !! node = Some parent ->
           Modal.closeModal this page
           = (Modal.mkMovieModal None,
              Modal.mkPage (delete node (Modal.parentElement page)) ""))
    /\ (let '(this', page') := Modal.closeModal this page in
        Modal.closeModal this' page' = (this', page')).
Proof.
  intros this page. unfold Modal.closeModal. repeat split.
  - intros [Hnone | (node & Hsome & Hdetached)].
    + rewrite Hnone. reflexivity.
    + rewrite Hsome, Hdetached. reflexivity.
  - intros node parent Hsome Hattached. rewrite Hsome, Hattached. reflexivity.
  - destruct (Modal.modal this) as [node|] eqn:Hmodal.
    + destruct (Modal.parentElement page !! node) eqn:Hparent.
      * reflexivity.
      * rewrite Hmodal, Hparent. reflexivity.
    + rewrite Hmodal. reflexivity.
Qed.

(** A modal that is displayed (node 7 under the body, node 0), closed twice. *)
Lemma closeModal_idempotent_witness :
  let this := Modal.mkMovieModal (Some 7%nat) in
  let page := Modal.mkPage {[ 7%nat := 0%nat ]} "hidden" in
  Modal.closeModal this page
  = (Modal.mkMovieModal None, Modal.mkPage (delete 7%nat {[ 7%nat := 0%nat ]}) "")
  /\ Modal.closeModal (Modal.mkMovieModal None)
       (Modal.mkPage (delete 7%nat {[ 7%nat := 0%nat ]}) "")
     = (Modal.mkMovieModal None,
        Modal.mkPage (delete 7%nat {[ 7%nat := 0%nat ]}) "").
Proof.
  intros this page.
  destruct (closeModal_idempotent this page) as (_ & Hremove & _).
  split.
  - apply (Hremove 7%nat 0%nat); reflexivity.
  - apply (proj1 (closeModal_idempotent (Modal.mkMovieModal None)
                    (Modal.mkPage (delete 7%nat {[ 7%nat := 0%nat ]}) ""))).
    left. reflexivity.
Defined.

(** ** Box-office formatting *)

(** C6. [formatBoxOffice] maps the number 123456789 to "$123.5m", every string
    that begins with '$' to itself, and the number 500 to "$500". *)
Theorem formatBoxOffice_examples :
  forall (toLocaleString_max1 : string -> string),
    Modal.formatBoxOffice toLocaleString_max1 (Modal.ANumber 123456789)
    = Return "$123.5m"
    /\ (forall rest : string,
           Modal.formatBoxOffice toLocaleString_max1
             (Modal.AString (String "$" rest))
           = Return (String "$" rest))
    /\ Modal.formatBoxOffice toLocaleString_max1 (Modal.ANumber 500)
       = Return "$500".
Proof.
  intros f. split; [|split].
  - vm_compute. reflexivity.
  - intros rest. reflexivity.
  - vm_compute. reflexivity.
Qed.

Lemma has_digit_drop_while (p : ascii -> bool) (s : string) :
  has_digit s = false -> has_digit (Modal.drop_while p s) = false.
Proof.
  induction s as [|c s IH]; simpl; [reflexivity|].
  intros H. apply orb_false_elim in H as [Hc Hs].
  destruct (p c); [apply IH; exact Hs|].
  simpl. rewrite Hc, Hs. reflexivity.
Qed.

Lemma has_digit_take_while (p : ascii -> bool) (s : string) :
  has_digit s = false -> has_digit (Modal.take_while p s) = false.
Proof.
  induction s as [|c s IH]; simpl; [reflexivity|].
  intros H. apply orb_false_elim in H as [Hc Hs].
  destruct (p c); [|reflexivity].
  simpl. rewrite Hc, IH by exact Hs. reflexivity.
Qed.

Lemma has_digit_remove_commas (s : string) :
  has_digit s = false -> has_digit (Modal.remove_commas s) = false.
Proof.
  induction s as [|c s IH]; simpl; [reflexivity|].
  intros H. apply orb_false_elim in H as [Hc Hs].
  destruct (Ascii.eqb c ","); [apply IH; exact Hs|].
  simpl. rewrite Hc, IH by exact Hs. reflexivity.
Qed.

Lemma take_digits_none (s : string) :
  has_digit s = false ->
  Modal.take_while is_digit s = "" /\ Modal.drop_while is_digit s = s.
Proof.
  destruct s as [|c s]; simpl; [split; reflexivity|].
  intros H. apply orb_false_elim in H as [Hc _].
  rewrite Hc. split; reflexivity.
Qed.

(** Without a digit there is no number to read: [parseFloat] gives [NaN]. *)
Lemma parseFloat_no_digit (s : string) :
  has_digit s = false -> Modal.parseFloat_literal s = None.
Proof.
  intros H. unfold Modal.parseFloat_literal.
  destruct (take_digits_none s H) as [-> ->].
  destruct s as [|c rest]; [reflexivity|].
  simpl in H. apply orb_false_elim in H as [_ Hrest].
  destruct (Ascii.eqb c "."); [|reflexivity].
  destruct (take_digits_none rest Hrest) as [-> _]. reflexivity.
Qed.

Lemma formatBoxOffice_returns (f : string -> string) (amount : Modal.Amount) :
  returns (Modal.formatBoxOffice f amount).
Proof.
  unfold Modal.formatBoxOffice.
  destruct (negb (Modal.truthy_amount amount)); [eexists; reflexivity|].
  destruct amount as [| |n|s]; try (eexists; reflexivity).
  - destruct (1000000 <=? n); [|eexists; reflexivity].
    unfold Modal.toFixed. simpl. eexists; reflexivity.
  - destruct (Modal.starts_with_dollar s); [eexists; reflexivity|].
    destruct (Modal.match_number_run s) as [m|]; [|eexists; reflexivity].
    destruct (Modal.parseFloat_literal (Modal.remove_commas m));
      eexists; reflexivity.
Qed.

(** C10. [formatBoxOffice] is total: it returns "Non renseigné" for every
    falsy argument (0, null, undefined, the empty string); it returns
    unchanged every string that does not begin with '$' and contains no
    digit, the empty one being among the falsy arguments; it never throws. *)
Theorem formatBoxOffice_total :
  forall (toLocaleString_max1 : string -> string),
    (forall amount,
        Modal.truthy_amount amount = false ->
        Modal.formatBoxOffice toLocaleString_max1 amount
        = Return "Non renseigné")
    /\ Forall (fun amount => Modal.truthy_amount amount = false)
         [Modal.ANumber 0; Modal.ANull; Modal.AUndefined; Modal.AString ""]
    /\ (forall s : string,
           s <> "" ->
           Modal.starts_with_dollar s = false ->
           has_digit s = false ->
           Modal.formatBoxOffice toLocaleString_max1 (Modal.AString s)
           = Return s)
    /\ (forall amount,
           returns (Modal.formatBoxOffice toLocaleString_max1 amount)).
Proof.
  intros f. split; [|split; [|split]].
  - intros amount H. unfold Modal.formatBoxOffice. rewrite H. reflexivity.
  - repeat constructor.
  - intros s Hne Hdollar Hdigit. unfold Modal.formatBoxOffice.
    destruct s as [|c s']; [congruence|].
    cbn [Modal.truthy_amount truthy_string negb]. rewrite Hdollar.
    unfold Modal.match_number_run.
    pose proof (has_digit_drop_while
                  (fun c => negb (Modal.in_number_class c)) _ Hdigit) as Hrest.
    destruct (Modal.drop_while _ (String c s')) as [|c' rest] eqn:Hdrop;
      [reflexivity|].
    rewrite parseFloat_no_digit; [reflexivity|].
    apply has_digit_remove_commas, has_digit_take_while. exact Hrest.
  - apply formatBoxOffice_returns.
Qed.

(** "N/A" has no digit and no '$': it comes back unchanged. *)
Lemma formatBoxOffice_total_witness :
  Modal.formatBoxOffice (fun literal => literal) (Modal.AString "N/A, inconnu.")
  = Return "N/A, inconnu."
  /\ Modal.formatBoxOffice (fun literal => literal) (Modal.ANumber 0)
     = Return "Non renseigné".
Proof.
  destruct (formatBoxOffice_total (fun literal => literal))
    as (Hfalsy & _ & Hstring & _).
  split.
  - apply Hstring; [discriminate|reflexivity|reflexivity].
  - apply Hfalsy. reflexivity.
Defined.

(** * Further properties of the code *)

(** ** The detail fetcher *)

Lemma fetchMovieDetails_outcome fetchDetail (movieId : string) :
  Details.fetchMovieDetails fetchDetail movieId
  = Return (detail_of fetchDetail movieId).
Proof.
  unfold Details.fetchMovieDetails, detail_of.
  change (Api.baseUrl +:+ Api.titlesEndpoint +:+ movieId)
    with (titles_url +:+ movieId).
  destruct (fetchDetail (titles_url +:+ movieId)) as [e|r]; [reflexivity|].
  simpl. destruct (Details.detail_ok r); simpl; [|reflexivity].
  destruct (Details.detail_json r) as [e|[movie|]]; reflexivity.
Qed.

(** X1. [fetchMovieDetails] requests [/titles/{id}] and returns the parsed
    record of an ok response; it returns [null], and never throws, when the
    request is rejected, when the status is not ok, when the body does not
    parse, and when the body is the JSON [null] (reading [data.title] for the
    log throws inside the [try]). *)
Theorem fetchMovieDetails_fail_soft :
  forall (fetchDetail : string -> Js Details.DetailResponse) (movieId : string),
    let requested :=
      fetchDetail ("http://127.0.0.1:8000/api/v1/titles/" +:+ movieId) in
    let result := Details.fetchMovieDetails fetchDetail movieId in
    (forall response data,
        requested = Return response ->
        Details.detail_ok response = true ->
        Details.detail_json response = Return data ->
        result = Return data)
    /\ (forall e, requested = Throw e -> result = Return None)
    /\ (forall response,
           requested = Return response ->
           Details.detail_ok response = false ->
           result = Return None)
    /\ (forall response e,
           requested = Return response ->
           Details.detail_json response = Throw e ->
           result = Return None)
    /\ returns result.
Proof.
  intros fetchDetail movieId requested result. subst result.
  rewrite fetchMovieDetails_outcome. unfold detail_of, titles_url.
  fold requested. repeat split.
  - intros r data -> Hok Hjson. simpl. rewrite Hok, Hjson. reflexivity.
  - intros e ->. reflexivity.
  - intros r -> Hok. simpl. rewrite Hok. reflexivity.
  - intros r e -> Hjson. simpl. rewrite Hjson.
    destruct (Details.detail_ok r); reflexivity.
  - eexists. reflexivity.
Qed.

(** The detail of the first sample movie, from a backend that has it. *)
Lemma fetchMovieDetails_fail_soft_witness :
  Details.fetchMovieDetails
    (serve_details [(titles_url +:+ "1", bare_detail (sample_movie 1))]) "1"
  = Return (Some (bare_detail (sample_movie 1))).
Proof.
  apply (proj1 (fetchMovieDetails_fail_soft
                  (serve_details
                     [(titles_url +:+ "1", bare_detail (sample_movie 1))])
                  "1")
           (Details.mkDetailResponse true 200
              (Return (Some (bare_detail (sample_movie 1))))));
    reflexivity.
Defined.

(** ** The aggregation, for every integer count *)

Lemma slice0_length_bound {A} (l : list A) (end_ : Z) :
  Z.of_nat (length (slice0 l end_)) <= Z.max 0 end_ \/ 
  (end_ < 0 /\ (length (slice0 l end_) <= length l)%nat).
Proof.
  unfold slice0. rewrite length_take.
  destruct (Z.ltb_spec end_ 0); [right|left]; lia.
Qed.

(** X2. For every integer count, zero and negative ones included,
    [fetchMultiplePages] returns (the aggregate promise never rejects,
    whatever the backend does) a list of at most max(0, count) movies; for a
    count of zero or less it is the empty list. *)
Theorem fetchMultiplePages_total :
  forall (fetch : string -> Js (Response Movie)) (movieCount : Z) (q : string),
  exists movies,
    Categories.fetchMultiplePages fetch movieCount q = Return movies
    /\ Z.of_nat (length movies) <= Z.max 0 movieCount
    /\ (movieCount <= 0 -> movies = []).
Proof.
  intros fetch movieCount q. exists (aggregated fetch q movieCount).
  split; [apply fetchMultiplePages_eq|].
  assert (Hneg : movieCount <= 0 -> aggregated fetch q movieCount = []).
  { intros H. unfold aggregated. rewrite pages_needed_negative by exact H.
    unfold pages_concat, slice0. simpl.
    destruct (movieCount <? 0); rewrite firstn_nil; reflexivity. }
  split; [|exact Hneg].
  destruct (Z.le_gt_cases movieCount 0) as [Hle|Hgt].
  - rewrite Hneg by exact Hle. simpl. lia.
  - unfold aggregated.
    destruct (slice0_length_bound
                (pages_concat (titles_page fetch q) (pages_needed movieCount))
                movieCount) as [H|[H _]]; lia.
Qed.

(** Minus three movies from the backend of twelve: none. *)
Lemma fetchMultiplePages_total_witness :
  Categories.fetchMultiplePages twelve_movies (-3) "sort_by=-imdb_score"
  = Return [].
Proof.
  destruct (fetchMultiplePages_total twelve_movies (-3) "sort_by=-imdb_score")
    as (movies & Heq & _ & Hneg).
  rewrite Heq, (Hneg ltac:(lia)). reflexivity.
Defined.

(** ** What a category render touches *)

Lemma only_grid_refl selector d : only_grid selector d d.
Proof. unfold only_grid. repeat split; reflexivity. Qed.

Lemma only_grid_trans selector d1 d2 d3 :
  only_grid selector d1 d2 -> only_grid selector d2 d3 ->
  only_grid selector d1 d3.
Proof.
  intros (A1 & A2 & A3 & A4 & A5 & A6) (B1 & B2 & B3 & B4 & B5 & B6).
  unfold only_grid. repeat split; try congruence.
  intros other Hne. rewrite B6, A6 by exact Hne. reflexivity.
Qed.

Lemma only_grid_insert selector cards d :
  only_grid selector d (set_containers (<[selector := cards]> (containers d)) d).
Proof.
  unfold only_grid. repeat split; try reflexivity.
  intros other Hne. simpl. apply lookup_insert_ne. congruence.
Qed.

Lemma only_grid_append selector card d :
  only_grid selector d
    (set_containers (alter (fun l => l ++ [card]) selector (containers d)) d).
Proof.
  unfold only_grid. repeat split; try reflexivity.
  intros other Hne. simpl. apply lookup_alter_ne. congruence.
Qed.

Lemma grid_cards_append selector card d :
  (length (grid_cards selector
             (set_containers
                (alter (fun l => l ++ [card]) selector (containers d)) d))
   <= S (length (grid_cards selector d)))%nat.
Proof.
  unfold grid_cards. simpl. rewrite lookup_alter_eq.
  destruct (containers d !! selector) as [l|]; simpl; [|lia].
  rewrite length_app. simpl. lia.
Qed.

Lemma grid_cards_cleared selector d :
  grid_cards selector (set_containers (<[selector := []]> (containers d)) d) = [].
Proof. unfold grid_cards. simpl. rewrite lookup_insert_eq. reflexivity. Qed.

Section Frame.
Variable selector : string.

Lemma Ui_forEach_frame (movies : list Movie) :
  forall d result d',
    dom_forEach
      (fun movie =>
         dom_bind (UiComponents.createMovieCard movie)
           (fun movieCard =>
              match movieCard with
              | Some card => appendChild selector (Some card)
              | None => dom_ret tt
              end))
      movies d = (result, d') ->
    only_grid selector d d'
    /\ (length (grid_cards selector d')
        <= length (grid_cards selector d) + length movies)%nat.
Proof.
  induction movies as [|m movies IH]; intros d result d' Hrun.
  - simpl in Hrun. injection Hrun as _ <-.
    split; [apply only_grid_refl|lia].
  - cbn [dom_forEach] in Hrun. unfold dom_bind at 1 in Hrun.
    unfold dom_bind at 1 in Hrun.
    unfold UiComponents.createMovieCard at 1 in Hrun.
    destruct (movie_card_template d) as [template|].
    + destruct (UiComponents.fill_card template m) as [e|card].
      * simpl in Hrun. injection Hrun as _ <-.
        split; [apply only_grid_refl|lia].
      * cbn [js_bind appendChild] in Hrun.
        destruct (IH _ _ _ Hrun) as [Hframe Hlen]. split.
        -- eapply only_grid_trans; [apply only_grid_append|exact Hframe].
        -- pose proof (grid_cards_append selector card d). simpl. lia.
    + cbn [dom_ret] in Hrun. destruct (IH _ _ _ Hrun) as [Hframe Hlen].
      split; [exact Hframe|]. simpl. lia.
Qed.

Lemma Legacy_forEach_frame (movies : list Movie) :
  forall d result d',
    dom_forEach
      (fun movie =>
         dom_bind (HtmlInject.createMovieCard movie)
           (fun movieCard => appendChild selector movieCard))
      movies d = (result, d') ->
    only_grid selector d d'
    /\ (length (grid_cards selector d')
        <= length (grid_cards selector d) + length movies)%nat.
Proof.
  induction movies as [|m movies IH]; intros d result d' Hrun.
  - simpl in Hrun. injection Hrun as _ <-.
    split; [apply only_grid_refl|lia].
  - cbn [dom_forEach] in Hrun. unfold dom_bind at 1 in Hrun.
    unfold dom_bind at 1 in Hrun.
    unfold HtmlInject.createMovieCard at 1 in Hrun.
    destruct (movie_card_template d) as [template|].
    + destruct (HtmlInject.fill_card template m) as [e|card].
      * simpl in Hrun. injection Hrun as _ <-.
        split; [apply only_grid_refl|lia].
      * cbn [js_bind appendChild] in Hrun.
        destruct (IH _ _ _ Hrun) as [Hframe Hlen]. split.
        -- eapply only_grid_trans; [apply only_grid_append|exact Hframe].
        -- pose proof (grid_cards_append selector card d). simpl. lia.
    + simpl in Hrun. injection Hrun as _ <-.
      split; [apply only_grid_refl|lia].
Qed.
End Frame.

Lemma aggregated_length fetch q (movieCount : Z) :
  Z.of_nat (length (aggregated fetch q movieCount)) <= Z.max 0 movieCount.
Proof.
  destruct (Z.le_gt_cases movieCount 0) as [Hle|Hgt].
  - unfold aggregated. rewrite pages_needed_negative by exact Hle.
    unfold pages_concat, slice0. simpl.
    destruct (movieCount <? 0); rewrite firstn_nil; simpl; lia.
  - unfold aggregated.
    destruct (slice0_length_bound
                (pages_concat (titles_page fetch q) (pages_needed movieCount))
                movieCount) as [H|[H _]]; lia.
Qed.

Lemma displayCategoryMovies_run fetch selector movieCount q categoryName d :
  Categories.displayCategoryMovies fetch selector movieCount q categoryName d
  = match aggregated fetch q movieCount with
    | [] => (Return tt, d)
    | _ :: _ =>
        if bool_decide (is_Some (containers d !! selector))
        then
          dom_forEach
            (fun movie =>
               dom_bind (UiComponents.createMovieCard movie)
                 (fun movieCard =>
                    match movieCard with
                    | Some card => appendChild selector (Some card)
                    | None => dom_ret tt
                    end))
            (aggregated fetch q movieCount)
            (set_containers (<[selector := []]> (containers d)) d)
        else (Return tt, d)
    end.
Proof.
  unfold Categories.displayCategoryMovies.
  unfold dom_bind at 1. unfold dom_lift.
  rewrite fetchMultiplePages_eq.
  destruct (aggregated fetch q movieCount) as [|m ms]; [reflexivity|].
  cbn [length Nat.eqb].
  unfold dom_bind at 1. unfold querySelector.
  destruct (bool_decide (is_Some (containers d !! selector))); reflexivity.
Qed.

Lemma displayCategory_run fetch selector movieCount q categoryName d :
  HtmlInject.displayCategory fetch selector movieCount q categoryName d
  = if HtmlInject.first_page_failed
         (map (titles_page fetch q) (seq 1 (pages_needed movieCount)))
    then (Return tt, d)
    else
      if bool_decide (is_Some (containers d !! selector))
      then
        dom_forEach
          (fun movie =>
             dom_bind (HtmlInject.createMovieCard movie)
               (fun movieCard => appendChild selector movieCard))
          (aggregated fetch q movieCount)
          (set_containers (<[selector := []]> (containers d)) d)
      else (Return tt, d).
Proof.
  unfold HtmlInject.displayCategory.
  unfold dom_bind at 1. unfold dom_lift.
  rewrite Fecth_fetchTitles_all.
  fold (pages_needed movieCount).
  destruct (HtmlInject.first_page_failed _); [reflexivity|].
  rewrite fold_combine. cbn [app].
  unfold dom_bind at 1. unfold querySelector.
  destruct (bool_decide (is_Some (containers d !! selector))); [|reflexivity].
  unfold aggregated, pages_concat. rewrite map_map. reflexivity.
Qed.

Lemma displayCategoryMovies_cases fetch selector movieCount q categoryName d :
  Categories.displayCategoryMovies fetch selector movieCount q categoryName d
  = (Return tt, d)
  \/ (is_Some (containers d !! selector)
      /\ Categories.displayCategoryMovies fetch selector movieCount q
           categoryName d
         = dom_forEach
             (fun movie =>
                dom_bind (UiComponents.createMovieCard movie)
                  (fun movieCard =>
                     match movieCard with
                     | Some card => appendChild selector (Some card)
                     | None => dom_ret tt
                     end))
             (aggregated fetch q movieCount)
             (set_containers (<[selector := []]> (containers d)) d)).
Proof.
  rewrite displayCategoryMovies_run.
  destruct (aggregated fetch q movieCount) as [|m ms]; [left; reflexivity|].
  destruct (bool_decide (is_Some (containers d !! selector))) eqn:Hc;
    [|left; reflexivity].
  right. split; [|reflexivity].
  apply bool_decide_eq_true_1 in Hc. exact Hc.
Qed.

Lemma displayCategory_cases fetch selector movieCount q categoryName d :
  HtmlInject.displayCategory fetch selector movieCount q categoryName d
  = (Return tt, d)
  \/ (is_Some (containers d !! selector)
      /\ HtmlInject.displayCategory fetch selector movieCount q categoryName d
         = dom_forEach
             (fun movie =>
                dom_bind (HtmlInject.createMovieCard movie)
                  (fun movieCard => appendChild selector movieCard))
             (aggregated fetch q movieCount)
             (set_containers (<[selector := []]> (containers d)) d)).
Proof.
  rewrite displayCategory_run.
  destruct (HtmlInject.first_page_failed _); [left; reflexivity|].
  destruct (bool_decide (is_Some (containers d !! selector))) eqn:Hc;
    [|left; reflexivity].
  right. split; [|reflexivity].
  apply bool_decide_eq_true_1 in Hc. exact Hc.
Qed.

Lemma kept_to_grid_unchanged selector movieCount d :
  kept_to_grid selector movieCount d (Return tt, d).
Proof.
  split; [apply only_grid_refl|]. split; [reflexivity|left; reflexivity].
Qed.

Lemma kept_to_grid_rendered selector movieCount d (movies : list Movie) result d' :
  is_Some (containers d !! selector) ->
  Z.of_nat (length movies) <= Z.max 0 movieCount ->
  only_grid selector (set_containers (<[selector := []]> (containers d)) d) d' ->
  (length (grid_cards selector d') <= 0 + length movies)%nat ->
  kept_to_grid selector movieCount d (result, d').
Proof.
  intros [old Hc] Hbound Hframe Hlen. split; [|split].
  - eapply only_grid_trans; [apply only_grid_insert|exact Hframe].
  - intros Hnone. simpl in Hc. congruence.
  - right. simpl. lia.
Qed.

(** X3. Whatever the backend answers and whatever the page holds, also when
    a card cannot be built and the render throws, [displayCategoryMovies] and
    [displayCategory] change nothing of the page but the grid they were given:
    the template, the banner and every other container stay as they were.
    Without that grid on the page they change nothing at all; and the grid is
    either left as it was or ends with at most max(0, count) cards. *)
Theorem render_touches_only_its_grid :
  forall (fetch : string -> Js (Response Movie)) (selector : string)
         (movieCount : Z) (q categoryName : string) (d : Document),
    kept_to_grid selector movieCount d
      (Categories.displayCategoryMovies fetch selector movieCount q
         categoryName d)
    /\ kept_to_grid selector movieCount d
         (HtmlInject.displayCategory fetch selector movieCount q categoryName d).
Proof.
  intros fetch selector movieCount q categoryName d.
  pose proof (aggregated_length fetch q movieCount) as Hbound.
  split.
  - destruct (displayCategoryMovies_cases fetch selector movieCount q
                categoryName d) as [-> | [Hc ->]];
      [apply kept_to_grid_unchanged|].
    destruct (dom_forEach _ _ _) as [result d'] eqn:Hrun.
    destruct (Ui_forEach_frame selector _ _ _ _ Hrun) as [Hframe Hlen].
    rewrite grid_cards_cleared in Hlen.
    eapply kept_to_grid_rendered; eassumption.
  - destruct (displayCategory_cases fetch selector movieCount q
                categoryName d) as [-> | [Hc ->]];
      [apply kept_to_grid_unchanged|].
    destruct (dom_forEach _ _ _) as [result d'] eqn:Hrun.
    destruct (Legacy_forEach_frame selector _ _ _ _ Hrun) as [Hframe Hlen].
    rewrite grid_cards_cleared in Hlen.
    eapply kept_to_grid_rendered; eassumption.
Qed.

(** ** Rendering without the card template *)

Lemma Ui_forEach_no_template selector (movies : list Movie) (d : Document) :
  movie_card_template d = None ->
  dom_forEach
    (fun movie =>
       dom_bind (UiComponents.createMovieCard movie)
         (fun movieCard =>
            match movieCard with
            | Some card => appendChild selector (Some card)
            | None => dom_ret tt
            end))
    movies d
  = (Return tt, d).
Proof.
  intros Htpl. induction movies as [|m movies IH]; [reflexivity|].
  cbn [dom_forEach]. unfold dom_bind at 1. unfold dom_bind at 1.
  unfold UiComponents.createMovieCard at 1. rewrite Htpl. cbn [dom_ret].
  exact IH.
Qed.

Lemma first_page_ok_not_failed fetch q (movieCount : Z) :
  truthy_results (titles_page fetch q 1) <> None ->
  aggregated fetch q movieCount <> [] ->
  HtmlInject.first_page_failed
    (map (titles_page fetch q) (seq 1 (pages_needed movieCount))) = false.
Proof.
  intros H1 Hmovies.
  destruct (pages_needed movieCount) as [|k] eqn:Hk.
  - exfalso. apply Hmovies. unfold aggregated. rewrite Hk.
    unfold pages_concat, slice0. simpl.
    destruct (movieCount <? 0); rewrite firstn_nil; reflexivity.
  - cbn [seq map HtmlInject.first_page_failed].
    destruct (truthy_results (titles_page fetch q 1)); [reflexivity|congruence].
Qed.

(** X4. When the page has no card template and there are movies to show,
    [displayCategoryMovies] empties the grid, skips every card and returns
    without an error, whereas [displayCategory] empties the grid and then
    throws a TypeError on appending the first, null, card. *)
Theorem render_without_template :
  forall (fetch : string -> Js (Response Movie)) (selector : string)
         (movieCount : Z) (q categoryName : string) (d : Document),
    movie_card_template d = None ->
    aggregated fetch q movieCount <> [] ->
    is_Some (containers d !! selector) ->
    Categories.displayCategoryMovies fetch selector movieCount q categoryName d
    = (Return tt, filled selector [] d)
    /\ (truthy_results (titles_page fetch q 1) <> None ->
        HtmlInject.displayCategory fetch selector movieCount q categoryName d
        = (Throw (TypeError "parameter 1 is not of type 'Node'"),
           filled selector [] d)).
Proof.
  intros fetch selector movieCount q categoryName d Htpl Hmovies Hc. split.
  - rewrite displayCategoryMovies_run.
    destruct (aggregated fetch q movieCount) as [|m ms]; [congruence|].
    rewrite bool_decide_eq_true_2 by exact Hc.
    apply Ui_forEach_no_template. exact Htpl.
  - intros H1. rewrite displayCategory_run.
    rewrite first_page_ok_not_failed by assumption.
    rewrite bool_decide_eq_true_2 by exact Hc.
    destruct (aggregated fetch q movieCount) as [|m ms]; [congruence|].
    cbn [dom_forEach]. unfold dom_bind at 1. unfold dom_bind at 1.
    unfold HtmlInject.createMovieCard at 1. simpl. rewrite Htpl. reflexivity.
Qed.

(** Six top-rated movies asked for, on the page that lost its template and
    still shows an old card: the grid ends empty in both modules. *)
Lemma render_without_template_witness :
  Categories.displayCategoryMovies twelve_movies ".movies-grid" 6
    "sort_by=-imdb_score" "Films" (page_without_template [blank_template])
  = (Return tt, page_without_template [])
  /\ HtmlInject.displayCategory twelve_movies ".movies-grid" 6
       "sort_by=-imdb_score" "Films" (page_without_template [blank_template])
     = (Throw (TypeError "parameter 1 is not of type 'Node'"),
        page_without_template []).
Proof.
  assert (Hmovies : aggregated twelve_movies "sort_by=-imdb_score" 6 <> [])
    by (vm_compute; discriminate).
  assert (Hgrid : is_Some (containers (page_without_template [blank_template])
                             !! ".movies-grid"))
    by (eexists; reflexivity).
  destruct (render_without_template twelve_movies ".movies-grid" 6
              "sort_by=-imdb_score" "Films"
              (page_without_template [blank_template]) eq_refl Hmovies Hgrid)
    as [Hnew Hold].
  assert (Hfilled :
    filled ".movies-grid" [] (page_without_template [blank_template])
    = page_without_template []).
  { unfold filled, page_without_template, set_containers. simpl.
    rewrite insert_singleton_eq. reflexivity. }
  split.
  - rewrite Hnew. rewrite Hfilled. reflexivity.
  - rewrite Hold by (vm_compute; discriminate).
    rewrite Hfilled. reflexivity.
Defined.

(** ** The banner *)

Lemma or_string_first_text (a b : option string) (dflt : string) :
  or_string a (or_string b dflt) = first_text a b dflt.
Proof.
  unfold or_string, first_text.
  destruct a as [[|c s]|]; simpl; try reflexivity;
    destruct b as [[|c' s']|]; reflexivity.
Qed.

(** X5. [updateBestMovieDisplay] is all or nothing and never throws: when one
    of the four banner slots is missing the page is left as it was; otherwise
    only the banner changes: the image gets width 225 and the alt text
    "Affiche <title>", the title slot shows the title, or "Titre inconnu" for
    an empty one, the description slot shows the long description, else the
    description, else "Aucune description disponible.", and the button
    carries the movie id and keeps its other data. *)
Theorem updateBestMovieDisplay_all_or_nothing :
  forall (movie : Movie) (d : Document),
    (~ banner_present d ->
     UiComponents.updateBestMovieDisplay movie d = (Return tt, d))
    /\ (forall img titleEl descriptionEl button,
           best_movie_image d = Some img ->
           best_movie_title d = Some titleEl ->
           best_movie_description d = Some descriptionEl ->
           best_movie_details_button d = Some button ->
           exists img' titleEl' descriptionEl' button',
             UiComponents.updateBestMovieDisplay movie d
             = (Return tt,
                mkDocument (movie_card_template d) (containers d) (Some img')
                  (Some titleEl') (Some descriptionEl') (Some button'))
             /\ width_attr img' = Some 225
             /\ alt img' = "Affiche " +:+ title movie
             /\ textContent titleEl'
                = (if truthy_string (title movie) then title movie
                   else "Titre inconnu")
             /\ textContent descriptionEl'
                = first_text (long_description movie) (description movie)
                    "Aucune description disponible."
             /\ dataset button' !! "movieId"
                = Some (string_of_Z (movie_id movie))
             /\ (forall k, k <> "movieId" ->
                           dataset button' !! k = dataset button !! k)
             /\ dataset titleEl' = dataset titleEl
             /\ dataset descriptionEl' = dataset descriptionEl).
Proof.
  intros movie d. split.
  - intros Hmissing. unfold UiComponents.updateBestMovieDisplay.
    destruct (best_movie_image d) eqn:H1; [|reflexivity].
    destruct (best_movie_title d) eqn:H2; [|reflexivity].
    destruct (best_movie_description d) eqn:H3; [|reflexivity].
    destruct (best_movie_details_button d) eqn:H4; [|reflexivity].
    exfalso. apply Hmissing. unfold banner_present.
    rewrite H1, H2, H3, H4. repeat split; eauto.
  - intros img titleEl descriptionEl button H1 H2 H3 H4.
    unfold UiComponents.updateBestMovieDisplay. rewrite H1, H2, H3, H4.
    cbn [UiComponents.setupImage].
    eexists _, _, _, _. split; [reflexivity|].
    repeat match goal with |- _ /\ _ => split end.
    + destruct (truthy_opt_string (image_url movie)); reflexivity.
    + destruct (truthy_opt_string (image_url movie)); reflexivity.
    + reflexivity.
    + simpl. apply or_string_first_text.
    + simpl. apply lookup_insert_eq.
    + intros k Hk. simpl. apply lookup_insert_ne. congruence.
    + reflexivity.
    + reflexivity.
Qed.

(** The banner of "Alien" on a page that has the four slots. *)
Lemma updateBestMovieDisplay_all_or_nothing_witness :
  exists d',
    UiComponents.updateBestMovieDisplay alien banner_page = (Return tt, d')
    /\ (textContent <$> best_movie_title d') = Some "Alien"
    /\ (textContent <$> best_movie_description d')
       = Some "Aucune description disponible.".
Proof.
  destruct (proj2 (updateBestMovieDisplay_all_or_nothing alien banner_page)
              blank_img blank_element blank_element blank_element
              eq_refl eq_refl eq_refl eq_refl)
    as (img' & t' & de' & b' & Heq & _ & _ & Ht & Hde & _).
  eexists. split; [exact Heq|]. simpl. rewrite Ht, Hde. split; reflexivity.
Defined.

(** ** The best movie *)

Section BestMovie.
Variable fetch : string -> Js (Response Movie).
Variable fetchDetail : string -> Js Details.DetailResponse.

Lemma loadBestMovie_run (d : Document) :
  Main.loadBestMovie fetch fetchDetail d
  = match truthy_results (titles_page fetch "sort_by=-imdb_score" 1) with
    | Some (first :: _) =>
        match detail_of fetchDetail (string_of_Z (movie_id first)) with
        | Some movie =>
            UiComponents.updateBestMovieDisplay (Details.preview movie) d
        | None => (Return tt, d)
        end
    | _ => (Return tt, d)
    end.
Proof.
  unfold Main.loadBestMovie, dom_try_catch, titles_page.
  change (page_url titles_url 1 "sort_by=-imdb_score")
    with "http://127.0.0.1:8000/api/v1/titles/?page=1&sort_by=-imdb_score".
  unfold dom_bind at 1. unfold dom_lift at 1.
  destruct (fetch _) as [e|response]; [reflexivity|].
  cbn [fetch_outcome]. destruct (ok response); cbn [negb]; [|reflexivity].
  unfold dom_bind at 1. unfold dom_lift at 1.
  destruct (json response) as [e|data]; [reflexivity|].
  destruct (truthy_results data) as [[|first rest]|]; try reflexivity.
  unfold dom_bind at 1. unfold dom_lift at 1.
  rewrite fetchMovieDetails_outcome.
  destruct (detail_of fetchDetail (string_of_Z (movie_id first)))
    as [movie|]; [|reflexivity].
  unfold UiComponents.updateBestMovieDisplay.
  destruct (best_movie_image d); [|reflexivity].
  destruct (best_movie_title d); [|reflexivity].
  destruct (best_movie_description d); [|reflexivity].
  destruct (best_movie_details_button d); reflexivity.
Qed.
End BestMovie.

Lemma updateBestMovieDisplay_frame (movie : Movie) (d : Document) :
  exists d',
    UiComponents.updateBestMovieDisplay movie d = (Return tt, d')
    /\ movie_card_template d' = movie_card_template d
    /\ containers d' = containers d.
Proof.
  unfold UiComponents.updateBestMovieDisplay.
  destruct (best_movie_image d); [|eauto].
  destruct (best_movie_title d); [|eauto].
  destruct (best_movie_description d); [|eauto].
  destruct (best_movie_details_button d); [|eauto].
  cbn [UiComponents.setupImage]. eexists. split; [reflexivity|].
  split; reflexivity.
Qed.

Lemma slice0_head {A} (x : A) (l : list A) (end_ : Z) :
  1 <= end_ -> head (slice0 (x :: l) end_) = Some x.
Proof.
  intros H. unfold slice0.
  destruct (Z.ltb_spec end_ 0); [lia|].
  destruct (Z.to_nat (Z.min end_ (Z.of_nat (length (x :: l))))) eqn:Hn.
  - simpl length in Hn. lia.
  - reflexivity.
Qed.

Lemma aggregated_head fetch q (movieCount : Z) (first : Movie) rest :
  1 <= movieCount ->
  truthy_results (titles_page fetch q 1) = Some (first :: rest) ->
  head (aggregated fetch q movieCount) = Some first.
Proof.
  intros Hcount H1. unfold aggregated, pages_concat.
  assert (Hk : (1 <= pages_needed movieCount)%nat).
  { unfold pages_needed. pose proof (ceil_div_5_bounds movieCount ltac:(lia)).
    lia. }
  destruct (pages_needed movieCount) as [|k]; [lia|].
  cbn [seq map concat]. unfold results_of at 1. rewrite H1.
  cbn [default app]. apply slice0_head. exact Hcount.
Qed.

(** X6. [loadBestMovie] never throws and changes nothing of the page but the
    banner. It asks for the first page of the top-rated listing, the one that
    the top-rated category starts from, so that the banner movie is the first
    movie of that category; with that movie's detail record and the banner
    slots it does what [updateBestMovieDisplay] does. When the page fails, is
    null or has no result, when the detail cannot be fetched, or when a banner
    slot is missing, the page is left as it was. *)
Theorem loadBestMovie_all_or_nothing :
  forall (fetch : string -> Js (Response Movie))
         (fetchDetail : string -> Js Details.DetailResponse) (d : Document),
    let topRated := truthy_results (titles_page fetch "sort_by=-imdb_score" 1) in
    (exists d',
        Main.loadBestMovie fetch fetchDetail d = (Return tt, d')
        /\ movie_card_template d' = movie_card_template d
        /\ containers d' = containers d)
    /\ (forall first rest movie,
           topRated = Some (first :: rest) ->
           detail_of fetchDetail (string_of_Z (movie_id first)) = Some movie ->
           Main.loadBestMovie fetch fetchDetail d
           = UiComponents.updateBestMovieDisplay (Details.preview movie) d
           /\ forall movieCount,
                1 <= movieCount ->
                head (aggregated fetch "sort_by=-imdb_score" movieCount)
                = Some first)
    /\ ((topRated = None \/ topRated = Some []
         \/ (exists first rest,
                topRated = Some (first :: rest)
                /\ detail_of fetchDetail (string_of_Z (movie_id first)) = None)
         \/ ~ banner_present d) ->
        Main.loadBestMovie fetch fetchDetail d = (Return tt, d)).
Proof.
  intros fetch fetchDetail d topRated.
  pose proof (loadBestMovie_run fetch fetchDetail d) as Hrun.
  fold topRated in Hrun. split; [|split].
  - rewrite Hrun. destruct topRated as [[|first rest]|]; eauto.
    destruct (detail_of fetchDetail (string_of_Z (movie_id first))); eauto.
    apply updateBestMovieDisplay_frame.
  - intros first rest movie Htop Hdetail. rewrite Hrun, Htop, Hdetail.
    split; [reflexivity|].
    intros movieCount Hcount. eapply aggregated_head; eassumption.
  - intros Hfail. rewrite Hrun.
    destruct Hfail as [-> | [-> | [(first & rest & -> & ->) | Hmissing]]];
      try reflexivity.
    destruct topRated as [[|first rest]|]; try reflexivity.
    destruct (detail_of fetchDetail (string_of_Z (movie_id first)));
      [|reflexivity].
    unfold UiComponents.updateBestMovieDisplay.
    destruct (best_movie_image d) eqn:H1; [|reflexivity].
    destruct (best_movie_title d) eqn:H2; [|reflexivity].
    destruct (best_movie_description d) eqn:H3; [|reflexivity].
    destruct (best_movie_details_button d) eqn:H4; [|reflexivity].
    exfalso. apply Hmissing. unfold banner_present.
    rewrite H1, H2, H3, H4. repeat split; eauto.
Qed.

(** The best of twelve movies is the first sample movie: the banner gets it,
    and the top-rated category of six starts with it. *)
Lemma loadBestMovie_all_or_nothing_witness :
  Main.loadBestMovie twelve_movies first_movie_details banner_page
  = UiComponents.updateBestMovieDisplay (sample_movie 1) banner_page
  /\ head (aggregated twelve_movies "sort_by=-imdb_score" 6)
     = Some (sample_movie 1).
Proof.
  destruct (loadBestMovie_all_or_nothing twelve_movies first_movie_details
              banner_page) as (_ & Hok & _).
  destruct (Hok (sample_movie 1) (map sample_movie (seq 2 4))
              (bare_detail (sample_movie 1)) eq_refl eq_refl)
    as [Hload Hhead].
  split; [exact Hload|]. apply Hhead. lia.
Defined.

(** ** The "Voir plus" button *)

Lemma isExpanded_set (v : string) (button : Element) :
  ShowMore.isExpanded (set_data "expanded" v button)
  = bool_decide (v = "true").
Proof.
  unfold ShowMore.isExpanded. simpl. rewrite lookup_insert_eq.
  destruct (decide (v = "true")) as [->|Hne].
  - rewrite !bool_decide_eq_true_2; reflexivity.
  - rewrite !bool_decide_eq_false_2; [reflexivity|exact Hne|congruence].
Qed.

Lemma all_shown_added (movieCards : list (gset string)) :
  all_shown true (map (fun classList => classList ∪ {[ "show-all" ]}) movieCards).
Proof.
  intros c Hc. apply in_map_iff in Hc as (c0 & <- & _).
  split; [reflexivity|]. intros _. set_solver.
Qed.

Lemma all_shown_removed (movieCards : list (gset string)) :
  all_shown false (map (fun classList => classList ∖ {[ "show-all" ]}) movieCards).
Proof.
  intros c Hc. apply in_map_iff in Hc as (c0 & <- & _).
  split; [set_solver|discriminate].
Qed.

Lemma onClick_step (movieCards : list (gset string)) (button : Element) :
  let expanded := negb (ShowMore.isExpanded button) in
  ShowMore.onClick (Some movieCards) button
  = Return
      (map (fun classList =>
              if expanded then classList ∪ {[ "show-all" ]}
              else classList ∖ {[ "show-all" ]}) movieCards,
       set_data "expanded" (if expanded then "true" else "false")
         (set_textContent (label_for expanded) button)).
Proof.
  unfold ShowMore.onClick. destruct (ShowMore.isExpanded button); reflexivity.
Qed.

(** X7. One click on "Voir plus" with its grid on the page toggles the
    category: the expanded flag flips, the label is "Voir moins" exactly when
    expanded, every card of the grid then carries the class show-all exactly
    when expanded, whatever the cards carried before, and nothing else
    changes: the number of cards, their other classes, the other data of the
    button. Without the grid the click throws a TypeError. *)
Theorem show_more_click :
  forall (movieCards : list (gset string)) (button : Element),
    (exists movieCards' button',
        ShowMore.onClick (Some movieCards) button
        = Return (movieCards', button')
        /\ ShowMore.isExpanded button' = negb (ShowMore.isExpanded button)
        /\ textContent button' = label_for (ShowMore.isExpanded button')
        /\ all_shown (ShowMore.isExpanded button') movieCards'
        /\ length movieCards' = length movieCards
        /\ (forall i c c',
               movieCards !! i = Some c -> movieCards' !! i = Some c' ->
               c' ∖ {[ "show-all" ]} = c ∖ {[ "show-all" ]})
        /\ (forall k, k <> "expanded" ->
                      dataset button' !! k = dataset button !! k))
    /\ ShowMore.onClick None button
       = Throw (TypeError
                  "Cannot read properties of null (reading 'querySelectorAll')").
Proof.
  intros movieCards button. split; [|reflexivity].
  eexists _, _. split; [apply onClick_step|].
  destruct (ShowMore.isExpanded button) eqn:Hexp; cbn [negb].
  - rewrite isExpanded_set.
    rewrite bool_decide_eq_false_2 by discriminate.
    repeat match goal with |- _ /\ _ => split end.
    + reflexivity.
    + reflexivity.
    + apply all_shown_removed.
    + apply length_map.
    + intros i c c' Hc Hc'. rewrite list_lookup_fmap, Hc in Hc'.
      injection Hc' as <-. set_solver.
    + intros k Hk. simpl. apply lookup_insert_ne. congruence.
  - rewrite isExpanded_set.
    rewrite bool_decide_eq_true_2 by reflexivity.
    repeat match goal with |- _ /\ _ => split end.
    + reflexivity.
    + reflexivity.
    + apply all_shown_added.
    + apply length_map.
    + intros i c c' Hc Hc'. rewrite list_lookup_fmap, Hc in Hc'.
      injection Hc' as <-. set_solver.
    + intros k Hk. simpl. apply lookup_insert_ne. congruence.
Qed.

Lemma clicks_state (n : nat) :
  forall (movieCards : list (gset string)) (button : Element),
  exists movieCards' button',
    clicks n movieCards button = Return (movieCards', button')
    /\ ShowMore.isExpanded button'
       = xorb (Nat.odd n) (ShowMore.isExpanded button)
    /\ ((1 <= n)%nat ->
        textContent button' = label_for (ShowMore.isExpanded button')
        /\ all_shown (ShowMore.isExpanded button') movieCards')
    /\ length movieCards' = length movieCards
    /\ (forall k, k <> "expanded" ->
                  dataset button' !! k = dataset button !! k).
Proof.
  induction n as [|n IH]; intros movieCards button.
  - eexists _, _. split; [reflexivity|]. split.
    + simpl. destruct (ShowMore.isExpanded button); reflexivity.
    + split; [lia|]. split; reflexivity.
  - cbn [clicks]. rewrite onClick_step. cbn [js_bind fst snd].
    match goal with
    | |- context [clicks n ?cs ?b] => destruct (IH cs b)
        as (cards' & button' & Heq & Hexp & Hshape & Hlen & Hdata)
    end.
    exists cards', button'. split; [exact Heq|].
    rewrite isExpanded_set in Hexp.
    assert (Hflip :
      ShowMore.isExpanded button'
      = xorb (Nat.odd (S n)) (ShowMore.isExpanded button)).
    { rewrite Hexp, Nat.odd_succ, <- Nat.negb_odd.
      destruct (Nat.odd n), (ShowMore.isExpanded button); reflexivity. }
    split; [exact Hflip|]. split; [|split].
    + intros _. destruct n as [|n'].
      * simpl in Heq. injection Heq as <- <-.
        rewrite isExpanded_set.
        destruct (ShowMore.isExpanded button); cbn [negb].
        -- rewrite bool_decide_eq_false_2 by discriminate.
           split; [reflexivity|apply all_shown_removed].
        -- rewrite bool_decide_eq_true_2 by reflexivity.
           split; [reflexivity|apply all_shown_added].
      * apply Hshape. lia.
    + rewrite Hlen. apply length_map.
    + intros k Hk. rewrite Hdata by exact Hk. simpl.
      apply lookup_insert_ne. congruence.
Qed.

(** X8. From the button that [createShowMoreButton] makes, [n] clicks leave
    the category expanded exactly when [n] is odd: the flag, the label and,
    after at least one click, the class show-all of every card agree with the
    parity of [n]; the button still names its category. *)
Theorem show_more_parity :
  forall (n : nat) (categoryId : string) (movieCards : list (gset string)),
  exists movieCards' button',
    clicks n movieCards (ShowMore.createShowMoreButton categoryId)
    = Return (movieCards', button')
    /\ ShowMore.isExpanded button' = Nat.odd n
    /\ textContent button' = label_for (Nat.odd n)
    /\ ((1 <= n)%nat -> all_shown (Nat.odd n) movieCards')
    /\ length movieCards' = length movieCards
    /\ dataset button' !! "categoryId" = Some categoryId.
Proof.
  intros n categoryId movieCards.
  destruct (clicks_state n movieCards (ShowMore.createShowMoreButton categoryId))
    as (cards' & button' & Heq & Hexp & Hshape & Hlen & Hdata).
  exists cards', button'. split; [exact Heq|].
  assert (Hfresh :
    ShowMore.isExpanded (ShowMore.createShowMoreButton categoryId) = false)
    by reflexivity.
  rewrite Hfresh, xorb_false_r in Hexp.
  split; [exact Hexp|]. split; [|split; [|split]].
  - destruct n as [|n'].
    + simpl in Heq. injection Heq as <- <-. reflexivity.
    + destruct (Hshape ltac:(lia)) as [Htext _]. rewrite Htext, Hexp.
      reflexivity.
  - intros Hn. destruct (Hshape Hn) as [_ Hall]. rewrite Hexp in Hall.
    exact Hall.
  - exact Hlen.
  - rewrite Hdata by discriminate. reflexivity.
Qed.

(** X9. At the end of a genre change the category is collapsed: with the
    "Voir plus" button and the grid in place, the flag is 'false', the label
    is "Voir plus", no card carries show-all any more, and the next click
    expands every card. Without the button nothing is reset, the cards keep
    their classes; with the button and without the grid the button is reset
    and then a TypeError is thrown. *)
Theorem genre_change_collapses :
  forall (button : Element) (movieCards : list (gset string)),
    (exists button' movieCards',
        ShowMore.resetAfterGenreChange (Some button) (Some movieCards)
        = (Return tt, (Some button', Some movieCards'))
        /\ ShowMore.isExpanded button' = false
        /\ textContent button' = "Voir plus"
        /\ all_shown false movieCards'
        /\ length movieCards' = length movieCards
        /\ (exists movieCards'' button'',
               ShowMore.onClick (Some movieCards') button'
               = Return (movieCards'', button'')
               /\ ShowMore.isExpanded button'' = true
               /\ textContent button'' = "Voir moins"
               /\ all_shown true movieCards'')
        /\ ShowMore.resetAfterGenreChange (Some button') (Some movieCards')
           = (Return tt, (Some button', Some movieCards')))
    /\ ShowMore.resetAfterGenreChange None (Some movieCards)
       = (Return tt, (None, Some movieCards))
    /\ (exists button',
           ShowMore.resetAfterGenreChange (Some button) None
           = (Throw (TypeError
                       "Cannot read properties of null (reading 'querySelectorAll')"),
              (Some button', None))
           /\ ShowMore.isExpanded button' = false
           /\ textContent button' = "Voir plus").
Proof.
  intros button movieCards. split; [|split].
  - eexists _, _. split; [reflexivity|].
    assert (Hcollapsed :
      ShowMore.isExpanded
        (set_data "expanded" "false" (set_textContent "Voir plus" button))
      = false).
    { rewrite isExpanded_set. apply bool_decide_eq_false_2. discriminate. }
    repeat match goal with |- _ /\ _ => split end.
    + exact Hcollapsed.
    + reflexivity.
    + apply all_shown_removed.
    + apply length_map.
    + eexists _, _. split; [apply onClick_step|].
      rewrite Hcollapsed. cbn [negb]. split; [|split].
      * rewrite isExpanded_set. apply bool_decide_eq_true_2. reflexivity.
      * reflexivity.
      * apply all_shown_added.
    + unfold ShowMore.resetAfterGenreChange. f_equal. f_equal.
      * f_equal. unfold set_data, set_textContent. simpl.
        rewrite insert_insert_eq. reflexivity.
      * f_equal. rewrite map_map. apply map_ext. intros c. set_solver.
  - reflexivity.
  - eexists. split; [reflexivity|]. split; [|reflexivity].
    rewrite isExpanded_set. apply bool_decide_eq_false_2. discriminate.
Qed.

(** ** Building the modal *)

Section ModalFacts.
Variable getFullYear : string -> option Z.
Variable toLocaleString_max1 : string -> string.

Lemma meta_line4_returns (movie : Details.MovieDetail) :
  ModalView.meta_line4 toLocaleString_max1 movie
  = Return (returned [] (ModalView.meta_line4 toLocaleString_max1 movie)).
Proof.
  unfold ModalView.meta_line4.
  destruct (Modal.truthy_amount (Details.worldwide_gross_income movie));
    [|reflexivity].
  destruct (formatBoxOffice_returns toLocaleString_max1
              (Details.worldwide_gross_income movie)) as [s ->].
  reflexivity.
Qed.

(** The meta block that [createModal] writes. *)
Lemma createModal_complete (m : ModalView.ModalFragment)
    (movie : Details.MovieDetail) (this : Modal.MovieModal) :
  complete_modal (Some m) ->
  exists fragment,
    ModalView.createModal getFullYear toLocaleString_max1 (Some m) movie this
    = (Return fragment, Modal.mkMovieModal (ModalView.overlay m))
    /\ ModalView.overlay fragment = ModalView.overlay m
    /\ meta_html fragment
       = String.concat "<br>"
           (ModalView.meta_line1 getFullYear movie
            ++ ModalView.meta_line2 movie ++ ModalView.meta_line3 movie
            ++ returned [] (ModalView.meta_line4 toLocaleString_max1 movie))
    /\ (textContent <$> ModalView.directors_slot fragment)
       = Some (ModalView.names_or_unknown (Details.directors movie))
    /\ (textContent <$> ModalView.cast_slot fragment)
       = Some (ModalView.names_or_unknown (Details.actors movie))
    /\ (textContent <$> ModalView.title_slot fragment)
       = Some (if truthy_string (title (Details.preview movie))
               then title (Details.preview movie) else "Titre inconnu")
    /\ (textContent <$> ModalView.synopsis_slot fragment)
       = Some (first_text (long_description (Details.preview movie))
                 (description (Details.preview movie))
                 "Aucun résumé disponible.").
Proof.
  intros (m' & [= <-] & [p Hp] & [t Ht] & [me Hme] & [di Hdi] & [sy Hsy]
          & [ca Hca]).
  unfold ModalView.createModal.
  rewrite Hp, Ht, Hme, Hdi, Hsy, Hca, meta_line4_returns.
  cbn [Modal.createModal_poster assign_textContent ModalView.assign_innerHTML
       js_bind].
  eexists. split; [reflexivity|].
  repeat match goal with |- _ /\ _ => split end; try reflexivity.
  simpl. rewrite or_string_first_text. reflexivity.
Qed.

Lemma createModal_incomplete (clone : option ModalView.ModalFragment)
    (movie : Details.MovieDetail) (this : Modal.MovieModal) :
  ~ complete_modal clone ->
  exists message,
    ModalView.createModal getFullYear toLocaleString_max1 clone movie this
    = (Throw (TypeError message), this).
Proof.
  intros Hincomplete. unfold ModalView.createModal.
  destruct clone as [m|]; [|eexists; reflexivity].
  destruct (ModalView.poster m) as [p|] eqn:Hp; [|eexists; reflexivity].
  destruct (ModalView.title_slot m) as [t|] eqn:Ht; [|eexists; reflexivity].
  rewrite meta_line4_returns.
  destruct (ModalView.meta_slot m) as [me|] eqn:Hme; [|eexists; reflexivity].
  destruct (ModalView.directors_slot m) as [di|] eqn:Hdi;
    [|eexists; reflexivity].
  destruct (ModalView.synopsis_slot m) as [sy|] eqn:Hsy;
    [|eexists; reflexivity].
  destruct (ModalView.cast_slot m) as [ca|] eqn:Hca; [|eexists; reflexivity].
  exfalso. apply Hincomplete. exists m. rewrite Hp, Ht, Hme, Hdi, Hsy, Hca.
  repeat split; eauto.
Qed.
End ModalFacts.

(** X10. [createModal] either fills the whole copy of the template or
    assigns nothing: with the template and its six slots it returns the
    filled copy and sets [this.modal] to the overlay of the copy ([null] if
    the copy has none); directors and cast read "Non renseigné" for a missing
    or empty list, the title "Titre inconnu" for an empty title. With the
    template or one slot missing it throws a TypeError and leaves
    [this.modal] as it was. *)
Theorem createModal_fills_or_throws :
  forall (getFullYear : string -> option Z)
         (toLocaleString_max1 : string -> string)
         (clone : option ModalView.ModalFragment)
         (movie : Details.MovieDetail) (this : Modal.MovieModal),
    (complete_modal clone ->
     exists m fragment,
       clone = Some m
       /\ ModalView.createModal getFullYear toLocaleString_max1 clone movie this
          = (Return fragment, Modal.mkMovieModal (ModalView.overlay m))
       /\ (textContent <$> ModalView.title_slot fragment)
          = Some (if truthy_string (title (Details.preview movie))
                  then title (Details.preview movie) else "Titre inconnu")
       /\ (textContent <$> ModalView.directors_slot fragment)
          = Some (match Details.directors movie with
                  | Some (x :: rest) => String.concat ", " (x :: rest)
                  | _ => "Non renseigné"
                  end)
       /\ (textContent <$> ModalView.cast_slot fragment)
          = Some (match Details.actors movie with
                  | Some (x :: rest) => String.concat ", " (x :: rest)
                  | _ => "Non renseigné"
                  end)
       /\ (textContent <$> ModalView.synopsis_slot fragment)
          = Some (first_text (long_description (Details.preview movie))
                    (description (Details.preview movie))
                    "Aucun résumé disponible."))
    /\ (~ complete_modal clone ->
        exists message,
          ModalView.createModal getFullYear toLocaleString_max1 clone movie this
          = (Throw (TypeError message), this)).
Proof.
  intros getFullYear f clone movie this. split.
  - intros Hcomplete. pose proof Hcomplete as (m & -> & _).
    destruct (createModal_complete getFullYear f m movie this Hcomplete)
      as (fragment & Heq & _ & _ & Hdirectors & Hcast & Htitle & Hsynopsis).
    exists m, fragment. split; [reflexivity|]. split; [exact Heq|].
    split; [exact Htitle|]. split; [exact Hdirectors|].
    split; [exact Hcast|exact Hsynopsis].
  - apply createModal_incomplete.
Qed.

(** A blank copy with overlay node 7, for a record without directors. *)
Lemma createModal_fills_or_throws_witness :
  exists fragment,
    ModalView.createModal no_date (fun literal => literal)
      (Some (blank_modal (Some 7%nat))) countries_only (Modal.mkMovieModal None)
    = (Return fragment, Modal.mkMovieModal (Some 7%nat))
    /\ (textContent <$> ModalView.directors_slot fragment)
       = Some "Non renseigné".
Proof.
  assert (Hcomplete : complete_modal (Some (blank_modal (Some 7%nat)))).
  { exists (blank_modal (Some 7%nat)). repeat split; eexists; reflexivity. }
  destruct (proj1 (createModal_fills_or_throws no_date (fun literal => literal)
                     (Some (blank_modal (Some 7%nat))) countries_only
                     (Modal.mkMovieModal None)) Hcomplete)
    as (m & fragment & [= <-] & Heq & _ & Hdirectors & _).
  exists fragment. split; [exact Heq|exact Hdirectors].
Defined.

(** ** The meta block of the modal *)

Lemma meta_line2_no_parts (movie : Details.MovieDetail) :
  truthy_opt_string (Details.rated movie) = false ->
  ModalView.truthy_number (Details.duration movie) = false ->
  ModalView.meta_line2 movie = [].
Proof.
  intros Hrated Hduration. unfold ModalView.meta_line2, or_string.
  rewrite Hrated, Hduration. reflexivity.
Qed.

(** X11. The countries of a movie are shown on the rating and duration line
    only: for a movie that has neither a rating nor a duration, [createModal]
    builds the same modal as for that movie without its countries. *)
Theorem createModal_drops_countries :
  forall (getFullYear : string -> option Z)
         (toLocaleString_max1 : string -> string)
         (clone : option ModalView.ModalFragment)
         (movie : Details.MovieDetail) (this : Modal.MovieModal),
    truthy_opt_string (Details.rated movie) = false ->
    ModalView.truthy_number (Details.duration movie) = false ->
    ModalView.createModal getFullYear toLocaleString_max1 clone movie this
    = ModalView.createModal getFullYear toLocaleString_max1 clone
        (without_countries movie) this.
Proof.
  intros getFullYear f clone movie this Hrated Hduration.
  unfold ModalView.createModal.
  rewrite (meta_line2_no_parts movie Hrated Hduration).
  rewrite (meta_line2_no_parts (without_countries movie) Hrated Hduration).
  reflexivity.
Qed.

(** "Alien", with its countries and no rating or duration: the meta block is
    the genre line alone. *)
Lemma createModal_drops_countries_witness :
  meta_html
    (returned (blank_modal None)
       (fst (ModalView.createModal no_date (fun literal => literal)
               (Some (blank_modal None)) countries_only
               (Modal.mkMovieModal None))))
  = "Horror, Sci-Fi".
Proof.
  rewrite (createModal_drops_countries no_date (fun literal => literal)
             (Some (blank_modal None)) countries_only (Modal.mkMovieModal None)
             eq_refl eq_refl).
  reflexivity.
Defined.

Lemma string_app_nil_r (s : string) : s +:+ "" = s.
Proof.
  induction s as [|c s IH]; [reflexivity|].
  change (String c (s +:+ "") = String c s). f_equal. exact IH.
Qed.

Lemma prefix_concat_head (sep x : string) (rest : list string) :
  String.prefix x (String.concat sep (x :: rest)) = true.
Proof.
  destruct rest as [|y rest].
  - simpl. rewrite <- (string_app_nil_r x) at 2. apply prefix_append.
  - cbn [String.concat]. apply prefix_append.
Qed.

(** X12. A movie without a year whose publication date does not parse shows
    "NaN" for its year: when it has genres, the meta block of the modal that
    [createModal] builds begins with "NaN" followed at once by the genres. *)
Theorem createModal_unparsed_date :
  forall (getFullYear : string -> option Z)
         (toLocaleString_max1 : string -> string)
         (m : ModalView.ModalFragment) (movie : Details.MovieDetail)
         (this : Modal.MovieModal) (date genre : string) (more : list string),
    complete_modal (Some m) ->
    ModalView.truthy_number (Details.year movie) = false ->
    Details.date_published movie = Some date ->
    truthy_string date = true ->
    getFullYear date = None ->
    Details.genres movie = Some (genre :: more) ->
    truthy_string (String.concat ", " (genre :: more)) = true ->
    exists fragment,
      ModalView.createModal getFullYear toLocaleString_max1 (Some m) movie this
      = (Return fragment, Modal.mkMovieModal (ModalView.overlay m))
      /\ String.prefix ("NaN" +:+ String.concat ", " (genre :: more))
           (meta_html fragment)
         = true.
Proof.
  intros getFullYear f m movie this date genre more Hcomplete Hyear Hdate
    Htruthy Hnan Hgenres Hjoined.
  destruct (createModal_complete getFullYear f m movie this Hcomplete)
    as (fragment & Heq & _ & Hmeta & _).
  exists fragment. split; [exact Heq|].
  rewrite Hmeta.
  assert (Hline1 :
    ModalView.meta_line1 getFullYear movie
    = ["NaN" +:+ String.concat ", " (genre :: more)]).
  { unfold ModalView.meta_line1, ModalView.year_of.
    rewrite Hyear, Hdate. cbn [truthy_opt_string]. rewrite Htruthy.
    change (default "" (Some date)) with date. rewrite Hnan.
    rewrite Hgenres. cbn [ModalView.join_or_empty ModalView.truthy_year orb andb].
    rewrite Hjoined. reflexivity. }
  rewrite Hline1. cbn [app]. apply prefix_concat_head.
Qed.

(** "Alien", to be published "soon". *)
Lemma createModal_unparsed_date_witness :
  exists fragment,
    ModalView.createModal no_date (fun literal => literal)
      (Some (blank_modal None)) bad_date (Modal.mkMovieModal None)
    = (Return fragment, Modal.mkMovieModal None)
    /\ meta_html fragment = "NaNHorror, Sci-Fi".
Proof.
  assert (Hcomplete : complete_modal (Some (blank_modal None))).
  { exists (blank_modal None). repeat split; eexists; reflexivity. }
  destruct (createModal_unparsed_date no_date (fun literal => literal)
              (blank_modal None) bad_date (Modal.mkMovieModal None)
              "soon" "Horror" ["Sci-Fi"] Hcomplete eq_refl eq_refl eq_refl
              eq_refl eq_refl eq_refl)
    as (fragment & Heq & _).
  exists fragment. split; [exact Heq|].
  assert (Hfragment :
    fragment
    = returned (blank_modal None)
        (fst (ModalView.createModal no_date (fun literal => literal)
                (Some (blank_modal None)) bad_date (Modal.mkMovieModal None)))).
  { rewrite Heq. reflexivity. }
  rewrite Hfragment. reflexivity.
Defined.

(** ** Showing and closing the modal *)

Section ShowModal.
Variable getFullYear : string -> option Z.
Variable toLocaleString_max1 : string -> string.
Variable fetchDetail : string -> Js Details.DetailResponse.

Lemma ModalState_eta (st : ModalView.ModalState) :
  ModalView.mkModalState (ModalView.self st) (ModalView.page st)
    (ModalView.content st) = st.
Proof. destruct st; reflexivity. Qed.

Lemma showModal_no_detail movieId clone st :
  detail_of fetchDetail movieId = None ->
  ModalView.showModal getFullYear toLocaleString_max1 fetchDetail movieId
    clone st = st.
Proof.
  intros Hdetail. unfold ModalView.showModal.
  rewrite fetchMovieDetails_outcome, Hdetail. reflexivity.
Qed.

Lemma showModal_incomplete movieId clone st :
  ~ complete_modal clone ->
  ModalView.showModal getFullYear toLocaleString_max1 fetchDetail movieId
    clone st = st.
Proof.
  intros Hincomplete. unfold ModalView.showModal.
  rewrite fetchMovieDetails_outcome.
  destruct (detail_of fetchDetail movieId) as [movie|]; [|reflexivity].
  destruct (createModal_incomplete getFullYear toLocaleString_max1 clone movie
              (ModalView.self st) Hincomplete) as [message ->].
  apply ModalState_eta.
Qed.

Lemma showModal_complete movieId m movie st :
  detail_of fetchDetail movieId = Some movie ->
  complete_modal (Some m) ->
  exists fragment,
    ModalView.showModal getFullYear toLocaleString_max1 fetchDetail movieId
      (Some m) st
    = match ModalView.overlay m with
      | Some node =>
          ModalView.mkModalState (Modal.mkMovieModal (Some node))
            (Modal.mkPage
               (<[node := ModalView.body]>
                  (Modal.parentElement (ModalView.page st))) "hidden")
            (<[node := fragment]> (ModalView.content st))
      | None =>
          ModalView.mkModalState (Modal.mkMovieModal None) (ModalView.page st)
            (ModalView.content st)
      end.
Proof.
  intros Hdetail Hcomplete. unfold ModalView.showModal.
  rewrite fetchMovieDetails_outcome, Hdetail.
  destruct (createModal_complete getFullYear toLocaleString_max1 m movie
              (ModalView.self st) Hcomplete) as (fragment & -> & _).
  exists fragment. cbn [Modal.modal].
  destruct (ModalView.overlay m); reflexivity.
Qed.
End ShowModal.

(** X13. Opening and closing is a round trip on the page. With the detail
    record fetched and a complete copy of the template whose overlay is a
    node that is not yet on the page, [showModal] attaches the overlay to the
    body, keeps it in [this.modal] and sets the body's overflow to 'hidden';
    [closeModal] then gives back the page's nodes as they were, with an empty
    overflow and no reference; the Escape key does the same. *)
Theorem showModal_closeModal_round_trip :
  forall (getFullYear : string -> option Z)
         (toLocaleString_max1 : string -> string)
         (fetchDetail : string -> Js Details.DetailResponse)
         (movieId : string) (m : ModalView.ModalFragment) (node : nat)
         (movie : Details.MovieDetail) (st : ModalView.ModalState),
    detail_of fetchDetail movieId = Some movie ->
    complete_modal (Some m) ->
    ModalView.overlay m = Some node ->
    Modal.parentElement (ModalView.page st) !! node = None ->
    let shown :=
      ModalView.showModal getFullYear toLocaleString_max1 fetchDetail movieId
        (Some m) st in
    Modal.modal (ModalView.self shown) = Some node
    /\ Modal.parentElement (ModalView.page shown)
       = <[node := ModalView.body]> (Modal.parentElement (ModalView.page st))
    /\ Modal.body_overflow (ModalView.page shown) = "hidden"
    /\ ModalView.closeModal shown
       = ModalView.mkModalState (Modal.mkMovieModal None)
           (Modal.mkPage (Modal.parentElement (ModalView.page st)) "")
           (ModalView.content shown)
    /\ ModalView.onKeydown "Escape" shown = ModalView.closeModal shown.
Proof.
  intros getFullYear f fetchDetail movieId m node movie st Hdetail Hcomplete
    Hoverlay Hfresh shown.
  destruct (showModal_complete getFullYear f fetchDetail movieId m movie st
              Hdetail Hcomplete) as (fragment & Hshown).
  rewrite Hoverlay in Hshown. subst shown. rewrite Hshown.
  repeat match goal with |- _ /\ _ => split end; try reflexivity.
  unfold ModalView.closeModal, Modal.closeModal. simpl.
  rewrite lookup_insert_eq, delete_insert_eq, delete_id by exact Hfresh.
  reflexivity.
Qed.

(** From rest, the modal of the first sample movie, opened and closed. *)
Lemma showModal_closeModal_round_trip_witness :
  let shown :=
    ModalView.showModal no_date (fun literal => literal) first_movie_details
      "1" (Some (blank_modal (Some 7%nat))) at_rest in
  Modal.modal (ModalView.self shown) = Some 7%nat
  /\ ModalView.page (ModalView.closeModal shown) = ModalView.page at_rest.
Proof.
  assert (Hcomplete : complete_modal (Some (blank_modal (Some 7%nat)))).
  { exists (blank_modal (Some 7%nat)). repeat split; eexists; reflexivity. }
  destruct (showModal_closeModal_round_trip no_date (fun literal => literal)
              first_movie_details "1" (blank_modal (Some 7%nat)) 7%nat
              (bare_detail (sample_movie 1)) at_rest eq_refl Hcomplete eq_refl
              eq_refl) as (Hmodal & _ & _ & Hclose & _).
  split; [exact Hmodal|]. rewrite Hclose. reflexivity.
Defined.

(** X14. [showModal] does not close a modal that is already open: after two
    modals are opened in a row, [closeModal] removes the second overlay only.
    The first overlay stays attached to the body, no reference to it is left,
    and neither [closeModal] nor any key changes the state again. *)
Theorem second_modal_orphans_the_first :
  forall (getFullYear : string -> option Z)
         (toLocaleString_max1 : string -> string)
         (fetchDetail : string -> Js Details.DetailResponse)
         (id1 id2 : string) (m1 m2 : ModalView.ModalFragment) (n1 n2 : nat)
         (movie1 movie2 : Details.MovieDetail) (st : ModalView.ModalState),
    detail_of fetchDetail id1 = Some movie1 ->
    detail_of fetchDetail id2 = Some movie2 ->
    complete_modal (Some m1) -> complete_modal (Some m2) ->
    ModalView.overlay m1 = Some n1 -> ModalView.overlay m2 = Some n2 ->
    n1 <> n2 ->
    let show := ModalView.showModal getFullYear toLocaleString_max1 fetchDetail in
    let closed :=
      ModalView.closeModal (show id2 (Some m2) (show id1 (Some m1) st)) in
    Modal.parentElement (ModalView.page closed) !! n1 = Some ModalView.body
    /\ Modal.parentElement (ModalView.page closed) !! n2 = None
    /\ Modal.modal (ModalView.self closed) = None
    /\ Modal.body_overflow (ModalView.page closed) = ""
    /\ ModalView.closeModal closed = closed
    /\ forall key, ModalView.onKeydown key closed = closed.
Proof.
  intros getFullYear f fetchDetail id1 id2 m1 m2 n1 n2 movie1 movie2 st
    Hd1 Hd2 Hc1 Hc2 Ho1 Ho2 Hne show closed.
  destruct (showModal_complete getFullYear f fetchDetail id1 m1 movie1 st
              Hd1 Hc1) as (fragment1 & Hshown1).
  rewrite Ho1 in Hshown1.
  destruct (showModal_complete getFullYear f fetchDetail id2 m2 movie2
              (show id1 (Some m1) st) Hd2 Hc2) as (fragment2 & Hshown2).
  rewrite Ho2 in Hshown2.
  subst closed show. rewrite Hshown2, Hshown1.
  unfold ModalView.closeModal, Modal.closeModal. simpl.
  rewrite lookup_insert_eq. simpl.
  repeat match goal with |- _ /\ _ => split end; try reflexivity.
  - rewrite lookup_delete_ne by congruence.
    rewrite lookup_insert_ne by congruence. apply lookup_insert_eq.
  - apply lookup_delete_eq.
  - intros key. unfold ModalView.onKeydown. simpl.
    destruct (String.eqb key "Escape"); reflexivity.
Qed.

(** From rest: two modals opened, one close; node 7 is still on the page. *)
Lemma second_modal_orphans_the_first_witness :
  let show := ModalView.showModal no_date (fun literal => literal)
                first_movie_details in
  Modal.parentElement
    (ModalView.page
       (ModalView.closeModal
          (show "1" (Some (blank_modal (Some 8%nat)))
             (show "1" (Some (blank_modal (Some 7%nat))) at_rest))))
  !! 7%nat = Some ModalView.body.
Proof.
  intros show.
  assert (H7 : complete_modal (Some (blank_modal (Some 7%nat)))).
  { exists (blank_modal (Some 7%nat)). repeat split; eexists; reflexivity. }
  assert (H8 : complete_modal (Some (blank_modal (Some 8%nat)))).
  { exists (blank_modal (Some 8%nat)). repeat split; eexists; reflexivity. }
  exact (proj1 (second_modal_orphans_the_first no_date (fun literal => literal)
                  first_movie_details "1" "1" (blank_modal (Some 7%nat))
                  (blank_modal (Some 8%nat)) 7%nat 8%nat
                  (bare_detail (sample_movie 1)) (bare_detail (sample_movie 1))
                  at_rest eq_refl eq_refl H7 H8 eq_refl eq_refl
                  ltac:(discriminate))).
Defined.

(** X15. [showModal] never throws, and when it cannot show a modal it leaves
    the page alone: with no detail record, or with a template that is missing
    or lacks a slot, nothing changes at all. When only the overlay is missing
    from the copy, the page is unchanged too, but [this.modal] is set to
    [null]: a modal that was open keeps its overlay on the page and
    [closeModal] does nothing about it any more. *)
Theorem showModal_failures :
  forall (getFullYear : string -> option Z)
         (toLocaleString_max1 : string -> string)
         (fetchDetail : string -> Js Details.DetailResponse)
         (movieId : string) (clone : option ModalView.ModalFragment)
         (st : ModalView.ModalState),
    let shown :=
      ModalView.showModal getFullYear toLocaleString_max1 fetchDetail movieId
        clone st in
    (detail_of fetchDetail movieId = None -> shown = st)
    /\ (~ complete_modal clone -> shown = st)
    /\ (forall m movie,
           detail_of fetchDetail movieId = Some movie ->
           clone = Some m -> complete_modal clone ->
           ModalView.overlay m = None ->
           shown
           = ModalView.mkModalState (Modal.mkMovieModal None)
               (ModalView.page st) (ModalView.content st)
           /\ ModalView.closeModal shown = shown).
Proof.
  intros getFullYear f fetchDetail movieId clone st shown. subst shown.
  split; [apply showModal_no_detail|]. split; [apply showModal_incomplete|].
  intros m movie Hdetail -> Hcomplete Hoverlay.
  destruct (showModal_complete getFullYear f fetchDetail movieId m movie st
              Hdetail Hcomplete) as (fragment & Hshown).
  rewrite Hoverlay in Hshown. rewrite Hshown. split; reflexivity.
Qed.

(** A modal is open on node 7; the next one is built from a copy without
    overlay: node 7 stays on the page and can no longer be closed. *)
Lemma showModal_failures_witness :
  let opened :=
    ModalView.mkModalState (Modal.mkMovieModal (Some 7%nat))
      (Modal.mkPage {[ 7%nat := ModalView.body ]} "hidden") ∅ in
  ModalView.closeModal
    (ModalView.showModal no_date (fun literal => literal) first_movie_details
       "1" (Some (blank_modal None)) opened)
  = ModalView.mkModalState (Modal.mkMovieModal None)
      (Modal.mkPage {[ 7%nat := ModalView.body ]} "hidden") ∅.
Proof.
  intros opened.
  assert (Hcomplete : complete_modal (Some (blank_modal None))).
  { exists (blank_modal None). repeat split; eexists; reflexivity. }
  destruct (showModal_failures no_date (fun literal => literal)
              first_movie_details "1" (Some (blank_modal None)) opened)
    as (_ & _ & Hlost).
  destruct (Hlost (blank_modal None) (bare_detail (sample_movie 1))
              eq_refl eq_refl Hcomplete eq_refl) as [Hshown Hclose].
  rewrite Hclose, Hshown. reflexivity.
Defined.



(** ** More on box-office formatting *)

(** X17. Formatting is idempotent: whatever [formatBoxOffice] returns for an
    amount, it returns unchanged when given that text again. *)
Theorem formatBoxOffice_idempotent :
  forall (toLocaleString_max1 : string -> string) (amount : Modal.Amount),
  exists text,
    Modal.formatBoxOffice toLocaleString_max1 amount = Return text
    /\ Modal.formatBoxOffice toLocaleString_max1 (Modal.AString text)
       = Return text.
Proof.
  intros f amount.
  assert (Hunknown :
    Modal.formatBoxOffice f (Modal.AString "Non renseigné")
    = Return "Non renseigné") by reflexivity.
  unfold Modal.formatBoxOffice at 1.
  destruct (negb (Modal.truthy_amount amount)) eqn:Hfalsy; [eauto|].
  destruct amount as [| |n|s]; eauto.
  - destruct (1000000 <=? n).
    + unfold Modal.toFixed. cbn [Z.ltb orb js_bind Z.eqb].
      eexists. split; reflexivity.
    + eexists. split; reflexivity.
  - destruct (Modal.starts_with_dollar s) eqn:Hdollar.
    + exists s. split; [reflexivity|].
      unfold Modal.formatBoxOffice. rewrite Hfalsy, Hdollar. reflexivity.
    + destruct (Modal.match_number_run s) as [m|] eqn:Hmatch.
      * destruct (Modal.parseFloat_literal (Modal.remove_commas m)) eqn:Hparse.
        -- eexists. split; reflexivity.
        -- exists s. split; [reflexivity|].
           unfold Modal.formatBoxOffice.
           rewrite Hfalsy, Hdollar, Hmatch, Hparse. reflexivity.
      * exists s. split; [reflexivity|].
        unfold Modal.formatBoxOffice. rewrite Hfalsy, Hdollar, Hmatch.
        reflexivity.
Qed.

Lemma round_half_even_bound (a b : Z) :
  0 < b -> 2 * Z.abs (Modal.round_half_even a b * b - a) <= b.
Proof.
  intros Hb. unfold Modal.round_half_even.
  pose proof (Z.div_mod a b ltac:(lia)) as Hdm.
  pose proof (Z.mod_pos_bound a b Hb) as Hmod.
  destruct (Z.ltb_spec (2 * (a mod b)) b).
  - lia.
  - destruct (Z.ltb_spec b (2 * (a mod b))).
    + lia.
    + destruct (Z.even (a / b)); lia.
Qed.

(** The significand of the quotient of an amount by one million is scaled by
    at least 2^19. *)
Lemma binary64_div_million (n : Z) :
  1000000 <= n < 2 ^ 53 ->
  exists shift,
    19 <= shift
    /\ Modal.binary64_div n 1000000
       = Modal.mkDouble (Modal.round_half_even (n * 2 ^ shift) 1000000)
           (- shift).
Proof.
  intros [Hlo Hhi]. unfold Modal.binary64_div.
  assert (Hlog : Z.log2 n <= 52).
  { assert (Z.log2 n < 53); [|lia]. apply Z.log2_lt_pow2; lia. }
  assert (Hlog' : 19 <= Z.log2 n).
  { change 19 with (Z.log2 1000000). apply Z.log2_le_mono. lia. }
  change (Z.log2 1000000) with 19.
  set (e := if Modal.below_pow2 n 1000000 (Z.log2 n - 19)
            then Z.log2 n - 19 - 1 else Z.log2 n - 19).
  assert (He : e <= 33) by (subst e; destruct (Modal.below_pow2 _ _ _); lia).
  exists (52 - e). split; [lia|].
  destruct (Z.leb_spec 0 (52 - e)); [reflexivity|lia].
Qed.

Lemma single_digit_text (d : Z) :
  0 <= d < 10 -> Modal.pad_zeros 1 (string_of_Z d) = string_of_Z d.
Proof.
  intros Hd.
  assert (Hcases : d = 0 \/ d = 1 \/ d = 2 \/ d = 3 \/ d = 4 \/ d = 5
                   \/ d = 6 \/ d = 7 \/ d = 8 \/ d = 9) by lia.
  repeat (destruct Hcases as [-> | Hcases]; [reflexivity|]).
  subst d. reflexivity.
Qed.

Lemma tenths_of_millions (n m shift : Z) :
  1000000 <= n -> 19 <= shift ->
  2 * Z.abs (m * 1000000 - n * 2 ^ shift) <= 1000000 ->
  let k := (2 * m * 10 ^ 1 + 2 ^ shift) / (2 * 2 ^ shift) in
  Z.abs (100000 * k - n) <= 50000.
Proof.
  intros Hn Hshift Hm k.
  assert (HS : 2 ^ 19 <= 2 ^ shift) by (apply Z.pow_le_mono_r; lia).
  change (2 ^ 19) with 524288 in HS.
  set (S := 2 ^ shift) in *.
  change (10 ^ 1) with 10 in k.
  pose proof (Z.div_mod (2 * m * 10 + S) (2 * S) ltac:(lia)) as Hdm.
  pose proof (Z.mod_pos_bound (2 * m * 10 + S) (2 * S) ltac:(lia)) as Hmod.
  fold k in Hdm.
  set (D := 100000 * k - n).
  assert (Hupper : S * (20 * D - 1000000) <= 10000000) by (subst D; lia).
  assert (Hlower : - 10000000 < S * (20 * D + 1000000)) by (subst D; lia).
  destruct (Z.le_gt_cases D 50000) as [Hle|Hgt].
  - destruct (Z.le_gt_cases (- 50000) D) as [Hge|Hlt]; [lia|].
    exfalso.
    assert (S * (20 * D + 1000000) <= S * (- 20)).
    { apply Z.mul_le_mono_nonneg_l; lia. }
    lia.
  - exfalso.
    assert (S * 20 <= S * (20 * D - 1000000)).
    { apply Z.mul_le_mono_nonneg_l; lia. }
    lia.
Qed.

(** X18. For every whole amount from one million up to 2^53,
    [formatBoxOffice] shows the amount in millions rounded to the nearest
    tenth: the text is '$', the tenths [k] written with one decimal, and 'm',
    and [k] tenths of a million differ from the amount by at most 50000. The
    binary64 division never makes the figure wrong by a tenth. *)
Theorem formatBoxOffice_rounds_to_tenths :
  forall (toLocaleString_max1 : string -> string) (n : Z),
    1000000 <= n < 2 ^ 53 ->
    exists k,
      Modal.formatBoxOffice toLocaleString_max1 (Modal.ANumber n)
      = Return ("$" +:+ string_of_Z (k / 10) +:+ "." +:+ string_of_Z (k mod 10)
                +:+ "m")
      /\ Z.abs (100000 * k - n) <= 50000.
Proof.
  intros f n Hn.
  destruct (binary64_div_million n Hn) as (shift & Hshift & Hdiv).
  pose proof (round_half_even_bound (n * 2 ^ shift) 1000000 ltac:(lia)) as Hm.
  set (m := Modal.round_half_even (n * 2 ^ shift) 1000000) in *.
  exists ((2 * m * 10 ^ 1 + 2 ^ shift) / (2 * 2 ^ shift)). split.
  - unfold Modal.formatBoxOffice.
    assert (Htruthy : Modal.truthy_amount (Modal.ANumber n) = true).
    { simpl. destruct (Z.eqb_spec n 0); [lia|reflexivity]. }
    rewrite Htruthy. cbn [negb].
    destruct (Z.leb_spec 1000000 n); [|lia].
    rewrite Hdiv. unfold Modal.toFixed, Modal.nearest_scaled.
    cbn [Modal.mantissa Modal.exponent Z.ltb orb Z.eqb js_bind].
    destruct (Z.leb_spec 0 (- shift)); [lia|].
    rewrite Z.opp_involutive.
    change (Z.to_nat 1) with 1%nat. change (10 ^ 1) with 10.
    rewrite single_digit_text by (apply Z.mod_pos_bound; lia).
    change ((1 <? 0) || (100 <? 1)) with false. cbn [js_bind].
    f_equal. change ("$" +:+ ?x) with (String "$" x). cbn [String.append].
    f_equal. rewrite <- !string_app_assoc. reflexivity.
  - apply (tenths_of_millions n m shift); [lia|exact Hshift|exact Hm].
Qed.

(** 123456789 is shown as 1235 tenths of a million. *)
Lemma formatBoxOffice_rounds_to_tenths_witness :
  exists k,
    Modal.formatBoxOffice (fun literal => literal) (Modal.ANumber 123456789)
    = Return ("$" +:+ string_of_Z (k / 10) +:+ "." +:+ string_of_Z (k mod 10)
              +:+ "m")
    /\ Z.abs (100000 * k - 123456789) <= 50000.
Proof.
  apply (formatBoxOffice_rounds_to_tenths (fun literal => literal) 123456789).
  split; [lia|reflexivity].
Defined.

(** ** Generated placeholders *)

Lemma markup_safe_app (a b : string) :
  markup_safe (a +:+ b) = markup_safe a && markup_safe b.
Proof.
  induction a as [|c a IH]; [reflexivity|].
  change (markup_safe (String c (a +:+ b))
          = markup_safe (String c a) && markup_safe b).
  unfold markup_safe in *. cbn [string_forall].
  rewrite IH. rewrite andb_assoc. reflexivity.
Qed.

Lemma markup_safe_encoded_char (c : ascii) :
  markup_safe
    (if is_unreserved c then String c EmptyString else percent_escape c)
  = true.
Proof. destruct c as [[] [] [] [] [] [] [] []]; reflexivity. Qed.

Lemma markup_safe_encodeURIComponent (text : string) :
  markup_safe (encodeURIComponent text) = true.
Proof.
  induction text as [|c text IH]; [reflexivity|].
  cbn [encodeURIComponent]. rewrite markup_safe_app, IH.
  rewrite markup_safe_encoded_char. reflexivity.
Qed.

Lemma markup_safe_uint (d : Decimal.uint) :
  markup_safe (NilEmpty.string_of_uint d) = true.
Proof. induction d; [reflexivity|exact IHd ..]. Qed.

Lemma markup_safe_string_of_Z (n : Z) : markup_safe (string_of_Z n) = true.
Proof.
  unfold string_of_Z, NilZero.string_of_int, NilZero.string_of_uint.
  destruct (Z.to_int n) as [d|d].
  - destruct d; try apply markup_safe_uint. reflexivity.
  - change (markup_safe
              (match d with
               | Decimal.Nil => "0"
               | _ => NilEmpty.string_of_uint d
               end) = true).
    destruct d; try apply markup_safe_uint. reflexivity.
Qed.

(** X19. Whatever the text, the width and the height, the placeholder that
    [createFallbackImageUrl] builds, and the one that the legacy
    [createMovieCard] builds from the title, contain no double quote, no [#],
    no [&], no [<] and no [>]: a title cannot end the data URL or the
    attribute that holds it. *)
Theorem placeholders_are_markup_safe :
  forall (text : string) (width height : Z),
    markup_safe (UiComponents.createFallbackImageUrl text width height) = true
    /\ markup_safe (HtmlInject.card_placeholder text) = true.
Proof.
  intros text width height. split.
  - unfold UiComponents.createFallbackImageUrl.
    rewrite !markup_safe_app, !markup_safe_string_of_Z,
      markup_safe_encodeURIComponent.
    reflexivity.
  - unfold HtmlInject.card_placeholder.
    rewrite !markup_safe_app, markup_safe_encodeURIComponent.
    reflexivity.
Qed.

(** ** The genre dropdown *)

Lemma createGenreDropdown_options_returns genres dflt :
  UiComponents.createGenreDropdown_options genres (Some dflt)
  = Return
      (map (fun genre =>
              UiComponents.mkOption (value genre) (label genre)
                (bool_decide (value genre = value dflt)))
         genres).
Proof.
  induction genres as [|genre rest IH]; [reflexivity|].
  cbn [UiComponents.createGenreDropdown_options]. rewrite IH. reflexivity.
Qed.

Lemma Legacy_createGenreDropdown_options_returns genres dflt :
  HtmlInject.createGenreDropdown_options genres (Some dflt)
  = UiComponents.createGenreDropdown_options genres (Some dflt).
Proof.
  induction genres as [|genre rest IH]; [reflexivity|].
  cbn [HtmlInject.createGenreDropdown_options
       UiComponents.createGenreDropdown_options].
  rewrite IH. reflexivity.
Qed.

Lemma onChange_finds (genres : list GenreOption) (i : nat) (g : GenreOption) :
  NoDup (value <$> genres) -> genres !! i = Some g ->
  Dropdown.onChange genres (value g) = Some g.
Proof.
  unfold Dropdown.onChange.
  revert i. induction genres as [|g0 rest IH]; intros i Hnd Hi.
  - discriminate.
  - cbn [List.find]. rewrite fmap_cons in Hnd.
    apply NoDup_cons in Hnd as [Hnotin Hnd].
    destruct i as [|i].
    + injection Hi as ->. rewrite bool_decide_eq_true_2 by reflexivity.
      reflexivity.
    + cbn in Hi. rewrite bool_decide_eq_false_2.
      * apply (IH i Hnd Hi).
      * intros Heq. apply Hnotin. rewrite Heq.
        apply list_elem_of_fmap. exists g. split; [reflexivity|].
        apply list_elem_of_lookup. exists i. exact Hi.
Qed.

(** X20. When the genres of a dropdown have pairwise distinct values, the
    option that [createGenreDropdown] builds at position [i] carries the
    value and the label of the genre at position [i], is selected exactly
    when that value is the default's, and choosing it hands that very genre
    to [onSelect]. Both copies of [createGenreDropdown] build the same
    options. *)
Theorem dropdown_round_trip :
  forall (genres : list GenreOption) (dflt : GenreOption) (i : nat)
         (g : GenreOption),
    NoDup (value <$> genres) ->
    genres !! i = Some g ->
    exists options opt,
      UiComponents.createGenreDropdown_options genres (Some dflt)
      = Return options
      /\ HtmlInject.createGenreDropdown_options genres (Some dflt)
         = Return options
      /\ length options = length genres
      /\ options !! i = Some opt
      /\ UiComponents.option_value opt = value g
      /\ UiComponents.option_text opt = label g
      /\ UiComponents.option_selected opt = bool_decide (value g = value dflt)
      /\ Dropdown.onChange genres (UiComponents.option_value opt) = Some g.
Proof.
  intros genres dflt i g Hnd Hi.
  eexists. eexists.
  split; [apply createGenreDropdown_options_returns|].
  split; [rewrite Legacy_createGenreDropdown_options_returns;
          apply createGenreDropdown_options_returns|].
  split; [apply length_map|].
  split; [rewrite list_lookup_fmap, Hi; reflexivity|].
  cbn [UiComponents.option_value UiComponents.option_text
       UiComponents.option_selected].
  repeat match goal with |- _ /\ _ => split end; try reflexivity.
  apply (onChange_finds genres i g Hnd Hi).
Qed.

(** The second of two genres. *)
Lemma dropdown_round_trip_witness :
  exists options opt,
    UiComponents.createGenreDropdown_options sample_genres
      (Some (mkGenreOption "Action" "Action"))
    = Return options
    /\ HtmlInject.createGenreDropdown_options sample_genres
         (Some (mkGenreOption "Action" "Action"))
       = Return options
    /\ length options = length sample_genres
    /\ options !! 1%nat = Some opt
    /\ UiComponents.option_value opt = "Horror"
    /\ UiComponents.option_text opt = "Horreur"
    /\ UiComponents.option_selected opt = false
    /\ Dropdown.onChange sample_genres (UiComponents.option_value opt)
       = Some (mkGenreOption "Horreur" "Horror").
Proof.
  apply (dropdown_round_trip sample_genres (mkGenreOption "Action" "Action")
           1 (mkGenreOption "Horreur" "Horror")).
  - vm_compute. repeat constructor; set_solver.
  - reflexivity.
Defined.

(** ** The two fetch modules *)

Lemma fetchGenres_loops_agree {T} (fetch : string -> Js (Response T))
    (fuel page : nat) (acc : list T) :
  FecthFunctions.fetchGenres_loop fetch fuel page acc
  = Api.fetchGenres_loop fetch fuel page acc.
Proof.
  revert page acc. induction fuel as [|fuel IH]; intros page acc;
    [reflexivity|].
  cbn [FecthFunctions.fetchGenres_loop Api.fetchGenres_loop].
  rewrite Fecth_fetchPage_outcome, Api_fetchPage_outcome.
  change FecthFunctions.GENRES_URL with genres_url.
  change (Api.baseUrl +:+ Api.genresEndpoint) with genres_url.
  rewrite !js_bind_return.
  destruct (no_next_page _); [reflexivity|apply IH].
Qed.

(** X21. On every backend the functions of fecth_functions.js give what
    their api.js counterparts give: [fetchPage] the same outcome for the
    same URL, page and query, [fetchTitles] that of [fetchMovies], and
    [fetchGenres] the list that the api.js [fetchGenres] returns for a cap of
    five pages. The [catch] block of the legacy [fetchGenres], the one
    without a [return], is never the one that answers: the result is never
    undefined. *)
Theorem legacy_fetchers_agree :
  forall (T : Type) (fetch : string -> Js (Response T)),
    (forall url page args,
        FecthFunctions.fetchPage fetch url page args
        = Api.fetchPage fetch url page args)
    /\ (forall page args,
           FecthFunctions.fetchTitles fetch page args
           = Api.fetchMovies fetch page args)
    /\ (exists genres,
           Api.fetchGenres fetch 5 = Return genres
           /\ FecthFunctions.fetchGenres fetch = Return (Some genres)).
Proof.
  intros T fetch. split; [|split].
  - intros url page args.
    rewrite Fecth_fetchPage_outcome, Api_fetchPage_outcome. reflexivity.
  - intros page args.
    rewrite Fecth_fetchTitles_outcome, Api_fetchMovies_outcome. reflexivity.
  - destruct (Api_fetchGenres_loop_spec fetch 5 1 []) as (k & _ & Heq).
    eexists. split.
    + unfold Api.fetchGenres. rewrite Heq. reflexivity.
    + unfold FecthFunctions.fetchGenres.
      rewrite fetchGenres_loops_agree, Heq. reflexivity.
Qed.
